(** * Retrieval-augmented question answering: ingestion and query Lambdas

    A shallow embedding of [doc_ingestor.py] and [query_processor.py] and
    of the Python library functions they call, followed by the properties
    of the chunking, embedding, indexing and query-handling code. *)

From Stdlib Require Import List NArith ZArith Bool Arith Lia.
From Stdlib Require String Ascii DecimalString.
Import ListNotations String.StringSyntax.

Delimit Scope string_scope with string.
Bind Scope string_scope with String.string.

Set Implicit Arguments.
Set Warnings "-register-all".
Set Warnings "-abstract-large-number".

(** ** Python values *)

Module Py.

(** A [str] is a sequence of Unicode code points; [len] is [length]. *)
Definition str := list N.

Definition py (s : String.string) : str :=
  map Ascii.N_of_ascii (String.list_ascii_of_string s).
Arguments py s%_string.

Definition str_eqb (a b : str) : bool :=
  if list_eq_dec N.eq_dec a b then true else false.

Definition nonempty {A} (l : list A) : bool :=
  match l with [] => false | _ :: _ => true end.

(** [str.isspace] on one code point (CPython's [_PyUnicode_IsWhitespace]). *)
Definition isspace (c : N) : bool :=
  (((9 <=? c) && (c <=? 13)) || ((28 <=? c) && (c <=? 32))
   || (c =? 133) || (c =? 160) || (c =? 5760)
   || ((8192 <=? c) && (c <=? 8202))
   || (c =? 8232) || (c =? 8233) || (c =? 8239) || (c =? 8287)
   || (c =? 12288))%N.

Fixpoint lstrip (s : str) : str :=
  match s with
  | c :: r => if isspace c then lstrip r else s
  | [] => []
  end.

Definition rstrip (s : str) : str := rev (lstrip (rev s)).

(** [s.strip()] *)
Definition strip (s : str) : str := rstrip (lstrip s).

(** [s.strip() == ''] *)
Definition blank (s : str) : bool := forallb isspace s.

Definition cons_word (w : str) (ws : list str) : list str :=
  match w with [] => ws | _ :: _ => w :: ws end.

(** [split_aux s] is the word in progress at the front of [s] and the
    words after it. *)
Fixpoint split_aux (s : str) : str * list str :=
  match s with
  | [] => ([], [])
  | c :: r =>
      let '(w, ws) := split_aux r in
      if isspace c then ([], cons_word w ws) else (c :: w, ws)
  end.

(** [s.split()]: the maximal runs of non-whitespace characters. *)
Definition split (s : str) : list str :=
  let '(w, ws) := split_aux s in cons_word w ws.

(** [sep.join(parts)] *)
Fixpoint join (sep : str) (parts : list str) : str :=
  match parts with
  | [] => []
  | [p] => p
  | p :: rest => p ++ sep ++ join sep rest
  end.

(** [s] between double quotes *)
Definition quoted (s : str) : str := [34%N] ++ s ++ [34%N].

(** [s[:n]] for [n >= 0] *)
Definition prefix (n : nat) (s : str) : str := firstn n s.

(** [needle in haystack] on strings *)
Fixpoint starts_with (needle s : str) : bool :=
  match needle, s with
  | [], _ => true
  | a :: n', b :: s' => (a =? b)%N && starts_with n' s'
  | _ :: _, [] => false
  end.

Fixpoint contains (needle s : str) : bool :=
  starts_with needle s ||
  match s with
  | [] => false
  | _ :: r => contains needle r
  end.

(** *** ASCII

    On ASCII characters the character classes and the case mappings of
    [str] are the ones below. *)

Definition is_ascii (c : N) : bool := (c <? 128)%N.

Definition ascii_isdecimal (c : N) : bool := ((48 <=? c) && (c <=? 57))%N.

Definition ascii_isalnum (c : N) : bool :=
  (ascii_isdecimal c || ((65 <=? c) && (c <=? 90))
   || ((97 <=? c) && (c <=? 122)))%N.

Definition ascii_upper (s : str) : str :=
  map (fun c => if ((97 <=? c) && (c <=? 122))%N then (c - 32)%N else c) s.

Definition ascii_lower (s : str) : str :=
  map (fun c => if ((65 <=? c) && (c <=? 90))%N then (c + 32)%N else c) s.

(** Exceptions (subclasses of [Exception]) by [type(e).__name__] and
    [str(e)]. *)
Record exn := Exn { exc_type : str; exc_str : str }.

Inductive result (A : Type) : Type :=
| Ok (a : A)
| Raise (e : exn).
Arguments Ok {A} a.
Arguments Raise {A} e.

Definition ValueError (msg : str) : exn := Exn (py "ValueError") msg.
Definition RuntimeError (msg : str) : exn := Exn (py "RuntimeError") msg.
Definition TypeError (msg : str) : exn := Exn (py "TypeError") msg.
Definition AttributeError (msg : str) : exn := Exn (py "AttributeError") msg.

Definition KeyError (shown : str) : exn := Exn (py "KeyError") shown.
Definition IndexError (msg : str) : exn := Exn (py "IndexError") msg.

(** A decoded JSON document, as [json.loads] builds it.  A [dict] keeps
    its keys in insertion order; a [float] is carried by its [repr]. *)
Inductive value : Type :=
| VNone
| VBool (b : bool)
| VInt (n : Z)
| VFloat (repr : str)
| VStr (s : str)
| VList (items : list value)
| VDict (items : list (str * value)).

(** [type(v).__name__] *)
Definition type_name (v : value) : str :=
  match v with
  | VNone => py "NoneType"
  | VBool _ => py "bool"
  | VInt _ => py "int"
  | VFloat _ => py "float"
  | VStr _ => py "str"
  | VList _ => py "list"
  | VDict _ => py "dict"
  end.

(** [bool(v)] *)
Definition truthy (v : value) : bool :=
  match v with
  | VNone => false
  | VBool b => b
  | VInt n => negb (n =? 0)%Z
  | VFloat r => negb (str_eqb r (py "0.0") || str_eqb r (py "-0.0"))
  | VStr s => nonempty s
  | VList l => nonempty l
  | VDict kv => nonempty kv
  end.

(** [a or b] *)
Definition py_or (a b : value) : value := if truthy a then a else b.

Fixpoint dict_lookup (kv : list (str * value)) (k : str) : option value :=
  match kv with
  | [] => None
  | (k', v) :: rest => if str_eqb k' k then Some v else dict_lookup rest k
  end.

(** [d[k] = v] on a dict: a present key keeps its place. *)
Fixpoint dict_set (kv : list (str * value)) (k : str) (v : value)
  : list (str * value) :=
  match kv with
  | [] => [(k, v)]
  | (k', v') :: rest =>
      if str_eqb k' k then (k', v) :: rest else (k', v') :: dict_set rest k v
  end.

(** [{**base, **extra}] *)
Definition dict_merge (base extra : list (str * value)) : list (str * value) :=
  fold_left (fun acc kv => dict_set acc (fst kv) (snd kv)) extra base.

Definition no_attribute (v : value) (attr : String.string) : exn :=
  AttributeError
    (py "'" ++ type_name v ++ py "' object has no attribute '" ++ py attr
     ++ py "'").

(** [v.get(k, default)] *)
Definition get (v : value) (k : String.string) (default : value) : result value :=
  match v with
  | VDict kv =>
      Ok (match dict_lookup kv (py k) with Some x => x | None => default end)
  | _ => Raise (no_attribute v "get")
  end.

Definition is_str_eq (k : str) (v : value) : bool :=
  match v with VStr s => str_eqb s k | _ => false end.

(** [k in v] for a string [k] *)
Definition py_in (k : String.string) (v : value) : result bool :=
  match v with
  | VDict kv =>
      Ok (match dict_lookup kv (py k) with Some _ => true | None => false end)
  | VList l => Ok (existsb (is_str_eq (py k)) l)
  | VStr s => Ok (contains (py k) s)
  | _ =>
      Raise (TypeError
               (py "argument of type '" ++ type_name v
                ++ py "' is not iterable"))
  end.

Definition not_subscriptable (v : value) : exn :=
  TypeError (py "'" ++ type_name v ++ py "' object is not subscriptable").

(** [v[k]] for one of the key literals of the source, whose [repr] is the
    key between single quotes *)
Definition getitem (v : value) (k : String.string) : result value :=
  match v with
  | VDict kv =>
      match dict_lookup kv (py k) with
      | Some x => Ok x
      | None => Raise (KeyError (py "'" ++ py k ++ py "'"))
      end
  | VList _ =>
      Raise (TypeError (py "list indices must be integers or slices, not str"))
  | VStr _ =>
      Raise (TypeError (py "string indices must be integers, not 'str'"))
  | _ => Raise (not_subscriptable v)
  end.

(** [v[0]]; the keys of a decoded JSON object are strings, never [0] *)
Definition getitem0 (v : value) : result value :=
  match v with
  | VList (x :: _) => Ok x
  | VList [] => Raise (IndexError (py "list index out of range"))
  | VStr (c :: _) => Ok (VStr [c])
  | VStr [] => Raise (IndexError (py "string index out of range"))
  | VDict _ => Raise (KeyError (py "0"))
  | _ => Raise (not_subscriptable v)
  end.

(** [len(v)] *)
Definition len (v : value) : result nat :=
  match v with
  | VStr s => Ok (length s)
  | VList l => Ok (length l)
  | VDict kv => Ok (length kv)
  | _ =>
      Raise (TypeError
               (py "object of type '" ++ type_name v ++ py "' has no len()"))
  end.

Definition is_list (v : value) : bool :=
  match v with VList _ => true | _ => false end.

Definition is_dict (v : value) : bool :=
  match v with VDict _ => true | _ => false end.

Definition is_none (v : value) : bool :=
  match v with VNone => true | _ => false end.

(** [iter(v)] as the list of the items a [for] loop visits *)
Definition iterate (v : value) : result (list value) :=
  match v with
  | VList l => Ok l
  | VDict kv => Ok (map (fun p => VStr (fst p)) kv)
  | VStr s => Ok (map (fun c => VStr [c]) s)
  | _ =>
      Raise (TypeError (py "'" ++ type_name v ++ py "' object is not iterable"))
  end.

(** *** [json.dumps] with the default options *)

Definition decimal (n : Z) : str :=
  py (DecimalString.NilZero.string_of_int (Z.to_int n)).

Definition hex_digit (d : N) : N :=
  (if d <? 10 then 48 + d else 87 + d)%N.

(** [format(n, '04x')] for [n < 0x10000] *)
Definition hex4 (n : N) : str :=
  [hex_digit (N.shiftr n 12 mod 16); hex_digit (N.shiftr n 8 mod 16);
   hex_digit (N.shiftr n 4 mod 16); hex_digit (n mod 16)]%N.

(** *** [str.encode] with the default options

    UTF-8 has no encoding for the surrogate code points: [s.encode()]
    raises on the first of them, or on the run of them that begins
    there. *)

Definition is_surrogate (c : N) : bool :=
  ((55296 <=? c) && (c <=? 57343))%N.

(** How many surrogates [s] begins with. *)
Fixpoint surrogates (s : str) : nat :=
  match s with
  | c :: r => if is_surrogate c then S (surrogates r) else 0
  | [] => 0
  end.

Definition UnicodeEncodeError (msg : str) : exn :=
  Exn (py "UnicodeEncodeError") msg.

(** The failure on the [n] surrogates at [start], the first being [c]. *)
Definition surrogates_not_allowed (start : nat) (c : N) (n : nat) : exn :=
  UnicodeEncodeError
    (py "'utf-8' codec can't encode "
     ++ (if n =? 1 then
           py "character '\u" ++ hex4 c ++ py "' in position "
           ++ decimal (Z.of_nat start)
         else
           py "characters in position " ++ decimal (Z.of_nat start) ++ py "-"
           ++ decimal (Z.of_nat (start + n - 1)))
     ++ py ": surrogates not allowed").

Fixpoint encode_from (pos : nat) (s : str) : result unit :=
  match s with
  | [] => Ok tt
  | c :: r =>
      if is_surrogate c
      then Raise (surrogates_not_allowed pos c (S (surrogates r)))
      else encode_from (S pos) r
  end.

(** [s.encode()], as far as it returns or raises: the bytes themselves
    only go to [hashlib.md5]. *)
Definition encode (s : str) : result unit := encode_from 0 s.

Definition escape_char (c : N) : str :=
  (if c =? 34 then py "\" ++ [34]
   else if c =? 92 then py "\\"
   else if c =? 10 then py "\n"
   else if c =? 13 then py "\r"
   else if c =? 9 then py "\t"
   else if c =? 8 then py "\b"
   else if c =? 12 then py "\f"
   else if (32 <=? c) && (c <=? 126) then [c]
   else if c <? 65536 then py "\u" ++ hex4 c
   else
     let n := c - 65536 in
     py "\u" ++ hex4 (N.lor 55296 (N.land (N.shiftr n 10) 1023))
     ++ py "\u" ++ hex4 (N.lor 56320 (N.land n 1023)))%N.

Definition dumps_str (s : str) : str :=
  [34%N] ++ flat_map escape_char s ++ [34%N].

Definition dumps_float (r : str) : str :=
  if str_eqb r (py "nan") then py "NaN"
  else if str_eqb r (py "inf") then py "Infinity"
  else if str_eqb r (py "-inf") then py "-Infinity"
  else r.

Fixpoint dumps (v : value) : str :=
  match v with
  | VNone => py "null"
  | VBool true => py "true"
  | VBool false => py "false"
  | VInt n => decimal n
  | VFloat r => dumps_float r
  | VStr s => dumps_str s
  | VList l => py "[" ++ join (py ", ") (map dumps l) ++ py "]"
  | VDict kv =>
      py "{"
      ++ join (py ", ")
           (map (fun p => dumps_str (fst p) ++ py ": " ++ dumps (snd p)) kv)
      ++ py "}"
  end.

End Py.

(** ** [textwrap.wrap] with the default options *)

Module Textwrap.
Import Py.

Section Wrapper.

(** The Unicode character database: [str.isalnum] and [str.isdecimal] on
    one code point, which give the regular-expression classes [\w] and
    [\d]. *)
Variables isalnum isdecimal : N -> bool.

(** [string.whitespace] *)
Definition whitespace (c : N) : bool :=
  ((c =? 9) || (c =? 10) || (c =? 11) || (c =? 12) || (c =? 13)
   || (c =? 32))%N.

Definition nowhitespace (c : N) : bool := negb (whitespace c).

Definition hyphen : N := 45.
Definition is_hyphen (c : N) : bool := (c =? hyphen)%N.

(** [\w] *)
Definition word_char (c : N) : bool := isalnum c || (c =? 95)%N.

(** [[^\d\W]] *)
Definition letter (c : N) : bool := word_char c && negb (isdecimal c).

(** The class [word_punct]: a word character or one of the marks
    ! & . , ? and the two quotation marks (34 and 39). *)
Definition word_punct (c : N) : bool :=
  (word_char c || (c =? 33) || (c =? 34) || (c =? 39) || (c =? 38)
   || (c =? 46) || (c =? 44) || (c =? 63))%N.

(** [text.expandtabs(tabsize)], from column [col] *)
Fixpoint expandtabs_from (tabsize col : nat) (s : str) : str :=
  match s with
  | [] => []
  | c :: r =>
      if (c =? 9)%N then
        if 0 <? tabsize then
          let incr := tabsize - col mod tabsize in
          repeat 32%N incr ++ expandtabs_from tabsize (col + incr) r
        else expandtabs_from tabsize col r
      else
        c :: expandtabs_from tabsize
               (if ((c =? 10) || (c =? 13))%N then 0 else S col) r
  end.

Definition expandtabs (tabsize : nat) (s : str) : str :=
  expandtabs_from tabsize 0 s.

(** [text.translate(unicode_whitespace_trans)] *)
Definition translate_whitespace (s : str) : str :=
  map (fun c => if whitespace c then 32%N else c) s.

Definition _munge_whitespace (text : str) : str :=
  translate_whitespace (expandtabs 8 text).

(** *** [wordsep_re] *)

Fixpoint span_len (p : N -> bool) (s : str) : nat :=
  match s with
  | c :: r => if p c then S (span_len p r) else 0
  | [] => 0
  end.

(** [-{2,}(?=\w)] tried greedily on [s], whose first [k] characters are
    hyphens: the largest count from [k] down to 2 that a word character
    follows. *)
Fixpoint dashes_then_word (k : nat) (s : str) : option nat :=
  match k with
  | S (S _ as k') =>
      match nth_error s k with
      | Some c => if word_char c then Some k else dashes_then_word k' s
      | None => dashes_then_word k' s
      end
  | _ => None
  end.

(** [(?<=wp)-{2,}(?=\w)]; [before] is the text on the left of the
    position, nearest character first. *)
Definition em_dash (before after : str) : option nat :=
  match before with
  | p :: _ =>
      if word_punct p then dashes_then_word (span_len is_hyphen after) after
      else None
  | [] => None
  end.

(** [-(?:(?<=lt{2}-)|(?<=lt-lt-))(?=lt-?lt)] after a word prefix *)
Definition hyphenated_end (before after : str) : bool :=
  match after with
  | h :: rest =>
      is_hyphen h &&
      (match before with
       | l1 :: l2 :: more =>
           (letter l1 && letter l2)
           || (letter l1 && is_hyphen l2 &&
               match more with l3 :: _ => letter l3 | [] => false end)
       | _ => false
       end) &&
      (match rest with
       | a :: b :: more =>
           letter a &&
           ((is_hyphen b &&
             match more with c :: _ => letter c | [] => false end)
            || letter b)
       | _ => false
       end)
  | [] => false
  end.

(** [(?=ws|\Z)] *)
Definition end_of_word (after : str) : bool :=
  match after with
  | c :: _ => whitespace c
  | [] => true
  end.

(** [(?<=wp)(?=-{2,}\w)] *)
Definition em_dash_ahead (before after : str) : bool :=
  match before with
  | p :: _ =>
      word_punct p &&
      match dashes_then_word (span_len is_hyphen after) after with
      | Some _ => true
      | None => false
      end
  | [] => false
  end.

(** [nws+?(?:hyphenated|end of word|em-dash)]: the lazy loop takes one
    more character each time no ending matches. *)
Fixpoint word_alt (before after : str) : option nat :=
  match after with
  | [] => None
  | c :: rest =>
      if whitespace c then None
      else
        let before' := c :: before in
        if hyphenated_end before' rest then Some 2
        else if end_of_word rest then Some 1
        else if em_dash_ahead before' rest then Some 1
        else option_map S (word_alt before' rest)
  end.

(** Length of the match of [wordsep_re] at a position, if any. *)
Definition match_at (before after : str) : option nat :=
  let k := span_len whitespace after in
  if 0 <? k then Some k
  else match em_dash before after with
       | Some n => Some n
       | None => word_alt before after
       end.

(** [wordsep_re.split(text)]: the pieces between matches, interleaved
    with the matches.  [piece] is the unmatched text since the last match,
    in reverse. *)
Fixpoint split_loop (fuel : nat) (before piece after : str) : list str :=
  match after with
  | [] => [rev piece]
  | c :: rest =>
      match fuel with
      | O => [rev piece ++ after]
      | S fuel' =>
          match match_at before after with
          | Some n =>
              let m := firstn n after in
              rev piece :: m ::
                split_loop fuel' (rev m ++ before) [] (skipn n after)
          | None => split_loop fuel' (c :: before) (c :: piece) rest
          end
      end
  end.

Definition re_split (text : str) : list str :=
  split_loop (length text) [] [] text.

(** [[c for c in wordsep_re.split(text) if c]] *)
Definition _split (text : str) : list str := filter nonempty (re_split text).

Definition _split_chunks (text : str) : list str :=
  _split (_munge_whitespace text).

(** *** [_wrap_chunks] *)

Definition total_len (l : list str) : nat :=
  fold_right (fun c n => length c + n) 0 l.

(** The inner [while]: chunks are popped onto the line while they fit. *)
Fixpoint fill_line (width cur_len : nat) (chunks : list str)
  : list str * list str :=
  match chunks with
  | c :: rest =>
      if cur_len + length c <=? width then
        let '(taken, remaining) := fill_line width (cur_len + length c) rest in
        (c :: taken, remaining)
      else ([], chunks)
  | [] => ([], [])
  end.

(** [chunk.rfind('-', 0, stop)] *)
Fixpoint rfind_hyphen_from (i : nat) (s : str) (stop : nat) : option nat :=
  match stop, s with
  | S stop', c :: r =>
      match rfind_hyphen_from (S i) r stop' with
      | Some j => Some j
      | None => if is_hyphen c then Some i else None
      end
  | _, _ => None
  end.

Definition rfind_hyphen (s : str) (stop : nat) : option nat :=
  rfind_hyphen_from 0 s stop.

(** [_handle_long_word] with [break_long_words] and [break_on_hyphens]
    set: returns the line and the chunk stack after the call.  [cur_len]
    never exceeds [width] here, so [width - cur_len] is exact on [nat]. *)
Definition _handle_long_word (chunk : str) (rest cur_line : list str)
    (cur_len width : nat) : list str * list str :=
  let space_left := if width <? 1 then 1 else width - cur_len in
  let end_ :=
    if space_left <? length chunk then
      match rfind_hyphen chunk space_left with
      | Some h =>
          if (0 <? h) && existsb (fun c => negb (is_hyphen c)) (firstn h chunk)
          then h + 1 else space_left
      | None => space_left
      end
    else space_left in
  (cur_line ++ [firstn end_ chunk], skipn end_ chunk :: rest).

Definition drop_trailing_blank (cur_line : list str) : list str :=
  match rev cur_line with
  | last :: front => if blank last then rev front else cur_line
  | [] => cur_line
  end.

(** One pass of the outer [while]: the lines and the chunk stack after
    it. *)
Definition wrap_step (width : nat) (lines chunks : list str)
  : list str * list str :=
  let chunks1 :=
    match chunks with
    | c :: r => if blank c && nonempty lines then r else chunks
    | [] => chunks
    end in
  let '(cur_line, chunks2) := fill_line width 0 chunks1 in
  let '(cur_line2, chunks3) :=
    match chunks2 with
    | c :: r =>
        if width <? length c
        then _handle_long_word c r cur_line (total_len cur_line) width
        else (cur_line, chunks2)
    | [] => (cur_line, chunks2)
    end in
  let cur_line3 := drop_trailing_blank cur_line2 in
  (if nonempty cur_line3 then lines ++ [concat cur_line3] else lines,
   chunks3).

(** The outer [while chunks:] loop; [None] when [fuel] passes do not
    empty the stack. *)
Fixpoint wrap_loop (fuel width : nat) (lines chunks : list str)
  : option (list str) :=
  match chunks with
  | [] => Some lines
  | _ :: _ =>
      match fuel with
      | O => None
      | S fuel' =>
          let '(lines', chunks') := wrap_step width lines chunks in
          wrap_loop fuel' width lines' chunks'
      end
  end.

(** Passes that always suffice: each one removes a chunk or a character. *)
Definition wrap_budget (chunks : list str) : nat :=
  total_len chunks + length chunks.

(** [_wrap_chunks]; the loop ends within [wrap_budget chunks] passes, so
    the last branch is never taken. *)
Definition _wrap_chunks (width : Z) (chunks : list str) : result (list str) :=
  if (width <=? 0)%Z then
    Raise (ValueError
             (py "invalid width " ++ decimal width ++ py " (must be > 0)"))
  else
    match wrap_loop (wrap_budget chunks) (Z.to_nat width) [] chunks with
    | Some lines => Ok lines
    | None => Ok []
    end.

(** [textwrap.wrap(text, width)] *)
Definition wrap (text : str) (width : Z) : result (list str) :=
  _wrap_chunks width (_split_chunks text).

End Wrapper.

End Textwrap.

(** ** [logging]: levels and records *)

Module Logging.
Import Py.

Definition CRITICAL : Z := 50.
Definition FATAL : Z := CRITICAL.
Definition ERROR : Z := 40.
Definition WARNING : Z := 30.
Definition WARN : Z := WARNING.
Definition INFO : Z := 20.
Definition DEBUG : Z := 10.
Definition NOTSET : Z := 0.

Definition _nameToLevel : list (str * Z) :=
  [(py "CRITICAL", CRITICAL); (py "FATAL", FATAL); (py "ERROR", ERROR);
   (py "WARN", WARNING); (py "WARNING", WARNING); (py "INFO", INFO);
   (py "DEBUG", DEBUG); (py "NOTSET", NOTSET)].

Fixpoint level_of (table : list (str * Z)) (name : str) : option Z :=
  match table with
  | [] => None
  | (k, n) :: rest => if str_eqb k name then Some n else level_of rest name
  end.

(** The attributes of the module that are numbers are its level
    constants, under the names of [_nameToLevel]. *)
Definition constant (name : str) : option Z := level_of _nameToLevel name.

(** An object as [setLevel] tells them apart: an [int], a [str], or
    anything else; the last two come with their [repr]. *)
Inductive object : Type :=
| Int (n : Z)
| Str (s : str) (shown : str)
| Other (shown : str).

(** [_checkLevel(level)], whose result [setLevel] stores *)
Definition _checkLevel (level : object) : result Z :=
  match level with
  | Int n => Ok n
  | Str s shown =>
      match level_of _nameToLevel s with
      | Some n => Ok n
      | None => Raise (ValueError (py "Unknown level: " ++ shown))
      end
  | Other shown =>
      Raise (TypeError
               (py "Level not an integer or a valid string: " ++ shown))
  end.

(** A call of [logger.info] or [logger.error]: the level, the message
    and its arguments. *)
Record log_record : Type :=
  LogRecord { levelno : Z; msg : str; args : list str }.

(** [isEnabledFor(level)] on a logger that has no level of its own and
    whose parent is the root logger, set to [root_level], nothing being
    disabled: the effective level is the root's. *)
Definition isEnabledFor (root_level level : Z) : bool :=
  (root_level <=? level)%Z.

(** The records that are made and handed to the handlers of the root
    logger, here the handler that buffers them. *)
Definition handled (root_level : Z) (records : list log_record)
  : list log_record :=
  filter (fun r => isEnabledFor root_level (levelno r)) records.

End Logging.

(** ** The Lambda runtime: libraries, environment and remote services *)

Module Lambda.
Import Py.

(** The remote calls a handler makes, with their arguments. *)
Inductive call : Type :=
| S3GetObject (bucket key : value)
| InvokeModel (model_id body : str)
| IndicesExists (index : str)
| IndicesCreate (index : str) (body : value)
| IndexDocument (index : str) (body : value)
| SearchIndex (index : str) (body : value).

(** What the handlers take as given.  The [unicode_] fields are the
    Unicode character database on characters and text outside ASCII;
    [md5_hexdigest k] is [hashlib.md5(k.encode()).hexdigest()], for a key
    that [encode] accepts, and
    [format_value v] is [str(v)]; [logging_attribute] gives the
    attributes of the [logging] module other than its level constants.
    A service answers a call from the
    state [W] of the outside world and moves it; it answers with a value
    or with the exception the client raises.  [bedrock_invoke_model]
    answers with the response body as [json.loads] decodes it, and
    [s3_get_object] with the object body decoded as UTF-8. *)
Record runtime (W : Type) : Type := Runtime {
  unicode_isalnum : N -> bool;
  unicode_isdecimal : N -> bool;
  unicode_upper : str -> str;
  unicode_lower : str -> str;
  json_loads : str -> result value;
  md5_hexdigest : str -> str;
  format_value : value -> str;
  environ : str -> option str;
  logging_attribute : str -> option Logging.object;
  s3_get_object : value -> value -> W -> result str * W;
  bedrock_invoke_model : str -> str -> W -> result value * W;
  os_indices_exists : str -> W -> result bool * W;
  os_indices_create : str -> value -> W -> result unit * W;
  os_index : str -> value -> W -> result unit * W;
  os_search : str -> value -> W -> result value * W
}.

(** The world and the calls made so far, oldest first. *)
Record state (W : Type) : Type := State { world : W; calls : list call }.

Definition M (W A : Type) : Type := state W -> result A * state W.

Definition ret {W A} (a : A) : M W A := fun st => (Ok a, st).

Definition raise {W A} (e : exn) : M W A := fun st => (Raise e, st).

Definition bind {W A B} (m : M W A) (k : A -> M W B) : M W B :=
  fun st =>
    match m st with
    | (Ok a, st') => k a st'
    | (Raise e, st') => (Raise e, st')
    end.

Definition lift {W A} (r : result A) : M W A := fun st => (r, st).

(** [try: body / except Exception as e: handler(e)] *)
Definition try_except {W A} (body : M W A) (handler : exn -> M W A) : M W A :=
  fun st =>
    match body st with
    | (Ok a, st') => (Ok a, st')
    | (Raise e, st') => handler e st'
    end.

Definition rbind {A B} (r : result A) (k : A -> result B) : result B :=
  match r with
  | Ok a => k a
  | Raise e => Raise e
  end.

Fixpoint rmap {A B} (f : A -> result B) (l : list A) : result (list B) :=
  match l with
  | [] => Ok []
  | x :: rest =>
      rbind (f x) (fun y => rbind (rmap f rest) (fun ys => Ok (y :: ys)))
  end.

(** A service call: answered by the world, and recorded. *)
Definition perform {W A} (c : call) (svc : W -> result A * W) : M W A :=
  fun st =>
    let '(r, w') := svc (world st) in
    (r, State w' (calls st ++ [c])).

Declare Scope exec_scope.
Delimit Scope exec_scope with exec.
Notation "x <- c ;; k" := (bind c (fun x => k))
  (at level 61, c at next level, right associativity) : exec_scope.
Notation "x <~ c ;; k" := (rbind c (fun x => k))
  (at level 61, c at next level, right associativity) : exec_scope.

(** [for i, x in enumerate(l, start): body(i, x)] *)
Fixpoint for_each {W A} (body : nat -> A -> M W unit) (start : nat)
    (l : list A) : M W unit :=
  match l with
  | [] => ret tt
  | x :: rest => bind (body start x) (fun _ => for_each body (S start) rest)
  end.

(** Code whose log is kept as well: beside the result and the state, the
    records it hands to the logger, oldest first. *)
Definition LM (W A : Type) : Type :=
  state W -> (result A * state W) * list Logging.log_record.

(** Code taken without its log lines. *)
Definition quiet {W A} (m : M W A) : LM W A := fun st => (m st, []).

Definition log {W} (levelno : Z) (msg : String.string) (args : list str)
  : LM W unit :=
  fun st => ((Ok tt, st), [Logging.LogRecord levelno (py msg) args]).

Definition info {W} := @log W Logging.INFO.
Definition error {W} := @log W Logging.ERROR.

Definition lbind {W A B} (m : LM W A) (k : A -> LM W B) : LM W B :=
  fun st =>
    match m st with
    | ((Ok a, st'), l1) => let '(r, l2) := k a st' in (r, l1 ++ l2)
    | ((Raise e, st'), l1) => ((Raise e, st'), l1)
    end.

Definition ltry_except {W A} (body : LM W A) (handler : exn -> LM W A)
  : LM W A :=
  fun st =>
    match body st with
    | ((Ok a, st'), l1) => ((Ok a, st'), l1)
    | ((Raise e, st'), l1) => let '(r, l2) := handler e st' in (r, l1 ++ l2)
    end.

(** The code without its log. *)
Definition silent {W A} (m : LM W A) : M W A := fun st => fst (m st).

Notation "x <-- c ;; k" := (lbind c (fun x => k))
  (at level 61, c at next level, right associativity) : exec_scope.

(** A call made [n] times in a row. *)
Fixpoint times {W} (n : nat) (m : M W unit) : M W unit :=
  match n with
  | 0 => ret tt
  | S n' => bind m (fun _ => times n' m)
  end.

Section Config.
Variable W : Type.
Variable rt : runtime W.

(** [str.isalnum] and [str.isdecimal] on one character *)
Definition isalnum (c : N) : bool :=
  if is_ascii c then ascii_isalnum c else unicode_isalnum rt c.

Definition isdecimal (c : N) : bool :=
  if is_ascii c then ascii_isdecimal c else unicode_isdecimal rt c.

(** [s.upper()] and [s.lower()] *)
Definition upper (s : str) : str :=
  if forallb is_ascii s then ascii_upper s else unicode_upper rt s.

Definition lower (s : str) : str :=
  if forallb is_ascii s then ascii_lower s else unicode_lower rt s.

(** [os.environ.get(name, default)] *)
Definition getenv (name default : String.string) : str :=
  match environ rt (py name) with
  | Some v => v
  | None => py default
  end.

(** [log_level], which both modules set when they are loaded:
    [os.environ.get("LOG_LEVEL", "INFO").upper()] *)
Definition log_level : str := upper (getenv "LOG_LEVEL" "INFO").

(** [getattr(logging, name, default)] *)
Definition logging_getattr (name : str) (default : Logging.object)
  : Logging.object :=
  match Logging.constant name with
  | Some n => Logging.Int n
  | None =>
      match logging_attribute rt name with
      | Some o => o
      | None => default
      end
  end.

(** The statements both handlers begin with: the handlers of the root
    logger are replaced by one that buffers the records, and
    [root_logger.setLevel(getattr(logging, log_level, logging.INFO))]
    sets the level of the root logger, which is the result. *)
Definition install_logging : result Z :=
  Logging._checkLevel (logging_getattr log_level (Logging.Int Logging.INFO)).

End Config.

(** The index mapping both Lambdas create. *)
Definition index_config : value :=
  let text := VDict [(py "type", VStr (py "text"))] in
  let keyword := VDict [(py "type", VStr (py "keyword"))] in
  let integer := VDict [(py "type", VStr (py "integer"))] in
  let date := VDict [(py "type", VStr (py "date"))] in
  VDict
    [(py "settings", VDict [(py "index.knn", VBool true)]);
     (py "mappings",
      VDict
        [(py "properties",
          VDict
            [(py "embedding",
              VDict
                [(py "type", VStr (py "knn_vector"));
                 (py "dimension", VInt 1024);
                 (py "space_type", VStr (py "cosinesimil"));
                 (py "mode", VStr (py "on_disk"));
                 (py "compression_level", VStr (py "16x"));
                 (py "method",
                  VDict
                    [(py "name", VStr (py "hnsw"));
                     (py "engine", VStr (py "faiss"));
                     (py "parameters",
                      VDict [(py "m", VInt 16);
                             (py "ef_construction", VInt 100)])])]);
             (py "chunk_text", text);
             (py "doc_id", keyword);
             (py "chunk_id", integer);
             (py "title", text);
             (py "section", text);
             (py "source", keyword);
             (py "s3_key", keyword);
             (py "url", keyword);
             (py "tags", keyword);
             (py "token_count", integer);
             (py "created_at", date);
             (py "updated_at", date)])])].

End Lambda.

(** ** [doc_ingestor.py] *)

Module DocIngestor.
Import Py Lambda.
Local Open Scope exec_scope.

Section Ingestor.
Variable W : Type.
Variable rt : runtime W.

Definition EMBED_MODEL_ID : str :=
  getenv rt "EMBED_MODEL_ID" "amazon.titan-embed-text-v2:0".

Definition OPENSEARCH_INDEX : str := getenv rt "OPENSEARCH_INDEX" "kb_chunks".

(** The [except Exception] clause logs the failure and returns. *)
Definition ensure_index_exists : M W unit :=
  try_except
    (found <- perform (IndicesExists OPENSEARCH_INDEX)
                (os_indices_exists rt OPENSEARCH_INDEX) ;;
     if found then ret tt
     else
       perform (IndicesCreate OPENSEARCH_INDEX index_config)
         (os_indices_create rt OPENSEARCH_INDEX index_config))
    (fun _ => ret tt).

(** [ensure_index_exists] with its log lines. *)
Definition ensure_index_exists_logged : LM W unit :=
  ltry_except
    (found <-- quiet (perform (IndicesExists OPENSEARCH_INDEX)
                        (os_indices_exists rt OPENSEARCH_INDEX)) ;;
     if found then info "Index %s already exists" [OPENSEARCH_INDEX]
     else
       _ <-- info "Creating index %s" [OPENSEARCH_INDEX] ;;
       _ <-- quiet (perform (IndicesCreate OPENSEARCH_INDEX index_config)
                      (os_indices_create rt OPENSEARCH_INDEX index_config)) ;;
       info "Successfully created index %s" [OPENSEARCH_INDEX])
    (fun e => error "Error ensuring index exists: %s" [exc_str e]).

Definition chunk_text (text : str) (max_len : Z) : result (list str) :=
  Textwrap.wrap (isalnum rt) (isdecimal rt) text max_len.

(** The [for output_item in payload["outputs"]] loop: the embedding of the
    first item that is a dict with that key. *)
Fixpoint first_output_embedding (outputs : list value) : option value :=
  match outputs with
  | [] => None
  | VDict kv :: rest =>
      match dict_lookup kv (py "embedding") with
      | Some e => Some e
      | None => first_output_embedding rest
      end
  | _ :: rest => first_output_embedding rest
  end.

Definition no_embedding_message (payload : value) : str :=
  py "No 'embedding' found in model response: " ++ prefix 1000 (dumps payload).

(** The body of [embed] after the response is decoded.  [len(embedding)]
    is evaluated for the log line before the embedding is returned. *)
Definition parse_embedding (payload : value) : result value :=
  direct <~ py_in "embedding" payload ;;
  if direct then
    embedding <~ getitem payload "embedding" ;;
    _ <~ len embedding ;;
    Ok embedding
  else
    has_outputs <~ py_in "outputs" payload ;;
    outputs <~ (if has_outputs then getitem payload "outputs" else Ok VNone) ;;
    match outputs with
    | VList items =>
        match first_output_embedding items with
        | Some embedding => _ <~ len embedding ;; Ok embedding
        | None => Raise (RuntimeError (no_embedding_message payload))
        end
    | _ => Raise (RuntimeError (no_embedding_message payload))
    end.

Definition native_request (text : str) (dimensions : option Z)
    (normalize : option bool) : value :=
  let r0 := [(py "inputText", VStr text)] in
  let r1 :=
    match dimensions with
    | Some d => dict_set r0 (py "dimensions") (VInt d)
    | None => r0
    end in
  let r2 :=
    match normalize with
    | Some b => dict_set r1 (py "normalize") (VBool b)
    | None => r1
    end in
  VDict r2.

(** [model_id or EMBED_MODEL_ID] *)
Definition model_or_default (model_id : option str) : str :=
  match model_id with
  | Some (c :: m) => c :: m
  | _ => EMBED_MODEL_ID
  end.

(** Both [except] clauses of [embed] log and re-raise. *)
Definition embed (text : str) (dimensions : option Z)
    (normalize : option bool) (model_id : option str) : M W value :=
  let model_id := model_or_default model_id in
  let body := dumps (native_request text dimensions normalize) in
  payload <- perform (InvokeModel model_id body)
               (bedrock_invoke_model rt model_id body) ;;
  lift (parse_embedding payload).

Definition chunk_document (doc_id : str) (chunk_id : nat)
    (chunk_text_value : str) (vec : value) (meta : list (str * value))
  : value :=
  VDict
    (dict_merge
       [(py "doc_id", VStr doc_id);
        (py "chunk_id", VInt (Z.of_nat chunk_id));
        (py "chunk_text", VStr chunk_text_value);
        (py "embedding", vec)]
       meta).

Definition index_chunk (doc_id : str) (chunk_id : nat)
    (chunk_text_value : str) (vec : value) (meta : list (str * value))
  : M W unit :=
  _ <- lift (len vec) ;;
  let body := chunk_document doc_id chunk_id chunk_text_value vec meta in
  perform (IndexDocument OPENSEARCH_INDEX body)
    (os_index rt OPENSEARCH_INDEX body).

Definition document_meta (key : str) : list (str * value) :=
  [(py "source", VStr (py "s3")); (py "s3_key", VStr key)].

(** [record["s3"]["bucket"]["name"]] and [record["s3"]["object"]["key"]] *)
Definition record_source (record : value) : result (value * value) :=
  s3v <~ getitem record "s3" ;;
  bucketv <~ getitem s3v "bucket" ;;
  bucket <~ getitem bucketv "name" ;;
  s3v' <~ getitem record "s3" ;;
  objectv <~ getitem s3v' "object" ;;
  key <~ getitem objectv "key" ;;
  Ok (bucket, key).

(** The chunks of one document, embedded and indexed in turn. *)
Definition index_chunks (doc_id : str) (meta : list (str * value))
    (chunks : list str) : M W unit :=
  for_each
    (fun i chunk_text_value =>
       vec <- embed chunk_text_value None None None ;;
       index_chunk doc_id i chunk_text_value vec meta)
    0 chunks.

(** The body of the loop over [records]. *)
Definition process_record (record : value) : M W unit :=
  source <- lift (record_source record) ;;
  let '(bucket, key) := source in
  text <- perform (S3GetObject bucket key) (s3_get_object rt bucket key) ;;
  match key with
  | VStr key =>
      _ <- lift (encode key) ;;
      let doc_id := md5_hexdigest rt key in
      let meta := document_meta key in
      chunks <- lift (chunk_text text 1200) ;;
      index_chunks doc_id meta chunks
  | _ => raise (no_attribute key "encode")
  end.

(** [handler] from its first log line on, whose argument is
    [len(event.get("Records", []))]; the [finally] clause only prints the
    buffered log. *)
Definition handler (event : value) : M W value :=
  logged <- lift (get event "Records" (VList [])) ;;
  _ <- lift (len logged) ;;
  _ <- ensure_index_exists ;;
  records <- lift (get event "Records" (VList [])) ;;
  items <- lift (iterate records) ;;
  _ <- for_each (fun _ record => process_record record) 0 items ;;
  ret (VDict [(py "ok", VBool true)]).

(** [handler(event, context)] as the Lambda runtime calls it: the set-up
    of the log, then the rest. *)
Definition lambda_handler (event : value) : M W value :=
  _ <- lift (install_logging rt) ;;
  handler event.

End Ingestor.
End DocIngestor.

(** ** [query_processor.py] *)

Module QueryProcessor.
Import Py Lambda.
Local Open Scope exec_scope.

Section Processor.
Variable W : Type.
Variable rt : runtime W.

Definition EMBED_MODEL_ID : str :=
  getenv rt "EMBED_MODEL_ID" "amazon.titan-embed-text-v2:0".

Definition GEN_MODEL_ID : str :=
  getenv rt "GEN_MODEL_ID" "anthropic.claude-3-5-sonnet-20241022-v2:0".

Definition GEN_INFERENCE_PROFILE_ID : option str :=
  environ rt (py "GEN_INFERENCE_PROFILE_ID").

Definition INDEX : str := getenv rt "OPENSEARCH_INDEX" "kb_chunks".

Definition CORS_ALLOW_ORIGIN : str := getenv rt "CORS_ALLOW_ORIGIN" "*".

Definition CORS_HEADERS : list (str * value) :=
  [(py "Access-Control-Allow-Origin", VStr CORS_ALLOW_ORIGIN);
   (py "Access-Control-Allow-Headers", VStr (py "Content-Type, Authorization"));
   (py "Access-Control-Allow-Methods", VStr (py "POST, OPTIONS"))].

Definition _response (status : Z) (body_obj : option value)
    (headers : option (list (str * value))) : value :=
  let base_headers :=
    dict_merge [(py "Content-Type", VStr (py "application/json"))]
      CORS_HEADERS in
  let base_headers :=
    match headers with
    | Some (h :: hs) => dict_merge base_headers (h :: hs)
    | _ => base_headers
    end in
  VDict
    [(py "statusCode", VInt status);
     (py "headers", VDict base_headers);
     (py "body",
      VStr (match body_obj with Some b => dumps b | None => [] end))].

(** The [except Exception] clause logs the failure and returns. *)
Definition ensure_index_exists : M W unit :=
  try_except
    (found <- perform (IndicesExists INDEX) (os_indices_exists rt INDEX) ;;
     if found then ret tt
     else
       perform (IndicesCreate INDEX index_config)
         (os_indices_create rt INDEX index_config))
    (fun _ => ret tt).

(** [ensure_index_exists] with its log lines. *)
Definition ensure_index_exists_logged : LM W unit :=
  ltry_except
    (found <-- quiet (perform (IndicesExists INDEX)
                        (os_indices_exists rt INDEX)) ;;
     if found then info "Index %s already exists" [INDEX]
     else
       _ <-- info "Creating index %s" [INDEX] ;;
       _ <-- quiet (perform (IndicesCreate INDEX index_config)
                      (os_indices_create rt INDEX index_config)) ;;
       info "Successfully created index %s" [INDEX])
    (fun e => error "Error ensuring index exists: %s" [exc_str e]).

(** The [except] clause of [embed] logs and re-raises. *)
Definition embed (text : str) : M W value :=
  let body := dumps (VDict [(py "inputText", VStr text)]) in
  payload <- perform (InvokeModel EMBED_MODEL_ID body)
               (bedrock_invoke_model rt EMBED_MODEL_ID body) ;;
  lift (embedding <~ getitem payload "embedding" ;;
        _ <~ len embedding ;;
        Ok embedding).

(** [h["_source"].get("s3_key") or h["_source"].get("source")] *)
Definition logged_source (h : value) : result value :=
  src <~ getitem h "_source" ;;
  a <~ get src "s3_key" VNone ;;
  if truthy a then Ok a
  else src' <~ getitem h "_source" ;; get src' "source" VNone.

Definition context_of_hit (h : value) : result value :=
  s1 <~ get h "_source" (VDict []) ;;
  text <~ get s1 "chunk_text" (VStr []) ;;
  s2 <~ get h "_source" (VDict []) ;;
  a <~ get s2 "s3_key" VNone ;;
  source <~ (if truthy a then Ok a
             else s3 <~ get h "_source" (VDict []) ;; get s3 "source" VNone) ;;
  score <~ get h "_score" VNone ;;
  Ok (VDict [(py "text", text); (py "source", source); (py "score", score)]).

Definition search (vec : value) (k : Z) : M W (list value) :=
  _ <- lift (len vec) ;;
  let query :=
    VDict [(py "knn",
            VDict [(py "embedding",
                    VDict [(py "vector", vec); (py "k", VInt k)])])] in
  let body := VDict [(py "size", VInt k); (py "query", query)] in
  res <- perform (SearchIndex INDEX body) (os_search rt INDEX body) ;;
  lift (h1 <~ get res "hits" (VDict []) ;;
        hits <~ get h1 "hits" (VList []) ;;
        h2 <~ get res "hits" (VDict []) ;;
        total_field <~ get h2 "total" VNone ;;
        _ <~ (if is_dict total_field then get total_field "value" VNone
              else Ok total_field) ;;
        items <~ iterate hits ;;
        _ <~ rmap logged_source items ;;
        rmap context_of_hit items).

(** [f"{v}"] *)
Definition formatted (v : value) : str :=
  match v with
  | VStr s => s
  | _ => format_value rt v
  end.

Definition system_instruction : str :=
  py "You are an AWS tutor. Only answer using the provided Context. "
  ++ py "If the Context is insufficient or off-topic, say you don't know. "
  ++ py "Always include citations as [Snippet N] where N matches the provided snippets. "
  ++ py "Never use external knowledge.".

Fixpoint snippets (i : nat) (contexts : list value) : result (list str) :=
  match contexts with
  | [] => Ok []
  | c :: rest =>
      text <~ getitem c "text" ;;
      more <~ snippets (S i) rest ;;
      Ok ((py "Snippet " ++ decimal (Z.of_nat (i + 1)) ++ py ":" ++ [10%N]
           ++ formatted text) :: more)
  end.

Definition model_id_to_use : str :=
  match GEN_INFERENCE_PROFILE_ID with
  | Some (c :: p) => c :: p
  | _ => GEN_MODEL_ID
  end.

Definition is_anthropic : bool :=
  contains (py "anthropic") (lower rt model_id_to_use).

Definition request_body (prompt : str) : value :=
  let base :=
    [(py "messages",
      VList
        [VDict
           [(py "role", VStr (py "user"));
            (py "content",
             VList [VDict [(py "type", VStr (py "text"));
                           (py "text", VStr prompt)]])]]);
     (py "max_tokens", VInt 500)] in
  VDict
    (if is_anthropic
     then dict_set base (py "anthropic_version") (VStr (py "bedrock-2023-05-31"))
     else base).

(** The branch for Anthropic models: the [text] of the first content
    block, or [None]. *)
Definition anthropic_answer (payload : value) : result value :=
  c <~ get payload "content" VNone ;;
  let content := py_or c (VList []) in
  if truthy content && is_list content then
    first <~ getitem0 content ;;
    has_text <~ py_in "text" first ;;
    if has_text then getitem first "text" else Ok VNone
  else Ok VNone.

(** The branch for the other models: [output[0]["content"][0]["text"]],
    or [None]. *)
Definition nested_answer (payload : value) : result value :=
  o <~ get payload "output" VNone ;;
  let output := py_or o (VList []) in
  if truthy output && is_list output then
    first <~ getitem0 output ;;
    content <~ get first "content" VNone ;;
    if truthy content then
      first' <~ getitem0 output ;;
      content' <~ getitem first' "content" ;;
      if is_list content' then
        block <~ getitem0 content' ;;
        text <~ get block "text" VNone ;;
        if is_none text then Ok VNone else getitem block "text"
      else Ok VNone
    else Ok VNone
  else Ok VNone.

Definition parse_answer (payload : value) : result value :=
  answer <~ (if is_anthropic then anthropic_answer payload
             else nested_answer payload) ;;
  if is_none answer then
    Raise (ValueError (py "Unexpected model response format"))
  else _ <~ len answer ;; Ok answer.

Definition build_prompt (question : str) (parts : list str) : str :=
  let context_blob := join [10%N; 10%N] parts in
  let nl := [10%N] in
  system_instruction ++ nl ++ nl ++ py "Question:" ++ nl ++ question
  ++ nl ++ nl ++ py "Context:" ++ nl ++ context_blob ++ nl ++ nl
  ++ py "Answer:".

(** The [except] clause of [answer_with_context] logs and re-raises. *)
Definition answer_with_context (question : str) (contexts : list value)
  : M W value :=
  parts <- lift (snippets 0 contexts) ;;
  let body := dumps (request_body (build_prompt question parts)) in
  payload <- perform (InvokeModel model_id_to_use body)
               (bedrock_invoke_model rt model_id_to_use body) ;;
  lift (parse_answer payload).

(** The upper-cased [method] of [event["requestContext"]["http"]], each
    level read with [get] and a default: an empty dict, and the empty
    string for the method. *)
Definition http_method (event : value) : result str :=
  rc <~ get event "requestContext" (VDict []) ;;
  http <~ get rc "http" (VDict []) ;;
  m <~ get (py_or http (VDict [])) "method" (VStr []) ;;
  match m with
  | VStr s => Ok (upper rt s)
  | _ => Raise (no_attribute m "upper")
  end.

(** [json.loads(event.get("body") or "{}")] *)
Definition request_json (event : value) : result value :=
  b <~ get event "body" VNone ;;
  match py_or b (VStr (py "{}")) with
  | VStr text => json_loads rt text
  | other =>
      Raise (TypeError
               (py "the JSON object must be str, bytes or bytearray, not "
                ++ type_name other))
  end.

(** The [question] of the body, the empty string by default, stripped
    and cut to 4000 characters *)
Definition request_question (body : value) : result str :=
  q <~ get body "question" (VStr []) ;;
  match q with
  | VStr s =>
      let question := strip s in
      Ok (if 4000 <? length question then prefix 4000 question else question)
  | _ => Raise (no_attribute q "strip")
  end.

(** The [sources] of the answer, numbered from 1; the contexts are the
    dicts [search] builds. *)
Fixpoint numbered_sources (i : nat) (contexts : list value) : list value :=
  match contexts with
  | [] => []
  | c :: rest =>
      VDict
        (dict_merge [(py "snippet_index", VInt (Z.of_nat (i + 1)))]
           (match c with VDict kv => kv | _ => [] end))
      :: numbered_sources (S i) rest
  end.

Definition preflight_response : value :=
  VDict [(py "statusCode", VInt 204);
         (py "headers", VDict CORS_HEADERS);
         (py "body", VStr [])].

(** The [try] block of [handler]. *)
Definition handler_try (event : value) : M W value :=
  _ <- ensure_index_exists ;;
  method <- lift (http_method event) ;;
  if str_eqb method (py "OPTIONS") then ret preflight_response
  else
    body <- lift (request_json event) ;;
    question <- lift (request_question body) ;;
    if negb (nonempty question) then
      ret (_response 400
             (Some (VDict [(py "error", VStr (py "question required"))]))
             None)
    else
      qvec <- embed question ;;
      contexts <- search qvec 5 ;;
      answer <- answer_with_context question contexts ;;
      ret (_response 200
             (Some (VDict [(py "answer", answer);
                           (py "sources",
                            VList (numbered_sources 0 contexts))]))
             None).

(** [os.environ.get("DEBUG_PUBLIC_ERRORS", "false").lower()
      in ("1", "true", "yes")] *)
Definition debug_public_errors : bool :=
  let flag := lower rt (getenv rt "DEBUG_PUBLIC_ERRORS" "false") in
  str_eqb flag (py "1") || str_eqb flag (py "true") || str_eqb flag (py "yes").

Definition internal_error : value :=
  VDict [(py "error", VStr (py "internal_error"))].

(** The [except Exception as e] clause of [handler]. *)
Definition handler_except (e : exn) : value :=
  if debug_public_errors then
    _response 500
      (Some (VDict [(py "error", VStr (py "internal_error"));
                    (py "error_type", VStr (exc_type e));
                    (py "message", VStr (prefix 500 (exc_str e)))]))
      None
  else _response 500 (Some internal_error) None.

(** The [try] statement of [handler]; the [finally] clause only prints
    the buffered log. *)
Definition handler (event : value) : M W value :=
  try_except (handler_try event) (fun e => ret (handler_except e)).

(** [handler(event, ctx)] as the Lambda runtime calls it: the set-up of
    the log, then the [try] statement. *)
Definition lambda_handler (event : value) : M W value :=
  _ <- lift (install_logging rt) ;;
  handler event.

End Processor.
End QueryProcessor.

(** ** Notions the statements use *)

Module Words.
Import Py Textwrap.

(** The text has no hyphen. *)
Definition no_hyphen (text : str) : bool :=
  forallb (fun c => negb (is_hyphen c)) text.



End Words.

(** Kinds of remote call, and the shapes of model responses. *)

Module Shapes.
Import Py Lambda.



Definition is_provisioning_call (c : call) : bool :=
  match c with IndicesExists _ | IndicesCreate _ _ => true | _ => false end.


(** The documents written to the index, oldest first. *)
Fixpoint index_writes (cs : list call) : list value :=
  match cs with
  | [] => []
  | IndexDocument _ body :: rest => body :: index_writes rest
  | _ :: rest => index_writes rest
  end.

(** The object has a member [embedding]. *)
Definition direct_shape (payload : value) : bool :=
  match payload with
  | VDict kv =>
      match dict_lookup kv (py "embedding") with Some _ => true | None => false end
  | _ => false
  end.

(** The object has a list [outputs] with an item of the direct shape. *)
Definition nested_shape (payload : value) : bool :=
  match payload with
  | VDict kv =>
      match dict_lookup kv (py "outputs") with
      | Some (VList items) => existsb direct_shape items
      | _ => false
      end
  | _ => false
  end.

(** The membership tests of the embedder are defined on the response and
    find nothing in it that is not a member: it is an object; or it is an
    array or a string in which neither ["embedding"] nor ["outputs"]
    occurs. *)
Definition plain_container (payload : value) : bool :=
  match payload with
  | VDict _ => true
  | VList items =>
      negb (existsb (is_str_eq (py "embedding")) items)
      && negb (existsb (is_str_eq (py "outputs")) items)
  | VStr s =>
      negb (contains (py "embedding") s) && negb (contains (py "outputs") s)
  | _ => false
  end.

Definition direct_response (vector : list value) : value :=
  VDict [(py "embedding", VList vector)].

Definition nested_response (vector : list value) : value :=
  VDict [(py "outputs", VList [VDict [(py "embedding", VList vector)]])].

(** The [text] member of a content block, when it is not [None]. *)
Definition block_text (block : value) : option value :=
  match block with
  | VDict kv =>
      match dict_lookup kv (py "text") with
      | Some t => if is_none t then None else Some t
      | None => None
      end
  | _ => None
  end.

(** The text of an Anthropic response: [content] is a list and its first
    block has a text. *)
Definition content_list_text (payload : value) : option value :=
  match payload with
  | VDict kv =>
      match dict_lookup kv (py "content") with
      | Some (VList (block :: _)) => block_text block
      | _ => None
      end
  | _ => None
  end.

(** The text of a nested response: [output] is a list whose first item
    has a list [content] whose first block has a text. *)
Definition nested_output_text (payload : value) : option value :=
  match payload with
  | VDict kv =>
      match dict_lookup kv (py "output") with
      | Some (VList (item :: _)) => content_list_text item
      | _ => None
      end
  | _ => None
  end.

(** The response is an object, and the first item of its [content] and
    [output] lists, and the first block of that item, are objects. *)
Definition first_block_is_object (v : option value) : bool :=
  match v with
  | Some (VList (x :: _)) => is_dict x
  | _ => true
  end.

Definition blocks_are_objects (payload : value) : bool :=
  match payload with
  | VDict kv =>
      first_block_is_object (dict_lookup kv (py "content"))
      && match dict_lookup kv (py "output") with
         | Some (VList (VDict item :: _)) =>
             first_block_is_object (dict_lookup item (py "content"))
         | Some (VList (_ :: _)) => false
         | _ => true
         end
  | _ => false
  end.

(** A text that has characters. *)
Definition textual_content (v : option value) : bool :=
  match v with
  | Some (VStr (_ :: _)) => true
  | _ => false
  end.

(** The test ["text" in block] is defined on the block and leaves it
    alone: the block is an object; or it is an array or a string in
    which ["text"] does not occur. *)
Definition text_testable (block : value) : bool :=
  match block with
  | VDict _ => true
  | VList l => negb (existsb (is_str_eq (py "text")) l)
  | VStr s => negb (contains (py "text") s)
  | _ => false
  end.

(** The lookups of the branch for Anthropic models are defined: the
    response is an object, and the first item of a [content] list is
    [text_testable]. *)
Definition content_readable (payload : value) : bool :=
  match payload with
  | VDict kv =>
      match dict_lookup kv (py "content") with
      | Some (VList (block :: _)) => text_testable block
      | _ => true
      end
  | _ => false
  end.

(** The lookups of the branch for the other models are defined: the
    response is an object, and the first item of an [output] list and
    the first item of its [content] list are objects. *)
Definition output_readable (payload : value) : bool :=
  match payload with
  | VDict kv =>
      match dict_lookup kv (py "output") with
      | Some (VList (VDict item :: _)) =>
          match dict_lookup item (py "content") with
          | Some (VList (block :: _)) => is_dict block
          | _ => true
          end
      | Some (VList (_ :: _)) => false
      | _ => true
      end
  | _ => false
  end.

(** The lookups of the branch that the model identifier selects are
    defined. *)
Definition answer_readable {W} (rt : runtime W) (payload : value) : bool :=
  if QueryProcessor.is_anthropic rt then content_readable payload
  else output_readable payload.


(** The exception of the index service that a provisioning of [index]
    meets in the world [w], if any: raised by the existence check, or by
    the creation after the check found no index. *)
Definition provisioning_failure {W} (rt : runtime W) (index : str) (w : W)
  : option exn :=
  match os_indices_exists rt index w with
  | (Raise e, _) => Some e
  | (Ok true, _) => None
  | (Ok false, w1) =>
      match os_indices_create rt index index_config w1 with
      | (Raise e, _) => Some e
      | (Ok _, _) => None
      end
  end.

(** The record of a provisioning failure. *)
Definition provisioning_error (e : exn) : Logging.log_record :=
  Logging.LogRecord Logging.ERROR (py "Error ensuring index exists: %s")
    [exc_str e].

End Shapes.

(** ** A runtime to run the handlers in

    Services that answer every call the same way; the examples use ASCII
    text only. *)

Module Stub.
Import Py Lambda.

(** The JSON text of an object with the one member [question]. *)
Definition question_json (answer : str) : str :=
  py "{" ++ quoted (py "question") ++ py ": " ++ quoted answer ++ py "}".

(** [json.loads] on the request bodies the examples send; the text of
    the question has no character that JSON escapes. *)
Definition loads (bodies : list str) (text : str) : result value :=
  if str_eqb text (py "{}") then Ok (VDict [])
  else
    match find (fun q => str_eqb text (question_json q)) bodies with
    | Some q => Ok (VDict [(py "question", VStr q)])
    | None => Raise (Exn (py "JSONDecodeError") (py "Expecting value"))
    end.

(** A stand-in for the digest of a key. *)
Definition digest (key : str) : str := py "md5:" ++ key.

Definition no_hits : value :=
  VDict [(py "hits", VDict [(py "hits", VList [])])].

(** The one other attribute of [logging] whose name is in upper case
    letters, [BASIC_FORMAT]. *)
Definition logging_namespace (name : str) : option Logging.object :=
  if str_eqb name (py "BASIC_FORMAT")
  then Some (Logging.Str (py "%(levelname)s:%(name)s:%(message)s")
               (py "'%(levelname)s:%(name)s:%(message)s'"))
  else None.

(** Services that find no index, create it, store every document, find
    no hit, serve [document] for every key and answer every model call
    with [model_reply]. *)
Definition runtime (env : str -> option str) (bodies : list str)
    (document : str) (model_reply : result value) : runtime unit :=
  {| unicode_isalnum := fun _ => false;
     unicode_isdecimal := fun _ => false;
     unicode_upper := fun s => s;
     unicode_lower := fun s => s;
     json_loads := loads bodies;
     md5_hexdigest := digest;
     format_value := dumps;
     environ := env;
     logging_attribute := logging_namespace;
     s3_get_object := fun _ _ w => (Ok document, w);
     bedrock_invoke_model := fun _ _ w => (model_reply, w);
     os_indices_exists := fun _ w => (Ok false, w);
     os_indices_create := fun _ _ w => (Ok tt, w);
     os_index := fun _ _ w => (Ok tt, w);
     os_search := fun _ _ w => (Ok no_hits, w) |}.

Definition no_env : str -> option str := fun _ => None.

Definition start : state unit := State tt [].


Definition post_event (body : list (str * value)) : value :=
  VDict
    ((py "requestContext",
      VDict [(py "http", VDict [(py "method", VStr (py "POST"))])])
     :: body).


(** The runtime of the chunking examples. *)
Definition plain : Lambda.runtime unit :=
  runtime no_env [] [] (Ok (VDict [])).

End Stub.

(** ** Notions of the proofs about [textwrap] *)

Module WrapNotions.
Import Py Textwrap.




(** The parts of [wrap_step]: the stack once a leading blank chunk is
    dropped, the lines once the current line is stored, and where a chunk
    wider than a line is cut. *)
Definition after_drop (lines chunks : list str) : list str :=
  match chunks with
  | c :: r => if blank c && nonempty lines then r else chunks
  | [] => chunks
  end.

Definition emit (lines cur_line : list str) : list str :=
  if nonempty (drop_trailing_blank cur_line)
  then lines ++ [concat (drop_trailing_blank cur_line)] else lines.

Definition break_point (chunk : str) (space_left : nat) : nat :=
  if space_left <? length chunk then
    match rfind_hyphen chunk space_left with
    | Some h =>
        if (0 <? h) && existsb (fun c => negb (is_hyphen c)) (firstn h chunk)
        then h + 1 else space_left
    | None => space_left
    end
  else space_left.



End WrapNotions.

(** ** Statements and examples *)

Module Examples.
Import Py Lambda Words Shapes.



Definition internal_error_text : str :=
  py "{" ++ quoted (py "error") ++ py ": " ++ quoted (py "internal_error")
  ++ py "}".



Definition throttled : exn :=
  Exn (py "ClientError") (py "ThrottlingException: rate exceeded").

Definition throttled_runtime : runtime unit :=
  Stub.runtime Stub.no_env [py "what is s3"] [] (Raise throttled).

Definition s3_question_body : list (str * value) :=
  [(py "body", VStr (Stub.question_json (py "what is s3")))].

Definition unit_vector : list value := [VFloat (py "0.5"); VFloat (py "-0.25")].

Definition nested_runtime : runtime unit :=
  Stub.runtime Stub.no_env [] [] (Ok (nested_response unit_vector)).

Definition empty_reply_runtime : runtime unit :=
  Stub.runtime Stub.no_env [] [] (Ok (VDict [])).

Definition number_reply_runtime : runtime unit :=
  Stub.runtime Stub.no_env [] [] (Ok (VInt 5)).

Definition no_blocks_runtime : runtime unit :=
  Stub.runtime Stub.no_env [] [] (Ok (VDict [(py "content", VList [])])).

Definition number_block_runtime : runtime unit :=
  Stub.runtime Stub.no_env [] []
    (Ok (VDict [(py "content", VList [VInt 5])])).

Definition long_document : str := concat (repeat (py "lorem ipsum ") 150).

Definition ingest_runtime : runtime unit :=
  Stub.runtime Stub.no_env [] long_document (Ok (direct_response unit_vector)).

Definition put_record : value :=
  VDict
    [(py "eventName", VStr (py "ObjectCreated:Put"));
     (py "s3",
      VDict [(py "bucket", VDict [(py "name", VStr (py "docs"))]);
             (py "object", VDict [(py "key", VStr (py "guide.txt"))])])].

Definition put_event : value := VDict [(py "Records", VList [put_record])].

Definition list_reply_runtime : runtime unit :=
  Stub.runtime Stub.no_env [] [] (Ok (VList [VInt 1; VInt 2])).

(** A response whose text is the empty string. *)
Definition empty_text_reply : value :=
  VDict [(py "content", VList [VDict [(py "text", VStr [])]])].

Definition empty_text_runtime : runtime unit :=
  Stub.runtime Stub.no_env [] [] (Ok empty_text_reply).

(** A service in which the index is missing and its creation fails, as
    when another caller has just created it. *)
Definition already_exists : exn :=
  Exn (py "RequestError") (py "resource_already_exists_exception").

Definition racing (env : str -> option str) : runtime unit :=
  {| unicode_isalnum := fun _ => false;
     unicode_isdecimal := fun _ => false;
     unicode_upper := fun s => s;
     unicode_lower := fun s => s;
     json_loads := Stub.loads [];
     md5_hexdigest := Stub.digest;
     format_value := dumps;
     environ := env;
     logging_attribute := Stub.logging_namespace;
     s3_get_object := fun _ _ w => (Ok [], w);
     bedrock_invoke_model := fun _ _ w => (Ok (VDict []), w);
     os_indices_exists := fun _ w => (Ok false, w);
     os_indices_create := fun _ _ w => (Raise already_exists, w);
     os_index := fun _ _ w => (Ok tt, w);
     os_search := fun _ _ w => (Ok Stub.no_hits, w) |}.

Definition log_level_is (level : String.string) : str -> option str :=
  fun name => if str_eqb name (py "LOG_LEVEL") then Some (py level) else None.

Definition racing_runtime : runtime unit := racing Stub.no_env.

(** The same under [LOG_LEVEL=critical]. *)
Definition critical_runtime : runtime unit := racing (log_level_is "critical").

(** A runtime whose [LOG_LEVEL] names the format string of [logging]. *)
Definition misnamed_level_runtime : runtime unit :=
  Stub.runtime (log_level_is "basic_format") [py "what is s3"] []
    (Ok (VDict [])).

End Examples.

(** ** Further notions and examples *)

Module Observations.
Import Py Lambda Shapes.

(** The text without its whitespace characters. *)
Definition nonspace (s : str) : str := filter (fun c => negb (isspace c)) s.

(** The body of a kNN search for the [k] nearest neighbours of [vec]. *)
Definition search_request (vec : value) (k : Z) : value :=
  VDict [(py "size", VInt k);
         (py "query",
          VDict [(py "knn",
                  VDict [(py "embedding",
                          VDict [(py "vector", vec); (py "k", VInt k)])])])].

(** The calls of the query pipeline. *)
Section Calls.
Variable W : Type.
Variable rt : runtime W.

Definition embed_call (text : str) : call :=
  InvokeModel (QueryProcessor.EMBED_MODEL_ID rt)
    (dumps (VDict [(py "inputText", VStr text)])).

Definition search_call (vec : value) (k : Z) : call :=
  SearchIndex (QueryProcessor.INDEX rt) (search_request vec k).

Definition generation_call (question : str) (parts : list str) : call :=
  InvokeModel (QueryProcessor.model_id_to_use rt)
    (dumps (QueryProcessor.request_body rt
              (QueryProcessor.build_prompt question parts))).

(** How far a request went: the result of the [try] block and the
    pipeline calls it made. *)
Definition pipeline_outcome (r : result value) (pipe : list call) : Prop :=
  (pipe = []
   /\ (r = Ok (QueryProcessor.preflight_response rt)
       \/ r = Ok (QueryProcessor._response rt 400
                    (Some (VDict [(py "error", VStr (py "question required"))]))
                    None)
       \/ exists e, r = Raise e))
  \/ (exists q, pipe = [embed_call q] /\ exists e, r = Raise e)
  \/ (exists q vec,
        pipe = [embed_call q; search_call vec 5] /\ exists e, r = Raise e)
  \/ (exists q vec parts,
        pipe = [embed_call q; search_call vec 5; generation_call q parts]
        /\ ((exists e, r = Raise e)
            \/ exists body,
                 r = Ok (QueryProcessor._response rt 200 (Some body) None))).

End Calls.

(** The calls that embed and store the chunks of a document, numbered
    from [start], as far as [vectors] has their embeddings. *)
Section IngestCalls.
Variable W : Type.
Variable rt : runtime W.

Definition ingest_embed_call (chunk : str) : call :=
  InvokeModel (DocIngestor.EMBED_MODEL_ID rt)
    (dumps (VDict [(py "inputText", VStr chunk)])).

Definition write_call (doc_id : str) (i : nat) (chunk : str) (vec : value)
    (meta : list (str * value)) : call :=
  IndexDocument (DocIngestor.OPENSEARCH_INDEX rt)
    (DocIngestor.chunk_document doc_id i chunk vec meta).

Fixpoint chunk_calls (doc_id : str) (meta : list (str * value)) (start : nat)
    (chunks : list str) (vectors : list value) : list call :=
  match chunks, vectors with
  | c :: cs, v :: vs =>
      ingest_embed_call c :: write_call doc_id start c v meta
      :: chunk_calls doc_id meta (S start) cs vs
  | _, _ => []
  end.

(** How the loop over the chunks ended, with the calls it made: it
    completed; or the embedding of the next chunk failed; or the last
    write failed. *)
Definition loop_outcome (doc_id : str) (meta : list (str * value))
    (start : nat) (chunks : list str) (vectors : list value)
    (r : result unit) (made : list call) : Prop :=
  (r = Ok tt /\ length vectors = length chunks
   /\ made = chunk_calls doc_id meta start chunks vectors)
  \/ (exists e c,
        r = Raise e /\ nth_error chunks (length vectors) = Some c
        /\ made = chunk_calls doc_id meta start chunks vectors
                  ++ [ingest_embed_call c])
  \/ (exists e,
        r = Raise e /\ vectors <> [] /\ length vectors <= length chunks
        /\ made = chunk_calls doc_id meta start chunks vectors).

End IngestCalls.

(** The objects read from S3, oldest first. *)
Fixpoint object_reads (cs : list call) : list (value * value) :=
  match cs with
  | [] => []
  | S3GetObject bucket key :: rest => (bucket, key) :: object_reads rest
  | _ :: rest => object_reads rest
  end.

(** The members of an object. *)
Definition fields (v : value) : list (str * value) :=
  match v with
  | VDict kv => kv
  | _ => []
  end.

(** What a search context looks like. *)
Definition is_context (c : value) : Prop :=
  exists text source score,
    c = VDict [(py "text", text); (py "source", source); (py "score", score)].


(** A hit that is an object with an object [_source]. *)
Definition well_formed_hit (h : value) : bool :=
  match h with
  | VDict kv =>
      match dict_lookup kv (py "_source") with
      | Some (VDict _) => true
      | _ => false
      end
  | _ => false
  end.

Definition member_or (kv : list (str * value)) (k : String.string)
    (default : value) : value :=
  match dict_lookup kv (py k) with
  | Some v => v
  | None => default
  end.

(** The context of a well-formed hit: its chunk text (empty by default),
    its [s3_key] or else its [source], and its score. *)
Definition context_of (h : value) : value :=
  match h with
  | VDict kv =>
      match dict_lookup kv (py "_source") with
      | Some (VDict src) =>
          VDict [(py "text", member_or src "chunk_text" (VStr []));
                 (py "source",
                  py_or (member_or src "s3_key" VNone)
                    (member_or src "source" VNone));
                 (py "score", member_or kv "_score" VNone)]
      | _ => VNone
      end
  | _ => VNone
  end.

End Observations.

(** ** [BufferedLogHandler]

    The handler both Lambdas install for the time of an invocation; [R]
    is the type of log records, and [format] the formatter, which may
    raise. *)

Module Buffered.
Import Py.

Section Handler.
Variable R : Type.
Variable format : R -> result str.

(** [emit]: the formatted record is appended to [_records]; when the
    formatting raises, the record is dropped. *)
Definition emit (_records : list str) (record : R) : list str :=
  match format record with
  | Ok line => _records ++ [line]
  | Raise _ => _records
  end.

Definition get_value (_records : list str) : str := join [10%N] _records.


(** The lines of the records that can be formatted. *)
Fixpoint formatted_lines (records : list R) : list str :=
  match records with
  | [] => []
  | r :: rest =>
      match format r with
      | Ok line => line :: formatted_lines rest
      | Raise _ => formatted_lines rest
      end
  end.

End Handler.
End Buffered.

(** Runtimes of the further examples. *)

Module Examples2.
Import Py Lambda Shapes.

Definition with_search (rt : runtime unit) (reply : result value)
  : runtime unit :=
  {| unicode_isalnum := unicode_isalnum rt;
     unicode_isdecimal := unicode_isdecimal rt;
     unicode_upper := unicode_upper rt;
     unicode_lower := unicode_lower rt;
     json_loads := json_loads rt;
     md5_hexdigest := md5_hexdigest rt;
     format_value := format_value rt;
     environ := environ rt;
     logging_attribute := logging_attribute rt;
     s3_get_object := s3_get_object rt;
     bedrock_invoke_model := bedrock_invoke_model rt;
     os_indices_exists := os_indices_exists rt;
     os_indices_create := os_indices_create rt;
     os_index := os_index rt;
     os_search := fun _ _ w => (reply, w) |}.

(** A model reply that serves as an embedding and as an Anthropic
    answer. *)
Definition answering_reply : value :=
  VDict [(py "embedding", VList Examples.unit_vector);
         (py "content",
          VList [VDict [(py "type", VStr (py "text"));
                        (py "text", VStr (py "S3 stores objects."))]])].

Definition answering_runtime : runtime unit :=
  Stub.runtime Stub.no_env [py "what is s3"] [] (Ok answering_reply).




Definition two_hits_list : list value :=
  [VDict [(py "_score", VFloat (py "0.9"));
          (py "_source",
           VDict [(py "chunk_text", VStr (py "S3 is object storage."));
                  (py "source", VStr (py "s3"));
                  (py "s3_key", VStr (py "guide.txt"))])];
   VDict [(py "_source", VDict [(py "source", VStr (py "upload"))])]].

Definition two_hits : value :=
  VDict
    [(py "hits",
      VDict [(py "total", VDict [(py "value", VInt 2)]);
             (py "hits", VList two_hits_list)])].

Definition two_hits_runtime : runtime unit :=
  with_search Stub.plain (Ok two_hits).

(** A reply whose second hit has no [_source]. *)
Definition bare_hit : value :=
  VDict
    [(py "hits",
      VDict
        [(py "hits",
          VList
            [VDict [(py "_source", VDict [(py "source", VStr (py "s3"))])];
             VDict [(py "_score", VFloat (py "0.5"))]])])].

Definition bare_hit_runtime : runtime unit :=
  with_search Stub.plain (Ok bare_hit).

(** A reply of the nested shape, as the answer of a model that the
    handler takes for an Anthropic one. *)
Definition nested_text_reply : value :=
  VDict
    [(py "output",
      VList [VDict [(py "content", VList [VDict [(py "text", VStr (py "hi"))]])]])].

Definition nested_text_runtime : runtime unit :=
  Stub.runtime Stub.no_env [] [] (Ok nested_text_reply).

Definition blank_document : str := [32; 10; 9; 32]%N.

Definition blank_document_runtime : runtime unit :=
  Stub.runtime Stub.no_env [] blank_document (Ok (VDict [])).

(** A record whose key holds a surrogate code point. *)
Definition surrogate_record : value :=
  VDict
    [(py "s3",
      VDict [(py "bucket", VDict [(py "name", VStr (py "docs"))]);
             (py "object",
              VDict [(py "key", VStr [97; 55296; 46; 116; 120; 116]%N)])])].


Definition second_record : value :=
  VDict
    [(py "s3",
      VDict [(py "bucket", VDict [(py "name", VStr (py "docs"))]);
             (py "object", VDict [(py "key", VStr (py "faq.txt"))])])].

Definition two_records : value :=
  VDict [(py "Records", VList [Examples.put_record; second_record])].

Definition short_document_runtime : runtime unit :=
  Stub.runtime Stub.no_env [] (py "S3 is object storage.")
    (Ok (direct_response Examples.unit_vector)).

(** A reply whose embedding is null, beside a usable nested one. *)
Definition null_embedding_reply : list (str * value) :=
  [(py "embedding", VNone);
   (py "outputs", VList [VDict [(py "embedding", VList Examples.unit_vector)]])].

Definition null_embedding_runtime : runtime unit :=
  Stub.runtime Stub.no_env [] [] (Ok (VDict null_embedding_reply)).

End Examples2.

Unset Implicit Arguments.

(** ** Facts about [str.split] *)

Module SplitFacts.
Import Py.













End SplitFacts.

(** ** Facts about [textwrap] *)

Module WrapFacts.
Import Py Textwrap Words SplitFacts WrapNotions.

Ltac split_orb :=
  repeat match goal with
         | H : (_ || _) = true |- _ => apply orb_true_iff in H; destruct H
         end.

Lemma whitespace_isspace c : whitespace c = true -> isspace c = true.
Proof.
  unfold whitespace. intros H. split_orb;
    match goal with H : (_ =? _)%N = true |- _ => apply N.eqb_eq in H; subst end;
    reflexivity.
Qed.

Lemma whitespace_not_hyphen c : whitespace c = true -> is_hyphen c = false.
Proof.
  unfold whitespace. intros H. split_orb;
    match goal with H : (_ =? _)%N = true |- _ => apply N.eqb_eq in H; subst end;
    reflexivity.
Qed.

(** *** Whitespace munging keeps the words *)

Lemma blank_repeat_space n : blank (repeat 32%N n) = true.
Proof. induction n; simpl; auto. Qed.





Lemma forallb_repeat {A} (p : A -> bool) x n :
  p x = true -> forallb p (repeat x n) = true.
Proof. intros Hx. induction n; simpl; [reflexivity|]. rewrite Hx. exact IHn. Qed.

(** A property of characters that tabs and spaces have passes from the
    text to the expanded text. *)
Lemma forallb_expandtabs (p : N -> bool) ts col s :
  p 32%N = true -> forallb p s = true ->
  forallb p (expandtabs_from ts col s) = true.
Proof.
  intros Hsp. revert col. induction s as [|c s IH]; intros col H; [reflexivity|].
  simpl in H. apply andb_true_iff in H as [Hc Hs].
  cbn [expandtabs_from]. destruct (c =? 9)%N.
  - destruct (0 <? ts); [|auto].
    rewrite forallb_app, forallb_repeat by exact Hsp. simpl. auto.
  - simpl. rewrite Hc. simpl. auto.
Qed.

Lemma forallb_translate (p : N -> bool) s :
  p 32%N = true -> forallb p s = true ->
  forallb p (translate_whitespace s) = true.
Proof.
  intros Hsp. unfold translate_whitespace.
  induction s as [|c s IH]; simpl; intros H; [reflexivity|].
  apply andb_true_iff in H as [Hc Hs]. rewrite (IH Hs), andb_true_r.
  destruct (whitespace c); assumption.
Qed.

Lemma forallb_munge (p : N -> bool) text :
  p 32%N = true -> forallb p text = true ->
  forallb p (_munge_whitespace text) = true.
Proof.
  intros Hsp H. apply forallb_translate; [exact Hsp|].
  apply forallb_expandtabs; assumption.
Qed.




(** *** Runs of non-whitespace characters *)











(** *** The splitter on text without hyphens *)

Section Splitter.
Variables isalnum isdecimal : N -> bool.

Lemma dashes_none_0 s : dashes_then_word isalnum 0 s = None.
Proof. reflexivity. Qed.

Lemma span_hyphen_no_hyphen s :
  no_hyphen s = true -> span_len is_hyphen s = 0.
Proof.
  destruct s as [|c s]; [reflexivity|]. simpl. intros H.
  apply andb_true_iff in H as [Hc _]. apply negb_true_iff in Hc.
  rewrite Hc. reflexivity.
Qed.

Lemma word_alt_cons before c rest :
  word_alt isalnum isdecimal before (c :: rest)
  = if whitespace c then None
    else if hyphenated_end isalnum isdecimal (c :: before) rest then Some 2
    else if end_of_word rest then Some 1
    else if em_dash_ahead isalnum (c :: before) rest then Some 1
    else option_map S (word_alt isalnum isdecimal (c :: before) rest).
Proof. reflexivity. Qed.

Lemma hyphenated_end_no_hyphen before s :
  no_hyphen s = true -> hyphenated_end isalnum isdecimal before s = false.
Proof.
  destruct s as [|d s]; [reflexivity|]. simpl. intros H.
  apply andb_true_iff in H as [Hd _]. apply negb_true_iff in Hd.
  rewrite Hd. reflexivity.
Qed.

Lemma em_dash_ahead_no_hyphen before s :
  no_hyphen s = true -> em_dash_ahead isalnum before s = false.
Proof.
  intros H. unfold em_dash_ahead. rewrite (span_hyphen_no_hyphen s H).
  destruct before; [reflexivity|]. simpl. apply andb_false_r.
Qed.

Lemma word_alt_no_hyphen before c rest :
  whitespace c = false -> no_hyphen (c :: rest) = true ->
  word_alt isalnum isdecimal before (c :: rest)
  = Some (span_len nowhitespace (c :: rest)).
Proof.
  revert before c. induction rest as [|d rest IH]; intros before c Hc Hn.
  - cbn. rewrite Hc. unfold nowhitespace. rewrite Hc. reflexivity.
  - rewrite word_alt_cons, Hc.
    change (no_hyphen (c :: d :: rest))
      with (negb (is_hyphen c) && no_hyphen (d :: rest)) in Hn.
    apply andb_true_iff in Hn as [Hc' Hn].
    rewrite (hyphenated_end_no_hyphen _ _ Hn), (em_dash_ahead_no_hyphen _ _ Hn).
    cbn [span_len]. unfold nowhitespace at 1. rewrite Hc. cbn [negb].
    cbn [end_of_word]. destruct (whitespace d) eqn:Hwd.
    + unfold nowhitespace. rewrite Hwd. reflexivity.
    + rewrite (IH (c :: before) d Hwd Hn). reflexivity.
Qed.

Lemma match_at_no_hyphen before c rest :
  no_hyphen (c :: rest) = true ->
  match_at isalnum isdecimal before (c :: rest)
  = Some (if whitespace c then span_len whitespace (c :: rest)
          else span_len nowhitespace (c :: rest)).
Proof.
  intros Hn. unfold match_at. cbn [span_len].
  destruct (whitespace c) eqn:Hc; [reflexivity|]. cbn [Nat.ltb Nat.leb].
  unfold em_dash. rewrite (span_hyphen_no_hyphen (c :: rest) Hn).
  cbn [dashes_then_word].
  replace (match before with
           | [] => None
           | p :: _ => if word_punct isalnum p then None else None
           end) with (@None nat)
    by (destruct before as [|p ?]; [|destruct (word_punct isalnum p)]; reflexivity).
  apply word_alt_no_hyphen; assumption.
Qed.



Lemma span_len_all p s : forallb p s = true -> span_len p s = length s.
Proof.
  induction s as [|c s IH]; simpl; [reflexivity|]. intros H.
  apply andb_true_iff in H as [Hc Hs]. rewrite Hc, (IH Hs). reflexivity.
Qed.




Lemma forallb_firstn {A} (p : A -> bool) n s :
  forallb p s = true -> forallb p (firstn n s) = true.
Proof.
  revert s. induction n as [|n IH]; intros s H; [reflexivity|].
  destruct s as [|c s]; [reflexivity|]. simpl in *.
  apply andb_true_iff in H as [Hc H]. rewrite Hc. simpl. auto.
Qed.


Lemma split_loop_cons fuel before piece c rest :
  split_loop isalnum isdecimal (S fuel) before piece (c :: rest)
  = match match_at isalnum isdecimal before (c :: rest) with
    | Some n =>
        let m := firstn n (c :: rest) in
        rev piece :: m ::
          split_loop isalnum isdecimal fuel (rev m ++ before) []
            (skipn n (c :: rest))
    | None =>
        split_loop isalnum isdecimal fuel (c :: before) (c :: piece) rest
    end.
Proof. reflexivity. Qed.



(** Text made of whitespace only is one chunk, or none. *)
Lemma split_all_whitespace text :
  forallb whitespace text = true ->
  _split isalnum isdecimal text = match text with [] => [] | _ => [text] end.
Proof.
  intros Hws. destruct text as [|c rest]; [reflexivity|].
  assert (Hn : no_hyphen (c :: rest) = true).
  { unfold no_hyphen. apply forallb_forall. intros x Hx.
    rewrite forallb_forall in Hws. rewrite (whitespace_not_hyphen x (Hws x Hx)).
    reflexivity. }
  unfold _split, re_split. cbn [length].
  rewrite split_loop_cons, (match_at_no_hyphen [] c rest Hn).
  assert (Hc : whitespace c = true).
  { simpl in Hws. apply andb_true_iff in Hws as [Hc _]. exact Hc. }
  rewrite Hc, (span_len_all whitespace (c :: rest) Hws).
  cbv zeta. rewrite firstn_all, skipn_all.
  destruct (length rest); reflexivity.
Qed.

End Splitter.

(** *** One pass of the wrapping loop *)

Lemma wrap_step_eq w lines chunks :
  wrap_step w lines chunks
  = let '(cur_line, chunks2) := fill_line w 0 (after_drop lines chunks) in
    match chunks2 with
    | c :: r =>
        if w <? length c then
          let e := break_point c (if w <? 1 then 1 else w - total_len cur_line) in
          (emit lines (cur_line ++ [firstn e c]), skipn e c :: r)
        else (emit lines cur_line, chunks2)
    | [] => (emit lines cur_line, chunks2)
    end.
Proof.
  unfold wrap_step. fold (after_drop lines chunks).
  destruct (fill_line w 0 (after_drop lines chunks)) as [cur_line chunks2].
  destruct chunks2 as [|c r]; [reflexivity|].
  destruct (w <? length c); reflexivity.
Qed.

Lemma total_len_app a b : total_len (a ++ b) = total_len a + total_len b.
Proof. induction a as [|x a IH]; simpl; [reflexivity|]. unfold total_len in *. simpl. lia. Qed.


Lemma fill_line_spec w : forall cs n taken rest,
  fill_line w n cs = (taken, rest) ->
  cs = taken ++ rest
  /\ (n <= w -> n + total_len taken <= w)
  /\ match rest with
     | c :: _ => w < n + total_len taken + length c
     | [] => True
     end.
Proof.
  induction cs as [|c cs IH]; intros n taken rest H; simpl in H.
  - inversion H; subst. simpl. repeat split; auto. lia.
  - destruct (n + length c <=? w) eqn:Hfit.
    + destruct (fill_line w (n + length c) cs) as [t r] eqn:Hrec.
      inversion H; subst. apply IH in Hrec as (H1 & H2 & H3).
      apply Nat.leb_le in Hfit. subst cs.
      split; [reflexivity|]. split.
      * intros _. change (total_len (c :: t)) with (length c + total_len t). lia.
      * change (total_len (c :: t)) with (length c + total_len t).
        destruct rest; [exact I|]. lia.
    + inversion H; subst. apply Nat.leb_gt in Hfit.
      simpl. repeat split; auto; lia.
Qed.

Lemma rfind_hyphen_from_range s : forall i stop j,
  rfind_hyphen_from i s stop = Some j -> i <= j < i + stop.
Proof.
  induction s as [|c s IH]; intros i stop j H.
  - destruct stop; discriminate.
  - destruct stop as [|stop]; [discriminate|]. simpl in H.
    destruct (rfind_hyphen_from (S i) s stop) as [k|] eqn:Hrec.
    + inversion H; subst. apply IH in Hrec. lia.
    + destruct (is_hyphen c); inversion H; subst. lia.
Qed.

Lemma break_point_le c sl : break_point c sl <= sl.
Proof.
  unfold break_point. destruct (sl <? length c); [|lia].
  destruct (rfind_hyphen c sl) as [h|] eqn:Hh; [|lia].
  apply rfind_hyphen_from_range in Hh.
  destruct ((0 <? h) && _); lia.
Qed.

Lemma break_point_pos c sl : 1 <= sl -> 1 <= break_point c sl.
Proof.
  intros H. unfold break_point. destruct (sl <? length c); [|lia].
  destruct (rfind_hyphen c sl) as [h|]; [|lia].
  destruct ((0 <? h) && _); lia.
Qed.

Lemma drop_trailing_blank_cases l :
  drop_trailing_blank l = l
  \/ exists b, l = drop_trailing_blank l ++ [b] /\ blank b = true.
Proof.
  unfold drop_trailing_blank. destruct (rev l) as [|last front] eqn:Hr; [auto|].
  destruct (blank last) eqn:Hb; [|auto].
  right. exists last. split; [|exact Hb].
  rewrite <- (rev_involutive l), Hr. reflexivity.
Qed.


Lemma after_drop_cases lines chunks :
  after_drop lines chunks = chunks
  \/ exists b, chunks = b :: after_drop lines chunks /\ blank b = true
               /\ lines <> [].
Proof.
  unfold after_drop. destruct chunks as [|c r]; [auto|].
  destruct (blank c) eqn:Hb; [|auto].
  destruct lines; simpl; [auto|]. right. exists c. repeat split; auto.
  discriminate.
Qed.

(** What one pass does: [taken] is popped whole, and of a chunk wider
    than a line the first [e] characters are. *)
Lemma wrap_step_cases w lines chunks :
  exists taken rest,
    after_drop lines chunks = taken ++ rest
    /\ total_len taken <= w
    /\ ((wrap_step w lines chunks = (emit lines taken, rest)
         /\ match rest with
            | c :: _ => length c <= w /\ w < total_len taken + length c
            | [] => True
            end)
        \/ exists c r e,
             rest = c :: r /\ w < length c
             /\ e = break_point c (if w <? 1 then 1 else w - total_len taken)
             /\ wrap_step w lines chunks
                = (emit lines (taken ++ [firstn e c]), skipn e c :: r)).
Proof.
  rewrite wrap_step_eq.
  destruct (fill_line w 0 (after_drop lines chunks)) as [taken rest] eqn:Hf.
  apply fill_line_spec in Hf as (H1 & H2 & H3).
  exists taken, rest. split; [exact H1|]. split; [apply H2; lia|].
  destruct rest as [|c r]; [left; auto|].
  destruct (w <? length c) eqn:Hw.
  - right. exists c, r, (break_point c (if w <? 1 then 1 else w - total_len taken)).
    apply Nat.ltb_lt in Hw. auto.
  - left. apply Nat.ltb_ge in Hw. split; [reflexivity|]. simpl in H3. lia.
Qed.

Lemma wrap_budget_app a b : wrap_budget (a ++ b) = wrap_budget a + wrap_budget b.
Proof. unfold wrap_budget. rewrite total_len_app, length_app. lia. Qed.

Lemma wrap_budget_cons c r : wrap_budget (c :: r) = S (length c + wrap_budget r).
Proof. unfold wrap_budget. simpl. lia. Qed.

(** Every pass uses up a chunk or a character. *)
Lemma wrap_step_budget w lines c0 cs lines' chunks' :
  wrap_step w lines (c0 :: cs) = (lines', chunks') ->
  wrap_budget chunks' < wrap_budget (c0 :: cs).
Proof.
  intros Hstep.
  destruct (wrap_step_cases w lines (c0 :: cs))
    as (taken & rest & Happ & Hlen & Hcase).
  assert (Hdrop : wrap_budget (after_drop lines (c0 :: cs)) <= wrap_budget (c0 :: cs)
                  /\ (after_drop lines (c0 :: cs) = c0 :: cs
                      \/ wrap_budget (after_drop lines (c0 :: cs))
                         < wrap_budget (c0 :: cs))).
  { pose proof (after_drop_cases lines (c0 :: cs)) as Hc.
    remember (after_drop lines (c0 :: cs)) as d eqn:Hd. clear Hd Happ.
    destruct Hc as [->|(b & Hb & _)]; [auto|].
    injection Hb as _ Hcs. subst cs. rewrite wrap_budget_cons.
    split; [lia|right; lia]. }
  destruct Hdrop as [Hle Hdrop]. rewrite Happ, wrap_budget_app in Hle.
  destruct Hcase as [[Heq Hrest]|(c & r & e & -> & Hw & He & Heq)];
    rewrite Heq in Hstep; inversion Hstep; subst lines' chunks'.
  - destruct Hdrop as [Hsame|Hlt].
    + rewrite Hsame in Happ. destruct taken as [|t ts].
      * simpl in Happ. subst rest. simpl in Hrest. unfold total_len in Hrest.
        simpl in Hrest. lia.
      * rewrite wrap_budget_cons in Hle. lia.
    + rewrite Happ, wrap_budget_app in Hlt. lia.
  - rewrite wrap_budget_cons in *. rewrite length_skipn.
    destruct Hdrop as [Hsame|Hlt].
    + rewrite Hsame in Happ. destruct taken as [|t ts].
      * assert (1 <= e).
        { rewrite He. apply break_point_pos. change (total_len []) with 0.
          destruct (w <? 1) eqn:Hw1; [lia|]. apply Nat.ltb_ge in Hw1. lia. }
        simpl in Happ. inversion Happ; subst. rewrite wrap_budget_cons. lia.
      * rewrite ?wrap_budget_cons in *. lia.
    + rewrite Happ, wrap_budget_app, wrap_budget_cons in Hlt.
      rewrite ?wrap_budget_cons in *. lia.
Qed.

(** *** The wrapping loop *)

Lemma wrap_loop_cons fuel w lines c cs :
  wrap_loop (S fuel) w lines (c :: cs)
  = wrap_loop fuel w (fst (wrap_step w lines (c :: cs)))
      (snd (wrap_step w lines (c :: cs))).
Proof. simpl. destruct (wrap_step w lines (c :: cs)). reflexivity. Qed.

Lemma wrap_loop_terminates w fuel : forall lines chunks,
  wrap_budget chunks <= fuel ->
  exists out, wrap_loop fuel w lines chunks = Some out.
Proof.
  induction fuel as [|fuel IH]; intros lines chunks Hb.
  - destruct chunks as [|c cs]; [eexists; reflexivity|].
    rewrite wrap_budget_cons in Hb. lia.
  - destruct chunks as [|c cs]; [eexists; reflexivity|].
    rewrite wrap_loop_cons. apply IH.
    pose proof (wrap_step_budget w lines c cs _ _ (surjective_pairing _)). lia.
Qed.

Lemma wrap_loop_more_fuel w fuel : forall fuel' lines chunks out,
  wrap_loop fuel w lines chunks = Some out -> fuel <= fuel' ->
  wrap_loop fuel' w lines chunks = Some out.
Proof.
  induction fuel as [|fuel IH]; intros fuel' lines chunks out H Hle.
  - destruct chunks; [|discriminate]. destruct fuel'; exact H.
  - destruct chunks as [|c cs]; [destruct fuel'; exact H|].
    destruct fuel' as [|fuel']; [lia|].
    rewrite wrap_loop_cons in *. apply IH; [exact H|lia].
Qed.

(** A loop invariant holds of the lines returned. *)
Lemma wrap_loop_invariant (I : list str -> list str -> Prop) w :
  (forall lines chunks, I lines chunks ->
     I (fst (wrap_step w lines chunks)) (snd (wrap_step w lines chunks))) ->
  forall fuel lines chunks out,
    I lines chunks -> wrap_loop fuel w lines chunks = Some out -> I out [].
Proof.
  intros Hstep. induction fuel as [|fuel IH]; intros lines chunks out HI H.
  - destruct chunks; [|discriminate]. inversion H; subst. exact HI.
  - destruct chunks as [|c cs]; [inversion H; subst; exact HI|].
    rewrite wrap_loop_cons in H. eapply IH; [|exact H]. apply Hstep. exact HI.
Qed.

Lemma concat_snoc (l : list str) (x : str) : concat (l ++ [x]) = concat l ++ x.
Proof. rewrite concat_app. simpl. rewrite app_nil_r. reflexivity. Qed.




Lemma emit_blank_single b : blank b = true -> emit [] [b] = [].
Proof. intros Hb. unfold emit, drop_trailing_blank. simpl. rewrite Hb. reflexivity. Qed.

Lemma emit_none : emit [] [] = [].
Proof. reflexivity. Qed.



Lemma blank_app a b : blank (a ++ b) = blank a && blank b.
Proof. apply forallb_app. Qed.

(** A single blank chunk leaves no line. *)
Lemma wrap_loop_blank_chunk w fuel c out :
  blank c = true -> wrap_loop fuel w [] [c] = Some out -> out = [].
Proof.
  intros Hc H.
  pose (I := fun (lines chunks : list str) =>
               lines = [] /\
               (chunks = [] \/ exists b, chunks = [b] /\ blank b = true)).
  assert (HI : I out []).
  { apply (wrap_loop_invariant I w) with (fuel := fuel) (lines := [])
                                         (chunks := [c]); [|red; eauto|exact H].
    clear. intros lines chunks [-> Hch].
    destruct (wrap_step_cases w [] chunks)
      as (taken & rest & Happ & _ & [[Heq _]|(d & r & e & -> & _ & _ & Heq)]);
      rewrite Heq; simpl fst; simpl snd;
      replace (after_drop [] chunks) with chunks in Happ
        by (destruct chunks as [|x ?]; [|simpl; rewrite andb_false_r]; reflexivity).
    - destruct Hch as [->|(b & -> & Hb)].
      + apply eq_sym, app_eq_nil in Happ as [-> ->]. split; auto.
      + destruct taken as [|t ts].
        * simpl in Happ. subst rest. split; [reflexivity|]. right. eauto.
        * injection Happ as <- Happ. apply eq_sym, app_eq_nil in Happ as [-> ->].
          split; [apply emit_blank_single; exact Hb|auto].
    - destruct Hch as [->|(b & -> & Hb)].
      + destruct taken; discriminate.
      + destruct taken as [|t ts].
        * injection Happ as <- <-.
          rewrite <- (firstn_skipn e b), blank_app in Hb.
          apply andb_true_iff in Hb as [Hb1 Hb2].
          split; [apply emit_blank_single; exact Hb1|]. right. eauto.
        * injection Happ as _ Happ. destruct ts; discriminate. }
  apply HI.
Qed.


(** *** Lines break at whitespace when words fit *)









(** *** [wrap] *)

Section Wrap.
Variables isalnum isdecimal : N -> bool.

Lemma wrap_returns text width :
  (0 < width)%Z ->
  exists lines,
    wrap isalnum isdecimal text width = Ok lines
    /\ forall fuel,
         wrap_budget (_split_chunks isalnum isdecimal text) <= fuel ->
         wrap_loop fuel (Z.to_nat width) []
           (_split_chunks isalnum isdecimal text) = Some lines.
Proof.
  intros Hw. unfold wrap, _wrap_chunks.
  destruct (Z.leb_spec width 0) as [Hle|_]; [lia|].
  destruct (wrap_loop_terminates (Z.to_nat width)
              (wrap_budget (_split_chunks isalnum isdecimal text)) []
              (_split_chunks isalnum isdecimal text) (le_n _)) as [out Hout].
  rewrite Hout. exists out. split; [reflexivity|].
  intros fuel Hf. eapply wrap_loop_more_fuel; eauto.
Qed.

End Wrap.

End WrapFacts.

(** ** The chunker *)

Import Py Lambda Words Shapes Examples.

Lemma concat_split_loop ia id fuel : forall before piece after,
  concat (Textwrap.split_loop ia id fuel before piece after) = rev piece ++ after.
Proof.
  induction fuel as [|fuel IH]; intros before piece after.
  - destruct after; simpl; rewrite ?app_nil_r; reflexivity.
  - destruct after as [|c rest]; [simpl; rewrite !app_nil_r; reflexivity|].
    rewrite WrapFacts.split_loop_cons.
    destruct (Textwrap.match_at ia id before (c :: rest)) as [n|].
    + cbv zeta. cbn [concat]. rewrite IH. simpl rev. simpl app at 2.
      rewrite firstn_skipn. reflexivity.
    + rewrite IH. simpl. rewrite <- app_assoc. reflexivity.
Qed.

Lemma concat_filter_nonempty (l : list str) : concat (filter nonempty l) = concat l.
Proof.
  induction l as [|x l IH]; [reflexivity|].
  destruct x; simpl; [exact IH|]. rewrite IH. reflexivity.
Qed.

Lemma concat_split_chunks ia id text :
  concat (Textwrap._split_chunks ia id text) = Textwrap._munge_whitespace text.
Proof.
  unfold Textwrap._split_chunks, Textwrap._split, Textwrap.re_split.
  rewrite concat_filter_nonempty, concat_split_loop. reflexivity.
Qed.





(** ** Index provisioning *)


Lemma ingestor_ensure_returns W (rt : runtime W) (st : state W) :
  exists st',
    DocIngestor.ensure_index_exists rt st = (Ok tt, st')
    /\ exists made,
         calls st' = calls st ++ made
         /\ forallb is_provisioning_call made = true.
Proof.
  unfold DocIngestor.ensure_index_exists, try_except, bind, perform, ret.
  destruct (os_indices_exists rt (DocIngestor.OPENSEARCH_INDEX rt) (world st))
    as [[found|e] w1]; cbn -[index_config].
  - destruct found.
    + eexists. split; [reflexivity|]. eexists. split; [reflexivity|reflexivity].
    + cbn -[index_config].
      destruct (os_indices_create rt (DocIngestor.OPENSEARCH_INDEX rt)
                  index_config w1) as [[u|e] w2].
      * destruct u. eexists. split; [reflexivity|]. cbn -[index_config].
        rewrite <- app_assoc. eexists. split; reflexivity.
      * eexists. split; [reflexivity|]. cbn -[index_config].
        rewrite <- app_assoc. eexists. split; reflexivity.
  - eexists. split; [reflexivity|]. eexists. split; reflexivity.
Qed.

Lemma processor_ensure_returns W (rt : runtime W) (st : state W) :
  exists st',
    QueryProcessor.ensure_index_exists rt st = (Ok tt, st')
    /\ exists made,
         calls st' = calls st ++ made
         /\ forallb is_provisioning_call made = true.
Proof.
  unfold QueryProcessor.ensure_index_exists, try_except, bind, perform, ret.
  destruct (os_indices_exists rt (QueryProcessor.INDEX rt) (world st))
    as [[found|e] w1]; cbn -[index_config].
  - destruct found.
    + eexists. split; [reflexivity|]. eexists. split; [reflexivity|reflexivity].
    + cbn -[index_config].
      destruct (os_indices_create rt (QueryProcessor.INDEX rt)
                  index_config w1) as [[u|e] w2].
      * destruct u. eexists. split; [reflexivity|]. cbn -[index_config].
        rewrite <- app_assoc. eexists. split; reflexivity.
      * eexists. split; [reflexivity|]. cbn -[index_config].
        rewrite <- app_assoc. eexists. split; reflexivity.
  - eexists. split; [reflexivity|]. eexists. split; reflexivity.
Qed.

Lemma ingestor_ensure_silent W (rt : runtime W) (st : state W) :
  silent (DocIngestor.ensure_index_exists_logged rt) st
  = DocIngestor.ensure_index_exists rt st.
Proof.
  unfold silent, DocIngestor.ensure_index_exists_logged,
    DocIngestor.ensure_index_exists, ltry_except, try_except, lbind, bind,
    quiet, perform, info, error, log, ret.
  destruct (os_indices_exists rt (DocIngestor.OPENSEARCH_INDEX rt) (world st))
    as [[[|]|e] w1]; cbn -[index_config]; try reflexivity.
  destruct (os_indices_create rt (DocIngestor.OPENSEARCH_INDEX rt)
              index_config w1) as [[[]|e] w2]; reflexivity.
Qed.

Lemma processor_ensure_silent W (rt : runtime W) (st : state W) :
  silent (QueryProcessor.ensure_index_exists_logged rt) st
  = QueryProcessor.ensure_index_exists rt st.
Proof.
  unfold silent, QueryProcessor.ensure_index_exists_logged,
    QueryProcessor.ensure_index_exists, ltry_except, try_except, lbind, bind,
    quiet, perform, info, error, log, ret.
  destruct (os_indices_exists rt (QueryProcessor.INDEX rt) (world st))
    as [[[|]|e] w1]; cbn -[index_config]; try reflexivity.
  destruct (os_indices_create rt (QueryProcessor.INDEX rt)
              index_config w1) as [[[]|e] w2]; reflexivity.
Qed.

(** A provisioning that meets a failure hands it to the logger, after
    records of level INFO only. *)
Lemma ingestor_ensure_log W (rt : runtime W) (st : state W) e :
  provisioning_failure rt (DocIngestor.OPENSEARCH_INDEX rt) (world st) = Some e ->
  exists before,
    snd (DocIngestor.ensure_index_exists_logged rt st)
    = before ++ [provisioning_error e]
    /\ Forall (fun r => Logging.levelno r = Logging.INFO) before.
Proof.
  unfold provisioning_failure, DocIngestor.ensure_index_exists_logged,
    ltry_except, lbind, quiet, perform, info, error, log.
  destruct (os_indices_exists rt (DocIngestor.OPENSEARCH_INDEX rt) (world st))
    as [[[|]|e0] w1]; cbn -[index_config]; try discriminate.
  - destruct (os_indices_create rt (DocIngestor.OPENSEARCH_INDEX rt)
                index_config w1) as [[[]|e1] w2]; cbn -[index_config];
      intros H; inversion H; subst.
    eexists [_]. split; [reflexivity|]. repeat constructor.
  - intros H. inversion H; subst. exists []. split; [reflexivity|constructor].
Qed.

Lemma processor_ensure_log W (rt : runtime W) (st : state W) e :
  provisioning_failure rt (QueryProcessor.INDEX rt) (world st) = Some e ->
  exists before,
    snd (QueryProcessor.ensure_index_exists_logged rt st)
    = before ++ [provisioning_error e]
    /\ Forall (fun r => Logging.levelno r = Logging.INFO) before.
Proof.
  unfold provisioning_failure, QueryProcessor.ensure_index_exists_logged,
    ltry_except, lbind, quiet, perform, info, error, log.
  destruct (os_indices_exists rt (QueryProcessor.INDEX rt) (world st))
    as [[[|]|e0] w1]; cbn -[index_config]; try discriminate.
  - destruct (os_indices_create rt (QueryProcessor.INDEX rt)
                index_config w1) as [[[]|e1] w2]; cbn -[index_config];
      intros H; inversion H; subst.
    eexists [_]. split; [reflexivity|]. repeat constructor.
  - intros H. inversion H; subst. exists []. split; [reflexivity|constructor].
Qed.

Lemma times_returns W (m : M W unit) :
  (forall st, exists st', m st = (Ok tt, st')) ->
  forall n st, exists st', times n m st = (Ok tt, st').
Proof.
  intros Hm. induction n as [|n IH]; intros st.
  - exists st. reflexivity.
  - destruct (Hm st) as [st1 H1]. destruct (IH st1) as [st2 H2].
    exists st2. cbn [times]. unfold bind. rewrite H1. exact H2.
Qed.

(** A record of level ERROR reaches the handlers of the root logger
    exactly when the level of the root logger is at most ERROR. *)
Lemma error_record_handled root_level r records :
  Logging.levelno r = Logging.ERROR ->
  In r (Logging.handled root_level records)
  <-> In r records /\ (root_level <= Logging.ERROR)%Z.
Proof.
  intros Hr. unfold Logging.handled, Logging.isEnabledFor.
  rewrite filter_In, Hr, Z.leb_le. reflexivity.
Qed.

Lemma default_log_level W (rt : runtime W) :
  environ rt (py "LOG_LEVEL") = None ->
  install_logging rt = Ok Logging.INFO.
Proof.
  intros Henv. unfold install_logging, log_level, getenv. rewrite Henv.
  reflexivity.
Qed.

(** C9, amended: every sequence of calls of the index-schema creation,
    in any state of the world and whatever the index service answers or
    raises, returns without raising, in both Lambdas.  When the existence
    check or the creation fails, the operation returns all the same and
    its last act is to hand the logger a record of level ERROR that
    carries the message of the failure.  The record reaches the log of
    the invocation exactly when the level of the root logger is at most
    ERROR, as it is when [LOG_LEVEL] is not set. *)
Theorem C9_ensure_index_exists_never_raises :
  forall W (rt : runtime W),
    (forall n st,
        (exists st',
            times n (DocIngestor.ensure_index_exists rt) st = (Ok tt, st'))
        /\ (exists st',
               times n (QueryProcessor.ensure_index_exists rt) st
               = (Ok tt, st')))
    /\ (forall st e,
           provisioning_failure rt (DocIngestor.OPENSEARCH_INDEX rt) (world st)
           = Some e ->
           exists st' before,
             DocIngestor.ensure_index_exists_logged rt st
             = ((Ok tt, st'), before ++ [provisioning_error e])
             /\ DocIngestor.ensure_index_exists rt st = (Ok tt, st')
             /\ Forall (fun r => Logging.levelno r = Logging.INFO) before)
    /\ (forall st e,
           provisioning_failure rt (QueryProcessor.INDEX rt) (world st)
           = Some e ->
           exists st' before,
             QueryProcessor.ensure_index_exists_logged rt st
             = ((Ok tt, st'), before ++ [provisioning_error e])
             /\ QueryProcessor.ensure_index_exists rt st = (Ok tt, st')
             /\ Forall (fun r => Logging.levelno r = Logging.INFO) before)
    /\ (forall root_level e records,
           In (provisioning_error e) (Logging.handled root_level records)
           <-> In (provisioning_error e) records
               /\ (root_level <= Logging.ERROR)%Z)
    /\ (environ rt (py "LOG_LEVEL") = None ->
        install_logging rt = Ok Logging.INFO).
Proof.
  intros W rt. split; [|split; [|split; [|split]]].
  - intros n st. split; apply times_returns; intros st0.
    + destruct (ingestor_ensure_returns W rt st0) as (st1 & H1 & _). eauto.
    + destruct (processor_ensure_returns W rt st0) as (st1 & H1 & _). eauto.
  - intros st e Hfail.
    destruct (ingestor_ensure_returns W rt st) as (st1 & H1 & _).
    destruct (ingestor_ensure_log W rt st e Hfail) as (before & Hlog & Hinfo).
    exists st1, before. split; [|split; [exact H1|exact Hinfo]].
    rewrite <- Hlog, <- H1, <- ingestor_ensure_silent. unfold silent.
    destruct (DocIngestor.ensure_index_exists_logged rt st); reflexivity.
  - intros st e Hfail.
    destruct (processor_ensure_returns W rt st) as (st1 & H1 & _).
    destruct (processor_ensure_log W rt st e Hfail) as (before & Hlog & Hinfo).
    exists st1, before. split; [|split; [exact H1|exact Hinfo]].
    rewrite <- Hlog, <- H1, <- processor_ensure_silent. unfold silent.
    destruct (QueryProcessor.ensure_index_exists_logged rt st); reflexivity.
  - intros root_level e records. apply error_record_handled. reflexivity.
  - apply default_log_level.
Qed.

Lemma C9_ensure_index_exists_never_raises_witness :
  provisioning_failure racing_runtime (py "kb_chunks") tt = Some already_exists
  /\ (exists st',
         times 3 (QueryProcessor.ensure_index_exists racing_runtime) Stub.start
         = (Ok tt, st'))
  /\ (exists st' before,
         QueryProcessor.ensure_index_exists_logged racing_runtime Stub.start
         = ((Ok tt, st'), before ++ [provisioning_error already_exists])
         /\ QueryProcessor.ensure_index_exists racing_runtime Stub.start
            = (Ok tt, st')
         /\ Forall (fun r => Logging.levelno r = Logging.INFO) before)
  /\ install_logging racing_runtime = Ok Logging.INFO
  /\ In (provisioning_error already_exists)
       (Logging.handled Logging.INFO
          (snd (QueryProcessor.ensure_index_exists_logged racing_runtime
                  Stub.start))).
Proof.
  destruct (C9_ensure_index_exists_never_raises unit racing_runtime)
    as (Hseq & _ & Hlog & Hkept & Hdefault).
  split; [reflexivity|]. split; [apply (Hseq 3 Stub.start)|].
  split; [apply (Hlog Stub.start already_exists); reflexivity|].
  split; [apply Hdefault; reflexivity|].
  apply Hkept. split; [|apply Z.leb_le; reflexivity].
  simpl. auto.
Defined.

(** C9 as stated fails: under [LOG_LEVEL=critical] the index is missing,
    its creation fails, the operation returns, and no record of it
    reaches the log. *)
Lemma C9_counterexample :
  install_logging critical_runtime = Ok Logging.CRITICAL
  /\ provisioning_failure critical_runtime (py "kb_chunks") tt
     = Some already_exists
  /\ fst (QueryProcessor.ensure_index_exists_logged critical_runtime Stub.start)
     = (Ok tt,
        State tt [IndicesExists (py "kb_chunks");
                  IndicesCreate (py "kb_chunks") index_config])
  /\ snd (QueryProcessor.ensure_index_exists_logged critical_runtime Stub.start)
     = [Logging.LogRecord Logging.INFO (py "Creating index %s")
          [py "kb_chunks"];
        provisioning_error already_exists]
  /\ Logging.handled Logging.CRITICAL
       (snd (QueryProcessor.ensure_index_exists_logged critical_runtime
               Stub.start)) = []
  /\ Logging.handled Logging.CRITICAL
       (snd (DocIngestor.ensure_index_exists_logged critical_runtime
               Stub.start)) = [].
Proof. repeat split. Qed.

(** ** The query handler *)

Lemma bind_ok {W A B} (m : M W A) (k : A -> M W B) st a st' :
  m st = (Ok a, st') -> bind m k st = k a st'.
Proof. intros H. unfold bind. rewrite H. reflexivity. Qed.

Lemma bind_raise {W A B} (m : M W A) (k : A -> M W B) st e st' :
  m st = (Raise e, st') -> bind m k st = (Raise e, st').
Proof. intros H. unfold bind. rewrite H. reflexivity. Qed.

Lemma bind_lift {W A B} (r : result A) (k : A -> M W B) st :
  bind (lift r) k st
  = match r with Ok a => k a st | Raise e => (Raise e, st) end.
Proof. unfold bind, lift. destruct r; reflexivity. Qed.















(** Once the log is set up, the handler is its [try] statement; when the
    set-up raises, for a [LOG_LEVEL] that names something else than a
    level, the exception leaves the handler before any call. *)
Lemma lambda_handler_set_up W (rt : runtime W) event st :
  QueryProcessor.lambda_handler rt event st
  = match install_logging rt with
    | Ok _ => QueryProcessor.handler rt event st
    | Raise e => (Raise e, st)
    end.
Proof. unfold QueryProcessor.lambda_handler. apply bind_lift. Qed.

Lemma ingestor_handler_set_up W (rt : runtime W) event st :
  DocIngestor.lambda_handler rt event st
  = match install_logging rt with
    | Ok _ => DocIngestor.handler rt event st
    | Raise e => (Raise e, st)
    end.
Proof. unfold DocIngestor.lambda_handler. apply bind_lift. Qed.

Lemma misnamed_level_escapes :
  QueryProcessor.lambda_handler misnamed_level_runtime
    (Stub.post_event s3_question_body) Stub.start
  = (Raise (ValueError
              (py "Unknown level: '%(levelname)s:%(name)s:%(message)s'")),
     Stub.start).
Proof. reflexivity. Qed.

(** C8: whatever exception the [try] statement of the query handler
    raises, and so whatever the query processing raises once the log is
    set up, the handler catches it and returns HTTP 500.  Unless the debug
    flag is enabled the response is the plain one, whose body is
    [{"error": "internal_error"}] with no error type and no message, and
    the flag is off when [DEBUG_PUBLIC_ERRORS] is not set; with the flag on
    the body also carries the error type and the first 500 characters of
    the message.  From the [try] statement on no exception leaves the
    handler: on every event it returns a response. *)
Theorem C8_pipeline_errors_become_500 :
  forall W (rt : runtime W) (event : value) (st st1 : state W) (e : exn)
         (level : Z),
    install_logging rt = Ok level ->
    QueryProcessor.handler_try rt event st = (Raise e, st1) ->
    (exists resp,
       QueryProcessor.lambda_handler rt event st = (Ok resp, st1)
       /\ get resp "statusCode" VNone = Ok (VInt 500)
       /\ (QueryProcessor.debug_public_errors rt = false ->
           get resp "body" VNone = Ok (VStr internal_error_text))
       /\ (QueryProcessor.debug_public_errors rt = true ->
           get resp "body" VNone
           = Ok (VStr (dumps
                         (VDict [(py "error", VStr (py "internal_error"));
                                 (py "error_type", VStr (exc_type e));
                                 (py "message",
                                  VStr (prefix 500 (exc_str e)))])))))
    /\ (environ rt (py "DEBUG_PUBLIC_ERRORS") = None ->
        QueryProcessor.debug_public_errors rt = false)
    /\ (forall event' st0, exists resp st',
          QueryProcessor.lambda_handler rt event' st0 = (Ok resp, st')).
Proof.
  intros W rt event st st1 e level Hlog Htry. split; [|split].
  - exists (QueryProcessor.handler_except rt e). split.
    + rewrite lambda_handler_set_up, Hlog.
      unfold QueryProcessor.handler, try_except. rewrite Htry. reflexivity.
    + unfold QueryProcessor.handler_except.
      destruct (QueryProcessor.debug_public_errors rt).
      * split; [reflexivity|]. split; [discriminate|]. intros _. reflexivity.
      * split; [reflexivity|]. split; [|discriminate]. intros _. reflexivity.
  - intros Henv. unfold QueryProcessor.debug_public_errors, getenv.
    rewrite Henv. reflexivity.
  - intros event' st0. rewrite lambda_handler_set_up, Hlog.
    unfold QueryProcessor.handler, try_except.
    destruct (QueryProcessor.handler_try rt event' st0) as [[r|e'] st'];
      eexists; eexists; reflexivity.
Qed.

Lemma C8_pipeline_errors_become_500_witness :
  install_logging throttled_runtime = Ok Logging.INFO
  /\ exists st1,
       QueryProcessor.handler_try throttled_runtime
         (Stub.post_event s3_question_body) Stub.start = (Raise throttled, st1)
       /\ exists resp,
            QueryProcessor.lambda_handler throttled_runtime
              (Stub.post_event s3_question_body) Stub.start = (Ok resp, st1)
            /\ get resp "statusCode" VNone = Ok (VInt 500)
            /\ get resp "body" VNone = Ok (VStr internal_error_text).
Proof.
  split; [reflexivity|]. eexists. split; [reflexivity|].
  destruct (C8_pipeline_errors_become_500 unit throttled_runtime
              (Stub.post_event s3_question_body) Stub.start _ throttled
              Logging.INFO eq_refl eq_refl)
    as ((resp & Hrun & Hstatus & Hplain & _) & Hoff & _).
  exists resp. split; [exact Hrun|]. split; [exact Hstatus|].
  apply Hplain, Hoff. reflexivity.
Defined.

(** ** The embedders *)

Lemma first_output_embedding_none items :
  existsb direct_shape items = false ->
  DocIngestor.first_output_embedding items = None.
Proof.
  induction items as [|item items IH]; [reflexivity|].
  simpl. intros H. apply orb_false_iff in H as [H1 H2].
  destruct item; auto. simpl in H1.
  destruct (dict_lookup items0 (py "embedding")); [discriminate|auto].
Qed.

(** A response of neither shape on which the membership tests are
    defined is reported as malformed. *)
Lemma parse_embedding_malformed payload :
  plain_container payload = true ->
  direct_shape payload = false ->
  nested_shape payload = false ->
  DocIngestor.parse_embedding payload
  = Raise (RuntimeError (DocIngestor.no_embedding_message payload)).
Proof.
  unfold DocIngestor.parse_embedding.
  destruct payload as [| | | |s|items|kv]; try discriminate.
  - cbn [plain_container py_in rbind]. intros Hp _ _.
    apply andb_true_iff in Hp as [He Ho].
    apply negb_true_iff in He, Ho. rewrite He. cbn [rbind]. rewrite Ho.
    reflexivity.
  - cbn [plain_container py_in rbind]. intros Hp _ _.
    apply andb_true_iff in Hp as [He Ho].
    apply negb_true_iff in He, Ho. rewrite He. cbn [rbind]. rewrite Ho.
    reflexivity.
  - intros _ Hd Hn. simpl in Hd, Hn. cbn [py_in rbind getitem].
    destruct (dict_lookup kv (py "embedding")); [discriminate|].
    destruct (dict_lookup kv (py "outputs")) as [outputs|]; [|reflexivity].
    cbn [rbind]. destruct outputs; try reflexivity.
    rewrite (first_output_embedding_none _ Hn). reflexivity.
Qed.

Lemma parse_embedding_direct vector :
  DocIngestor.parse_embedding (direct_response vector) = Ok (VList vector).
Proof. reflexivity. Qed.

Lemma parse_embedding_nested vector :
  DocIngestor.parse_embedding (nested_response vector) = Ok (VList vector).
Proof. reflexivity. Qed.

(** For C2: on the response [{"outputs": [{"embedding": [...]}]}] to the
    same request, [embed] of the ingestion Lambda returns the vector and
    [embed] of the query Lambda raises [KeyError('embedding')]: it reads
    [payload["embedding"]] and never looks into [outputs]. *)
Theorem C2_query_embed_misses_nested_outputs :
  forall W (rt : runtime W) (st : state W) (text : str)
         (vector : list value) (w' : W),
    bedrock_invoke_model rt (QueryProcessor.EMBED_MODEL_ID rt)
      (dumps (VDict [(py "inputText", VStr text)])) (world st)
    = (Ok (nested_response vector), w') ->
    fst (DocIngestor.embed rt text None None None st) = Ok (VList vector)
    /\ fst (QueryProcessor.embed rt text st)
       = Raise (KeyError (py "'embedding'")).
Proof.
  intros W rt st text vector w' Hreply. split.
  - unfold DocIngestor.embed, bind, perform, lift.
    change (DocIngestor.model_or_default rt None)
      with (QueryProcessor.EMBED_MODEL_ID rt).
    change (dumps (DocIngestor.native_request text None None))
      with (dumps (VDict [(py "inputText", VStr text)])).
    rewrite Hreply. reflexivity.
  - unfold QueryProcessor.embed, bind, perform, lift.
    rewrite Hreply. reflexivity.
Qed.

Lemma C2_query_embed_misses_nested_outputs_witness :
  fst (DocIngestor.embed nested_runtime (py "what is s3") None None None
         Stub.start) = Ok (VList unit_vector)
  /\ fst (QueryProcessor.embed nested_runtime (py "what is s3") Stub.start)
     = Raise (KeyError (py "'embedding'")).
Proof.
  apply (C2_query_embed_misses_nested_outputs unit nested_runtime Stub.start
           (py "what is s3") unit_vector tt).
  reflexivity.
Defined.

(** On the direct shape both embedders return the vector. *)
Lemma embed_direct_shape W (rt : runtime W) st text vector w' :
  bedrock_invoke_model rt (QueryProcessor.EMBED_MODEL_ID rt)
    (dumps (VDict [(py "inputText", VStr text)])) (world st)
  = (Ok (direct_response vector), w') ->
  fst (DocIngestor.embed rt text None None None st) = Ok (VList vector)
  /\ fst (QueryProcessor.embed rt text st) = Ok (VList vector).
Proof.
  intros Hreply. split.
  - unfold DocIngestor.embed, bind, perform, lift.
    change (DocIngestor.model_or_default rt None)
      with (QueryProcessor.EMBED_MODEL_ID rt).
    change (dumps (DocIngestor.native_request text None None))
      with (dumps (VDict [(py "inputText", VStr text)])).
    rewrite Hreply. reflexivity.
  - unfold QueryProcessor.embed, bind, perform, lift.
    rewrite Hreply. reflexivity.
Qed.

(** C4, amended: for every embedding-model response that holds an
    embedding under neither shape, and that is a JSON object, or a JSON
    array or string in which neither ["embedding"] nor ["outputs"]
    occurs, [embed] of the ingestion Lambda raises a [RuntimeError] whose
    message is [No 'embedding' found in model response: ] followed by the
    first 1000 characters of the payload as [json.dumps] writes it. *)
Theorem C4_malformed_embedding_response :
  forall W (rt : runtime W) (st : state W) (text : str)
         (dimensions : option Z) (normalize : option bool)
         (model_id : option str) (payload : value) (w' : W),
    bedrock_invoke_model rt (DocIngestor.model_or_default rt model_id)
      (dumps (DocIngestor.native_request text dimensions normalize)) (world st)
    = (Ok payload, w') ->
    plain_container payload = true ->
    direct_shape payload = false ->
    nested_shape payload = false ->
    exists excerpt,
      fst (DocIngestor.embed rt text dimensions normalize model_id st)
      = Raise (RuntimeError
                 (py "No 'embedding' found in model response: " ++ excerpt))
      /\ excerpt = firstn 1000 (dumps payload)
      /\ length excerpt <= 1000.
Proof.
  intros W rt st text dimensions normalize model_id payload w' Hreply Hobj Hd Hn.
  exists (firstn 1000 (dumps payload)). split; [|split; [reflexivity|]].
  - unfold DocIngestor.embed, bind, perform, lift. rewrite Hreply.
    cbn [fst]. rewrite (parse_embedding_malformed payload Hobj Hd Hn).
    reflexivity.
  - apply firstn_le_length.
Qed.

Lemma C4_malformed_embedding_response_witness :
  (exists excerpt,
     fst (DocIngestor.embed empty_reply_runtime (py "what is s3") None None
            None Stub.start)
     = Raise (RuntimeError
                (py "No 'embedding' found in model response: " ++ excerpt))
     /\ excerpt = firstn 1000 (dumps (VDict []))
     /\ length excerpt <= 1000)
  /\ (exists excerpt,
        fst (DocIngestor.embed list_reply_runtime (py "what is s3") None None
               None Stub.start)
        = Raise (RuntimeError
                   (py "No 'embedding' found in model response: " ++ excerpt))
        /\ excerpt = py "[1, 2]"
        /\ length excerpt <= 1000).
Proof.
  split.
  - apply (C4_malformed_embedding_response unit empty_reply_runtime Stub.start
             (py "what is s3") None None None (VDict []) tt);
      reflexivity.
  - apply (C4_malformed_embedding_response unit list_reply_runtime Stub.start
             (py "what is s3") None None None (VList [VInt 1; VInt 2]) tt);
      reflexivity.
Defined.

(** C4 as stated fails: the message of the malformed-response failure is
    the fixed text and the excerpt, so that for the empty object it does
    not include the model identifier.  A response on which a membership
    test is not defined, here the number 5, or finds a word that is no
    member, here the array with the item ["embedding"] and a string that
    contains the word, raises a [TypeError] instead. *)
Lemma C4_counterexample :
  (exists msg,
     fst (DocIngestor.embed empty_reply_runtime (py "what is s3") None None
            None Stub.start) = Raise (RuntimeError msg)
     /\ msg = py "No 'embedding' found in model response: {}"
     /\ contains (DocIngestor.EMBED_MODEL_ID empty_reply_runtime) msg = false)
  /\ direct_shape (VInt 5) = false
  /\ nested_shape (VInt 5) = false
  /\ fst (DocIngestor.embed number_reply_runtime (py "what is s3") None None
            None Stub.start)
     = Raise (TypeError (py "argument of type 'int' is not iterable"))
  /\ DocIngestor.parse_embedding (VList [VStr (py "embedding")])
     = Raise (TypeError
                (py "list indices must be integers or slices, not str"))
  /\ DocIngestor.parse_embedding (VStr (py "no embedding"))
     = Raise (TypeError (py "string indices must be integers, not 'str'")).
Proof.
  split; [eexists; split; [reflexivity|split; reflexivity]|].
  repeat split.
Qed.

(** ** The answerer *)

Ltac answer_case :=
  first [ right; reflexivity
        | left; split; [eexists; reflexivity|reflexivity]
        | left; split; [eexists; reflexivity|apply andb_false_r]
        | discriminate ].

Ltac split_scrutinee :=
  match goal with
  | |- context [match ?x with _ => _ end] => destruct x eqn:?
  end.

Lemma py_or_not_list c :
  is_list c = false ->
  truthy (py_or c (VList [])) && is_list (py_or c (VList [])) = false.
Proof.
  intros Hl. unfold py_or. destruct (truthy c) eqn:Ht; [|reflexivity].
  rewrite Hl. apply andb_false_r.
Qed.

(** Without a text in the content list, the Anthropic branch finds
    [None], or faults on a first block that is not an object. *)
Lemma anthropic_answer_no_text payload :
  content_list_text payload = None ->
  ((exists e, QueryProcessor.anthropic_answer payload = Raise e)
   /\ blocks_are_objects payload = false)
  \/ QueryProcessor.anthropic_answer payload = Ok VNone.
Proof.
  intros Hnone. destruct payload as [| | | | | |kv]; try answer_case.
  unfold QueryProcessor.anthropic_answer, blocks_are_objects.
  cbn [get rbind] in *. simpl in Hnone.
  destruct (dict_lookup kv (py "content")) as [c|]; [|answer_case].
  destruct (is_list c) eqn:Hl;
    [|right; rewrite (py_or_not_list c Hl); reflexivity].
  destruct c as [| | | | |l|]; try discriminate.
  destruct l as [|x l]; [answer_case|].
  destruct x as [| | | |s'|l'|blk]; try answer_case.
  - cbn [py_or truthy nonempty is_list andb getitem0 rbind py_in].
    destruct (contains (py "text") s'); answer_case.
  - cbn [py_or truthy nonempty is_list andb getitem0 rbind py_in].
    destruct (existsb (is_str_eq (py "text")) l'); answer_case.
  - cbn [py_or truthy nonempty is_list andb getitem0 rbind py_in getitem
         block_text] in *.
    destruct (dict_lookup blk (py "text")) as [t|]; [|answer_case].
    destruct t; try discriminate. answer_case.
Qed.

(** Without a text in the nested structure, the other branch finds
    [None], or faults on a first item or block that is not an object. *)
Lemma nested_answer_no_text payload :
  nested_output_text payload = None ->
  ((exists e, QueryProcessor.nested_answer payload = Raise e)
   /\ blocks_are_objects payload = false)
  \/ QueryProcessor.nested_answer payload = Ok VNone.
Proof.
  intros Hnone. destruct payload as [| | | | | |kv]; try answer_case.
  unfold QueryProcessor.nested_answer, blocks_are_objects.
  cbn [get rbind] in *. simpl in Hnone.
  destruct (dict_lookup kv (py "output")) as [o|]; [|answer_case].
  destruct (is_list o) eqn:Hl;
    [|right; rewrite (py_or_not_list o Hl); reflexivity].
  destruct o as [| | | | |l|]; try discriminate.
  destruct l as [|x l]; [answer_case|].
  destruct x as [| | | | | |item]; try answer_case.
  cbn [py_or truthy nonempty is_list andb getitem0 rbind get getitem
       content_list_text] in *.
  destruct (dict_lookup item (py "content")) as [c|]; [|answer_case].
  destruct (truthy c) eqn:Ht; [|answer_case].
  cbn [rbind].
  destruct c as [| | | | |l'|]; try answer_case.
  destruct l' as [|y l']; [discriminate|].
  destruct y as [| | | | | |blk]; try answer_case.
  cbn [py_or truthy nonempty is_list andb getitem0 rbind get getitem
       content_list_text block_text is_none] in *.
  destruct (dict_lookup blk (py "text")) as [t|]; [|answer_case].
  destruct t; try discriminate. answer_case.
Qed.

Lemma parse_answer_no_text W (rt : runtime W) payload :
  content_list_text payload = None ->
  nested_output_text payload = None ->
  (exists e, QueryProcessor.parse_answer rt payload = Raise e)
  /\ (blocks_are_objects payload = true ->
      QueryProcessor.parse_answer rt payload
      = Raise (ValueError (py "Unexpected model response format"))).
Proof.
  intros Hc Hn. unfold QueryProcessor.parse_answer.
  destruct (QueryProcessor.is_anthropic rt).
  - destruct (anthropic_answer_no_text payload Hc) as [[[e ->] Hb]| ->].
    + split; [eexists; reflexivity|]. congruence.
    + split; [eexists; reflexivity|reflexivity].
  - destruct (nested_answer_no_text payload Hn) as [[[e ->] Hb]| ->].
    + split; [eexists; reflexivity|]. congruence.
    + split; [eexists; reflexivity|reflexivity].
Qed.

(** Without a text in the content list, a response on which the lookups
    of the Anthropic branch are defined gives [None]. *)
Lemma anthropic_answer_none payload :
  content_list_text payload = None ->
  content_readable payload = true ->
  QueryProcessor.anthropic_answer payload = Ok VNone.
Proof.
  destruct payload as [| | | | | |kv]; try discriminate.
  unfold content_list_text, content_readable, QueryProcessor.anthropic_answer.
  cbn [get rbind].
  destruct (dict_lookup kv (py "content")) as [c|]; [|reflexivity].
  destruct (is_list c) eqn:Hl;
    [|intros _ _; rewrite (py_or_not_list c Hl); reflexivity].
  destruct c as [| | | | |l|]; try discriminate.
  destruct l as [|x l]; [reflexivity|].
  cbn [py_or truthy nonempty is_list andb getitem0 rbind].
  destruct x as [| | | |s'|l'|blk]; try discriminate;
    cbn [text_testable py_in rbind getitem block_text].
  - intros _ H. apply negb_true_iff in H. rewrite H. reflexivity.
  - intros _ H. apply negb_true_iff in H. rewrite H. reflexivity.
  - destruct (dict_lookup blk (py "text")) as [t|]; [|reflexivity].
    destruct t; try discriminate. reflexivity.
Qed.

(** Likewise for the nested structure and the other branch. *)
Lemma nested_answer_none payload :
  nested_output_text payload = None ->
  output_readable payload = true ->
  QueryProcessor.nested_answer payload = Ok VNone.
Proof.
  destruct payload as [| | | | | |kv]; try discriminate.
  unfold nested_output_text, output_readable, QueryProcessor.nested_answer.
  cbn [get rbind].
  destruct (dict_lookup kv (py "output")) as [o|]; [|reflexivity].
  destruct (is_list o) eqn:Hl;
    [|intros _ _; rewrite (py_or_not_list o Hl); reflexivity].
  destruct o as [| | | | |l|]; try discriminate.
  destruct l as [|x l]; [reflexivity|].
  destruct x as [| | | | | |item]; try discriminate.
  cbn [py_or truthy nonempty is_list andb getitem0 rbind get getitem
       content_list_text].
  destruct (dict_lookup item (py "content")) as [c|]; [|reflexivity].
  destruct (truthy c) eqn:Ht; [|reflexivity].
  cbn [rbind].
  destruct c as [| | | | |l'|]; try reflexivity.
  destruct l' as [|y l']; [discriminate|].
  destruct y as [| | | | | |blk]; try discriminate.
  cbn [py_or truthy nonempty is_list andb getitem0 rbind get getitem
       content_list_text block_text is_none].
  destruct (dict_lookup blk (py "text")) as [t|]; [|reflexivity].
  destruct t; try discriminate. reflexivity.
Qed.

Lemma anthropic_answer_text payload t :
  content_list_text payload = Some t ->
  QueryProcessor.anthropic_answer payload = Ok t /\ is_none t = false.
Proof.
  destruct payload as [| | | | | |kv]; try discriminate.
  unfold content_list_text, QueryProcessor.anthropic_answer. cbn [get rbind].
  destruct (dict_lookup kv (py "content")) as [[| | | | |[|block l]|]|];
    try discriminate.
  destruct block as [| | | | | |blk]; try discriminate.
  cbn [block_text py_or truthy nonempty is_list andb getitem0 rbind py_in
       getitem].
  destruct (dict_lookup blk (py "text")) as [x|]; [|discriminate].
  destruct (is_none x) eqn:Hx; [discriminate|].
  intros H. inversion H; subst. split; [reflexivity|exact Hx].
Qed.

Lemma nested_answer_text payload t :
  nested_output_text payload = Some t ->
  QueryProcessor.nested_answer payload = Ok t /\ is_none t = false.
Proof.
  destruct payload as [| | | | | |kv]; try discriminate.
  unfold nested_output_text, QueryProcessor.nested_answer. cbn [get rbind].
  destruct (dict_lookup kv (py "output")) as [[| | | | |[|item l]|]|];
    try discriminate.
  destruct item as [| | | | | |it]; try discriminate.
  cbn [content_list_text py_or truthy nonempty is_list andb getitem0 rbind get
       getitem].
  destruct (dict_lookup it (py "content")) as [[| | | | |[|block l']|]|];
    try discriminate.
  destruct block as [| | | | | |blk]; try discriminate.
  cbn [block_text py_or truthy nonempty is_list andb getitem0 rbind get
       getitem].
  destruct (dict_lookup blk (py "text")) as [x|]; [|discriminate].
  destruct (is_none x) eqn:Hx; [discriminate|].
  intros H. inversion H; subst. split; [reflexivity|exact Hx].
Qed.

(** C7, amended: for every generative-model response in which neither
    the content-block list nor the nested output/content structure holds
    a text, that is a [text] member other than [null], and on which the
    lookups of the branch selected by the model identifier are defined,
    [answer_with_context] raises [ValueError("Unexpected model response
    format")] and returns no answer.  A [text] member that is the empty
    string is a text: under the shape of the model's family it is
    returned as the answer. *)
Theorem C7_no_text_raises :
  forall W (rt : runtime W) (st : state W) (question : str)
         (contexts : list value) (parts : list str) (payload : value) (w' : W),
    QueryProcessor.snippets rt 0 contexts = Ok parts ->
    bedrock_invoke_model rt (QueryProcessor.model_id_to_use rt)
      (dumps (QueryProcessor.request_body rt
                (QueryProcessor.build_prompt question parts))) (world st)
    = (Ok payload, w') ->
    (content_list_text payload = None ->
     nested_output_text payload = None ->
     answer_readable rt payload = true ->
     fst (QueryProcessor.answer_with_context rt question contexts st)
     = Raise (ValueError (py "Unexpected model response format")))
    /\ ((if QueryProcessor.is_anthropic rt then content_list_text payload
         else nested_output_text payload) = Some (VStr []) ->
        fst (QueryProcessor.answer_with_context rt question contexts st)
        = Ok (VStr [])).
Proof.
  intros W rt st question contexts parts payload w' Hparts Hreply.
  unfold QueryProcessor.answer_with_context.
  rewrite bind_lift, Hparts. unfold bind, perform, lift. rewrite Hreply.
  cbn [fst]. unfold QueryProcessor.parse_answer, answer_readable.
  destruct (QueryProcessor.is_anthropic rt); split.
  - intros Hc _ Hr. rewrite (anthropic_answer_none payload Hc Hr). reflexivity.
  - intros Ht. destruct (anthropic_answer_text payload _ Ht) as [-> _].
    reflexivity.
  - intros _ Hn Hr. rewrite (nested_answer_none payload Hn Hr). reflexivity.
  - intros Ht. destruct (nested_answer_text payload _ Ht) as [-> _].
    reflexivity.
Qed.

Lemma C7_no_text_raises_witness :
  fst (QueryProcessor.answer_with_context no_blocks_runtime (py "what is s3")
         [] Stub.start)
  = Raise (ValueError (py "Unexpected model response format"))
  /\ fst (QueryProcessor.answer_with_context empty_text_runtime
            (py "what is s3") [] Stub.start)
     = Ok (VStr []).
Proof.
  split.
  - destruct (C7_no_text_raises unit no_blocks_runtime Stub.start
                (py "what is s3") [] [] (VDict [(py "content", VList [])]) tt
                eq_refl eq_refl) as [H _].
    apply H; reflexivity.
  - destruct (C7_no_text_raises unit empty_text_runtime Stub.start
                (py "what is s3") [] [] empty_text_reply tt
                eq_refl eq_refl) as [_ H].
    apply H. reflexivity.
Defined.

(** C7 as stated fails: a response whose only text is the empty string
    holds no textual content under either shape, and the answerer returns
    the empty string as the answer.  A response on which a lookup is not
    defined, here one whose first content block is a number, raises a
    [TypeError] and not the unexpected-format failure. *)
Lemma C7_counterexample :
  textual_content (content_list_text empty_text_reply) = false
  /\ textual_content (nested_output_text empty_text_reply) = false
  /\ fst (QueryProcessor.answer_with_context empty_text_runtime
            (py "what is s3") [] Stub.start)
     = Ok (VStr [])
  /\ content_list_text (VDict [(py "content", VList [VInt 5])]) = None
  /\ nested_output_text (VDict [(py "content", VList [VInt 5])]) = None
  /\ fst (QueryProcessor.answer_with_context number_block_runtime
            (py "what is s3") [] Stub.start)
     = Raise (TypeError (py "argument of type 'int' is not iterable")).
Proof. repeat split. Qed.

(** ** Ingestion *)

Lemma index_writes_app a b :
  index_writes (a ++ b) = index_writes a ++ index_writes b.
Proof.
  induction a as [|c a IH]; [reflexivity|].
  destruct c; simpl; rewrite IH; reflexivity.
Qed.

Lemma index_writes_provisioning made :
  forallb is_provisioning_call made = true -> index_writes made = [].
Proof.
  induction made as [|c made IH]; [reflexivity|]. simpl. intros H.
  apply andb_true_iff in H as [Hc Hm]. destruct c; try discriminate; auto.
Qed.

Lemma embed_writes_nothing W (rt : runtime W) text d n m st r st' :
  DocIngestor.embed rt text d n m st = (r, st') ->
  index_writes (calls st') = index_writes (calls st).
Proof.
  unfold DocIngestor.embed, bind, perform, lift.
  destruct (bedrock_invoke_model rt (DocIngestor.model_or_default rt m)
              (dumps (DocIngestor.native_request text d n)) (world st))
    as [[payload|e] w]; intros H; inversion H; subst; cbn [calls];
    rewrite index_writes_app; apply app_nil_r.
Qed.

Lemma index_chunk_writes W (rt : runtime W) doc_id i chunk vec meta st st' :
  DocIngestor.index_chunk rt doc_id i chunk vec meta st = (Ok tt, st') ->
  index_writes (calls st')
  = index_writes (calls st)
    ++ [DocIngestor.chunk_document doc_id i chunk vec meta].
Proof.
  unfold DocIngestor.index_chunk. rewrite bind_lift.
  destruct (len vec) as [k|e]; [|discriminate].
  unfold perform.
  destruct (os_index rt (DocIngestor.OPENSEARCH_INDEX rt)
              (DocIngestor.chunk_document doc_id i chunk vec meta) (world st))
    as [[u|e] w]; intros H; inversion H; subst; cbn [calls].
  rewrite index_writes_app. reflexivity.
Qed.

(** The loop over the chunks of a document writes them in order, one
    document per chunk, numbered from [start]. *)
Lemma chunk_loop_writes W (rt : runtime W) doc_id meta chunks :
  forall start st st',
    for_each
      (fun i chunk_text_value =>
         bind (DocIngestor.embed rt chunk_text_value None None None)
           (fun vec =>
              DocIngestor.index_chunk rt doc_id i chunk_text_value vec meta))
      start chunks st = (Ok tt, st') ->
    exists writes,
      index_writes (calls st') = index_writes (calls st) ++ writes
      /\ length writes = length chunks
      /\ forall j chunk,
           nth_error chunks j = Some chunk ->
           exists vector,
             nth_error writes j
             = Some (DocIngestor.chunk_document doc_id (start + j) chunk
                       vector meta).
Proof.
  induction chunks as [|c cs IH]; intros start st st' H.
  - inversion H; subst. exists []. rewrite app_nil_r.
    repeat split. intros [|j] chunk Hj; discriminate.
  - cbn [for_each] in H. unfold bind at 1 in H.
    match type of H with
    | context [bind ?m ?k st] => destruct (bind m k st) as [[u|e] st1] eqn:Hstep
    end; [|discriminate].
    unfold bind in Hstep.
    destruct (DocIngestor.embed rt c None None None st) as [[vec|e] st0] eqn:He;
      [|discriminate].
    destruct u. apply index_chunk_writes in Hstep.
    apply embed_writes_nothing in He. rewrite He in Hstep.
    destruct (IH (S start) st1 st' H) as (writes & Hw & Hlen & Hnth).
    exists (DocIngestor.chunk_document doc_id start c vec meta :: writes).
    split; [|split].
    + rewrite Hw, Hstep, <- app_assoc. reflexivity.
    + simpl. rewrite Hlen. reflexivity.
    + intros [|j] chunk Hj.
      * simpl in Hj. inversion Hj; subst. exists vec.
        rewrite Nat.add_0_r. reflexivity.
      * simpl in Hj. destruct (Hnth j chunk Hj) as [vector Hv].
        exists vector. simpl. rewrite Hv. f_equal. f_equal. lia.
Qed.

(** C3: when the ingestion of an event with one document completes, the
    text of the document having been cut into N chunks, exactly N
    documents have been written to the index, in the order of the chunks;
    the i-th (from 0) has [chunk_id] i, the [doc_id] derived from the
    source key, the chunk as [chunk_text], and the document metadata
    [source] and [s3_key] unchanged. *)
Theorem C3_ingest_writes_each_chunk_in_order :
  forall W (rt : runtime W) (event record bucket : value) (key : str)
         (st st' : state W) (returned : value),
    get event "Records" (VList []) = Ok (VList [record]) ->
    DocIngestor.record_source record = Ok (bucket, VStr key) ->
    DocIngestor.handler rt event st = (Ok returned, st') ->
    exists (text : str) (chunks : list str) (writes : list value) (w1 w2 : W),
      s3_get_object rt bucket (VStr key) w1 = (Ok text, w2)
      /\ DocIngestor.chunk_text rt text 1200 = Ok chunks
      /\ index_writes (calls st') = index_writes (calls st) ++ writes
      /\ length writes = length chunks
      /\ forall i chunk,
           nth_error chunks i = Some chunk ->
           exists vector,
             nth_error writes i
             = Some (VDict [(py "doc_id", VStr (md5_hexdigest rt key));
                            (py "chunk_id", VInt (Z.of_nat i));
                            (py "chunk_text", VStr chunk);
                            (py "embedding", vector);
                            (py "source", VStr (py "s3"));
                            (py "s3_key", VStr key)]).
Proof.
  intros W rt event record bucket key st st' returned Hrec Hsrc Hrun.
  unfold DocIngestor.handler in Hrun.
  rewrite bind_lift, Hrec, bind_lift in Hrun. cbn [len] in Hrun.
  destruct (ingestor_ensure_returns W rt st) as (st1 & H1 & made & Hc & Hp).
  rewrite (bind_ok _ _ st tt st1 H1), !bind_lift in Hrun.
  cbn [iterate for_each] in Hrun.
  unfold bind at 1 2 in Hrun.
  destruct (DocIngestor.process_record rt record st1) as [[u|e] st2] eqn:Hproc;
    [|discriminate].
  unfold ret in Hrun. inversion Hrun; subst returned st2. clear Hrun.
  unfold DocIngestor.process_record in Hproc.
  rewrite bind_lift, Hsrc in Hproc. unfold bind at 1, perform in Hproc.
  destruct (s3_get_object rt bucket (VStr key) (world st1))
    as [[text|e] w2] eqn:Hs3; [|discriminate].
  rewrite bind_lift in Hproc. destruct (encode key); [|discriminate].
  rewrite bind_lift in Hproc.
  destruct (DocIngestor.chunk_text rt text 1200) as [chunks|e] eqn:Hchunks;
    [|discriminate].
  unfold DocIngestor.index_chunks in Hproc. destruct u.
  apply chunk_loop_writes in Hproc as (writes & Hw & Hlen & Hnth).
  exists text, chunks, writes, (world st1), w2.
  split; [exact Hs3|]. split; [exact Hchunks|]. split; [|split].
  - rewrite Hw. cbn [calls]. rewrite Hc, !index_writes_app.
    rewrite (index_writes_provisioning made Hp). simpl.
    rewrite !app_nil_r. reflexivity.
  - exact Hlen.
  - intros i chunk Hi. destruct (Hnth i chunk Hi) as [vector Hv].
    exists vector. rewrite Hv. reflexivity.
Qed.

Lemma C3_ingest_writes_each_chunk_in_order_witness :
  exists (text : str) (chunks : list str) (writes : list value) (w1 w2 : unit),
    s3_get_object ingest_runtime (VStr (py "docs")) (VStr (py "guide.txt")) w1
    = (Ok text, w2)
    /\ DocIngestor.chunk_text ingest_runtime text 1200 = Ok chunks
    /\ index_writes
         (calls (snd (DocIngestor.handler ingest_runtime put_event Stub.start)))
       = index_writes (calls Stub.start) ++ writes
    /\ length writes = length chunks
    /\ forall i chunk,
         nth_error chunks i = Some chunk ->
         exists vector,
           nth_error writes i
           = Some (VDict [(py "doc_id", VStr (Stub.digest (py "guide.txt")));
                          (py "chunk_id", VInt (Z.of_nat i));
                          (py "chunk_text", VStr chunk);
                          (py "embedding", vector);
                          (py "source", VStr (py "s3"));
                          (py "s3_key", VStr (py "guide.txt"))]).
Proof.
  apply (C3_ingest_writes_each_chunk_in_order unit ingest_runtime put_event
           put_record (VStr (py "docs")) (py "guide.txt") Stub.start
           (snd (DocIngestor.handler ingest_runtime put_event Stub.start))
           (VDict [(py "ok", VBool true)])).
  - reflexivity.
  - reflexivity.
  - vm_compute. reflexivity.
Defined.

(** ** More on the chunker *)

Import Observations Examples2.

Lemma nonspace_app a b : nonspace (a ++ b) = nonspace a ++ nonspace b.
Proof. apply filter_app. Qed.

Lemma nonspace_blank b : blank b = true -> nonspace b = [].
Proof.
  induction b as [|c b IH]; simpl; intros H; [reflexivity|].
  apply andb_true_iff in H as [Hc Hb]. rewrite Hc. simpl. auto.
Qed.

Lemma nonspace_expandtabs ts s : forall col,
  nonspace (Textwrap.expandtabs_from ts col s) = nonspace s.
Proof.
  induction s as [|c s IH]; intros col; [reflexivity|].
  cbn [Textwrap.expandtabs_from]. destruct (N.eqb_spec c 9) as [->|Hc].
  - destruct (0 <? ts).
    + rewrite nonspace_app, nonspace_blank by apply WrapFacts.blank_repeat_space.
      simpl. apply IH.
    + simpl. apply IH.
  - simpl. rewrite IH. reflexivity.
Qed.

Lemma nonspace_translate s :
  nonspace (Textwrap.translate_whitespace s) = nonspace s.
Proof.
  unfold Textwrap.translate_whitespace.
  induction s as [|c s IH]; [reflexivity|]. simpl. rewrite IH.
  destruct (Textwrap.whitespace c) eqn:Hw; [|reflexivity].
  rewrite (WrapFacts.whitespace_isspace c Hw). reflexivity.
Qed.

Lemma nonspace_munge text :
  nonspace (Textwrap._munge_whitespace text) = nonspace text.
Proof.
  unfold Textwrap._munge_whitespace, Textwrap.expandtabs.
  rewrite nonspace_translate. apply nonspace_expandtabs.
Qed.

Lemma emit_nonspace lines cl :
  nonspace (concat (WrapNotions.emit lines cl))
  = nonspace (concat lines) ++ nonspace (concat cl).
Proof.
  unfold WrapNotions.emit.
  assert (Hd : nonspace (concat (Textwrap.drop_trailing_blank cl))
               = nonspace (concat cl)).
  { destruct (WrapFacts.drop_trailing_blank_cases cl) as [->|(b & Hcl & Hb)];
      [reflexivity|].
    rewrite Hcl at 2. rewrite WrapFacts.concat_snoc, nonspace_app.
    rewrite (nonspace_blank b Hb). symmetry. apply app_nil_r. }
  destruct (Textwrap.drop_trailing_blank cl) as [|x d] eqn:Hdrop;
    simpl nonempty; cbv iota.
  - rewrite <- Hd. simpl. symmetry. apply app_nil_r.
  - rewrite WrapFacts.concat_snoc, nonspace_app, <- Hd. reflexivity.
Qed.

Lemma after_drop_nonspace lines chunks :
  nonspace (concat (WrapNotions.after_drop lines chunks))
  = nonspace (concat chunks).
Proof.
  pose proof (WrapFacts.after_drop_cases lines chunks) as Hc.
  remember (WrapNotions.after_drop lines chunks) as d eqn:Hd. clear Hd.
  destruct Hc as [->|(b & -> & Hb & _)]; [reflexivity|].
  simpl. rewrite nonspace_app, (nonspace_blank b Hb). reflexivity.
Qed.

(** The loop keeps the characters that are not whitespace, in order. *)
Lemma wrap_loop_nonspace w fuel chunks out :
  Textwrap.wrap_loop fuel w [] chunks = Some out ->
  nonspace (concat out) = nonspace (concat chunks).
Proof.
  intros H.
  pose (I := fun (lines cs : list str) =>
               nonspace (concat lines) ++ nonspace (concat cs)
               = nonspace (concat chunks)).
  assert (HI : I out []).
  { apply (WrapFacts.wrap_loop_invariant I w) with (fuel := fuel) (lines := [])
                                                   (chunks := chunks);
      [|reflexivity|exact H].
    clear. intros lines cs HI. unfold I in *. rewrite <- HI.
    rewrite <- (after_drop_nonspace lines cs).
    destruct (WrapFacts.wrap_step_cases w lines cs)
      as (taken & rest & Happ & _ & [[Heq _]|(c & r & e & -> & _ & _ & Heq)]);
      rewrite Heq, Happ; simpl fst; simpl snd; rewrite emit_nonspace.
    - rewrite concat_app, nonspace_app, app_assoc. reflexivity.
    - rewrite WrapFacts.concat_snoc, concat_app. cbn [concat].
      rewrite !nonspace_app, <- !app_assoc. do 2 f_equal.
      rewrite (app_assoc (nonspace (firstn e c))), <- nonspace_app.
      rewrite firstn_skipn. reflexivity. }
  unfold I in HI. simpl in HI. rewrite app_nil_r in HI. exact HI.
Qed.

(** X1: For every text and every [max_len > 0], the chunks hold the
    characters of the text that are not whitespace, all of them and in
    their order: wrapping loses and repeats nothing but whitespace. *)
Theorem chunks_keep_the_text :
  forall W (rt : runtime W) (text : str) (max_len : Z),
    (0 < max_len)%Z ->
    exists chunks,
      DocIngestor.chunk_text rt text max_len = Ok chunks
      /\ nonspace (concat chunks) = nonspace text.
Proof.
  intros W rt text max_len Hpos. unfold DocIngestor.chunk_text.
  destruct (WrapFacts.wrap_returns (isalnum rt) (isdecimal rt) text max_len Hpos)
    as (chunks & Hok & Hfuel).
  exists chunks. split; [exact Hok|].
  rewrite (wrap_loop_nonspace _ _ _ _ (Hfuel _ (le_n _))).
  rewrite concat_split_chunks. apply nonspace_munge.
Qed.

Lemma chunks_keep_the_text_witness :
  (0 < 4)%Z
  /\ exists chunks,
       DocIngestor.chunk_text Stub.plain (py " well-known  abcdefgh ") 4
       = Ok chunks
       /\ nonspace (concat chunks) = py "well-knownabcdefgh".
Proof.
  assert (Hpos : (0 < 4)%Z) by lia. split; [exact Hpos|].
  destruct (chunks_keep_the_text unit Stub.plain
              (py " well-known  abcdefgh ") 4 Hpos) as (chunks & Hok & Hkeep).
  exists chunks. split; [exact Hok|]. rewrite Hkeep. reflexivity.
Defined.

Lemma concat_nonempty (l : list str) :
  l <> [] -> Forall (fun c => c <> []) l -> concat l <> [].
Proof.
  destruct l as [|x l]; [congruence|]. intros _ H. inversion H; subst.
  simpl. destruct x; [congruence|discriminate].
Qed.

Lemma emit_nonempty lines cl :
  Forall (fun c => c <> []) lines ->
  Forall (fun c => c <> []) (Textwrap.drop_trailing_blank cl) ->
  Forall (fun c => c <> []) (WrapNotions.emit lines cl).
Proof.
  intros Hl Hd. unfold WrapNotions.emit.
  destruct (Textwrap.drop_trailing_blank cl) as [|x d] eqn:Hdrop; [exact Hl|].
  simpl nonempty. cbv iota. apply Forall_app. split; [exact Hl|].
  constructor; [|constructor]. apply concat_nonempty; [discriminate|exact Hd].
Qed.

Lemma drop_trailing_blank_nonempty taken p :
  Forall (fun c : str => c <> []) taken ->
  Forall (fun c => c <> []) (Textwrap.drop_trailing_blank (taken ++ [p])).
Proof.
  intros Ht. unfold Textwrap.drop_trailing_blank.
  rewrite rev_app_distr. simpl. destruct (blank p) eqn:Hb.
  - rewrite rev_involutive. exact Ht.
  - apply Forall_app. split; [exact Ht|]. constructor; [|constructor].
    intros ->. discriminate.
Qed.

Lemma drop_trailing_blank_prefix (P : str -> Prop) cl :
  Forall P cl -> Forall P (Textwrap.drop_trailing_blank cl).
Proof.
  intros H. destruct (WrapFacts.drop_trailing_blank_cases cl)
    as [->|(b & Hcl & _)]; [exact H|].
  rewrite Hcl in H. apply Forall_app in H. apply H.
Qed.

(** The loop stores no empty line when the chunks are not empty. *)
Lemma wrap_loop_nonempty w fuel chunks out :
  1 <= w ->
  Forall (fun c => c <> []) chunks ->
  Textwrap.wrap_loop fuel w [] chunks = Some out ->
  Forall (fun c => c <> []) out.
Proof.
  intros Hw Hch H.
  pose (I := fun (lines cs : list str) =>
               Forall (fun c : str => c <> []) lines
               /\ Forall (fun c : str => c <> []) cs).
  assert (HI : I out []).
  { apply (WrapFacts.wrap_loop_invariant I w) with (fuel := fuel) (lines := [])
                                                   (chunks := chunks);
      [|split; [constructor|exact Hch]|exact H].
    clear - Hw. intros lines cs [Hl Hcs].
    assert (Hd : Forall (fun c : str => c <> []) (WrapNotions.after_drop lines cs)).
    { pose proof (WrapFacts.after_drop_cases lines cs) as Hc.
      remember (WrapNotions.after_drop lines cs) as d eqn:Hdd. clear Hdd.
      destruct Hc as [->|(b & -> & _)]; [exact Hcs|].
      inversion Hcs; assumption. }
    destruct (WrapFacts.wrap_step_cases w lines cs)
      as (taken & rest & Happ & Hlen & [[Heq _]|(c & r & e & -> & Hc & He & Heq)]);
      rewrite Heq; simpl fst; simpl snd; rewrite Happ in Hd;
      apply Forall_app in Hd as [Ht Hr].
    - split; [|exact Hr]. apply emit_nonempty; [exact Hl|].
      apply drop_trailing_blank_prefix. exact Ht.
    - split.
      + apply emit_nonempty; [exact Hl|].
        apply drop_trailing_blank_nonempty. exact Ht.
      + inversion Hr; subst. constructor; [|assumption].
        pose proof (WrapFacts.break_point_le c
                      (if w <? 1 then 1 else w - Textwrap.total_len taken)) as Hle.
        destruct (w <? 1) eqn:Hw1; [apply Nat.ltb_lt in Hw1; lia|].
        intros Hnil. apply (f_equal (@length N)) in Hnil.
        rewrite length_skipn in Hnil. simpl in Hnil. lia. }
  apply HI.
Qed.

(** X2: For every text and every [max_len > 0], no chunk is the empty
    string. *)
Theorem chunks_are_not_empty :
  forall W (rt : runtime W) (text : str) (max_len : Z),
    (0 < max_len)%Z ->
    exists chunks,
      DocIngestor.chunk_text rt text max_len = Ok chunks
      /\ Forall (fun c => c <> []) chunks.
Proof.
  intros W rt text max_len Hpos. unfold DocIngestor.chunk_text.
  destruct (WrapFacts.wrap_returns (isalnum rt) (isdecimal rt) text max_len Hpos)
    as (chunks & Hok & Hfuel).
  exists chunks. split; [exact Hok|].
  assert (Hw : 1 <= Z.to_nat max_len) by lia.
  eapply (wrap_loop_nonempty (Z.to_nat max_len)); [exact Hw| |exact (Hfuel _ (le_n _))].
  unfold Textwrap._split_chunks, Textwrap._split.
  apply Forall_forall. intros c Hc. apply filter_In in Hc as [_ Hc].
  intros ->. discriminate.
Qed.

Lemma chunks_are_not_empty_witness :
  (0 < 1)%Z
  /\ exists chunks,
       DocIngestor.chunk_text Stub.plain (py "  ab- c ") 1 = Ok chunks
       /\ Forall (fun c => c <> []) chunks.
Proof.
  assert (Hpos : (0 < 1)%Z) by lia. split; [exact Hpos|].
  exact (chunks_are_not_empty unit Stub.plain (py "  ab- c ") 1 Hpos).
Defined.

(** ** More on the query handler *)

Lemma query_embed_calls W (rt : runtime W) text st r st' :
  QueryProcessor.embed rt text st = (r, st') ->
  calls st' = calls st ++ [embed_call rt text].
Proof.
  unfold QueryProcessor.embed, bind, perform, lift, embed_call.
  destruct (bedrock_invoke_model rt (QueryProcessor.EMBED_MODEL_ID rt)
              (dumps (VDict [(py "inputText", VStr text)])) (world st))
    as [[payload|e] w]; intros H; inversion H; reflexivity.
Qed.

Lemma search_calls W (rt : runtime W) vec k st r st' :
  QueryProcessor.search rt vec k st = (r, st') ->
  (calls st' = calls st /\ exists e, r = Raise e)
  \/ calls st' = calls st ++ [search_call rt vec k].
Proof.
  unfold QueryProcessor.search. rewrite bind_lift.
  destruct (len vec) as [n|e].
  - unfold bind, perform, lift, search_call.
    match goal with
    | |- context [os_search rt ?i ?b (world st)] =>
        destruct (os_search rt i b (world st)) as [[res|e] w]
    end; intros H; inversion H; right; reflexivity.
  - intros H. inversion H; subst. left. eauto.
Qed.

Lemma answer_calls W (rt : runtime W) question contexts st r st' :
  QueryProcessor.answer_with_context rt question contexts st = (r, st') ->
  (calls st' = calls st
   /\ exists e, r = Raise e /\ QueryProcessor.snippets rt 0 contexts = Raise e)
  \/ exists parts,
       QueryProcessor.snippets rt 0 contexts = Ok parts
       /\ calls st' = calls st ++ [generation_call rt question parts].
Proof.
  unfold QueryProcessor.answer_with_context. rewrite bind_lift.
  destruct (QueryProcessor.snippets rt 0 contexts) as [parts|e].
  - unfold bind, perform, lift, generation_call.
    match goal with
    | |- context [bedrock_invoke_model rt ?i ?b (world st)] =>
        destruct (bedrock_invoke_model rt i b (world st)) as [[res|e] w]
    end; intros H; inversion H; right; exists parts; split; reflexivity.
  - intros H. inversion H; subst. left. eauto.
Qed.

(** Every request runs the provisioning and then a prefix of the
    pipeline. *)
Lemma handler_try_outcomes W (rt : runtime W) event st :
  exists prov pipe,
    calls (snd (QueryProcessor.handler_try rt event st))
    = calls st ++ prov ++ pipe
    /\ forallb is_provisioning_call prov = true
    /\ pipeline_outcome rt (fst (QueryProcessor.handler_try rt event st)) pipe.
Proof.
  destruct (processor_ensure_returns W rt st) as (st1 & H1 & prov & Hc & Hp).
  exists prov. unfold QueryProcessor.handler_try.
  rewrite (bind_ok _ _ st tt st1 H1), bind_lift.
  assert (Hnil : calls st1 = calls st ++ prov ++ [])
    by (rewrite app_nil_r; exact Hc).
  destruct (QueryProcessor.http_method rt event) as [method|e].
  2: { exists []. split; [exact Hnil|]. split; [exact Hp|].
       left. split; [reflexivity|]. right. right. eexists. reflexivity. }
  destruct (str_eqb method (py "OPTIONS")).
  { exists []. split; [exact Hnil|]. split; [exact Hp|].
    left. split; [reflexivity|]. left. reflexivity. }
  rewrite bind_lift. destruct (QueryProcessor.request_json rt event) as [body|e].
  2: { exists []. split; [exact Hnil|]. split; [exact Hp|].
       left. split; [reflexivity|]. right. right. eexists. reflexivity. }
  rewrite bind_lift. destruct (QueryProcessor.request_question body) as [q|e].
  2: { exists []. split; [exact Hnil|]. split; [exact Hp|].
       left. split; [reflexivity|]. right. right. eexists. reflexivity. }
  destruct (nonempty q); cbn [negb].
  2: { exists []. split; [exact Hnil|]. split; [exact Hp|].
       left. split; [reflexivity|]. right. left. reflexivity. }
  clear Hnil.
  destruct (QueryProcessor.embed rt q st1) as [[qvec|e] st2] eqn:He;
    [rewrite (bind_ok _ _ _ _ _ He)|rewrite (bind_raise _ _ _ _ _ He)];
    apply query_embed_calls in He; rewrite Hc in He.
  2: { exists [embed_call rt q]. cbn [fst snd].
       split; [rewrite He, <- app_assoc; reflexivity|]. split; [exact Hp|].
       right. left. exists q. split; [reflexivity|]. eexists. reflexivity. }
  destruct (QueryProcessor.search rt qvec 5 st2) as [[contexts|e] st3] eqn:Hs;
    [rewrite (bind_ok _ _ _ _ _ Hs)|rewrite (bind_raise _ _ _ _ _ Hs)];
    apply search_calls in Hs; rewrite He in Hs.
  2: { destruct Hs as [[Hs _]|Hs].
       - exists [embed_call rt q]. cbn [fst snd].
         split; [rewrite Hs, <- app_assoc; reflexivity|]. split; [exact Hp|].
         right. left. exists q. split; [reflexivity|]. eexists. reflexivity.
       - exists [embed_call rt q; search_call rt qvec 5]. cbn [fst snd].
         split; [rewrite Hs, <- !app_assoc; reflexivity|]. split; [exact Hp|].
         right. right. left. exists q, qvec. split; [reflexivity|].
         eexists. reflexivity. }
  destruct Hs as [[_ [e Hs]]|Hs]; [discriminate|].
  destruct (QueryProcessor.answer_with_context rt q contexts st3)
    as [[answer|e] st4] eqn:Ha;
    [rewrite (bind_ok _ _ _ _ _ Ha)|rewrite (bind_raise _ _ _ _ _ Ha)];
    apply answer_calls in Ha; rewrite Hs in Ha.
  - destruct Ha as [[_ (e & Ha & _)]|(parts & _ & Ha)]; [discriminate|].
    exists [embed_call rt q; search_call rt qvec 5; generation_call rt q parts].
    unfold ret. cbn [fst snd].
    split; [rewrite Ha, <- !app_assoc; reflexivity|]. split; [exact Hp|].
    right. right. right. exists q, qvec, parts. split; [reflexivity|].
    right. eexists. reflexivity.
  - destruct Ha as [[Ha _]|(parts & _ & Ha)].
    + exists [embed_call rt q; search_call rt qvec 5]. cbn [fst snd].
      split; [rewrite Ha, <- !app_assoc; reflexivity|]. split; [exact Hp|].
      right. right. left. exists q, qvec. split; [reflexivity|].
      eexists. reflexivity.
    + exists [embed_call rt q; search_call rt qvec 5; generation_call rt q parts].
      cbn [fst snd].
      split; [rewrite Ha, <- !app_assoc; reflexivity|]. split; [exact Hp|].
      right. right. right. exists q, qvec, parts. split; [reflexivity|].
      left. eexists. reflexivity.
Qed.

Lemma handler_runs_try W (rt : runtime W) event st :
  QueryProcessor.handler rt event st
  = match QueryProcessor.handler_try rt event st with
    | (Ok resp, st') => (Ok resp, st')
    | (Raise e, st') => (Ok (QueryProcessor.handler_except rt e), st')
    end.
Proof. reflexivity. Qed.

Lemma handler_except_status W (rt : runtime W) e :
  get (QueryProcessor.handler_except rt e) "statusCode" VNone = Ok (VInt 500).
Proof.
  unfold QueryProcessor.handler_except.
  destruct (QueryProcessor.debug_public_errors rt); reflexivity.
Qed.

(** X3: Whatever the event, the handler calls the services in one order:
    the index provisioning, then at most one embedding, one search with
    [k = 5] and one generation, each only after the one before it; the
    question embedded is the one the prompt carries.  No document is
    read or written. *)
Theorem query_calls_follow_the_pipeline :
  forall W (rt : runtime W) (event : value) (st : state W),
    exists prov q vec parts n,
      calls (snd (QueryProcessor.handler rt event st))
      = calls st ++ prov
        ++ firstn n [embed_call rt q; search_call rt vec 5;
                     generation_call rt q parts]
      /\ forallb is_provisioning_call prov = true.
Proof.
  intros W rt event st.
  destruct (handler_try_outcomes W rt event st) as (prov & pipe & Hc & Hp & Ho).
  assert (Hs : snd (QueryProcessor.handler rt event st)
               = snd (QueryProcessor.handler_try rt event st)).
  { rewrite handler_runs_try.
    destruct (QueryProcessor.handler_try rt event st) as [[r|e] st'];
      reflexivity. }
  rewrite Hs, Hc. exists prov.
  destruct Ho as [[-> _]
                 |[(q & -> & _)
                  |[(q & vec & -> & _)|(q & vec & parts & -> & _)]]].
  - exists [], VNone, [], 0. split; [reflexivity|exact Hp].
  - exists q, VNone, [], 1. split; [reflexivity|exact Hp].
  - exists q, vec, [], 2. split; [reflexivity|exact Hp].
  - exists q, vec, parts, 3. split; [reflexivity|exact Hp].
Qed.

(** X4: A response with status 200 is only given after the whole pipeline
    ran: the embedding, the search and the generation were called, once
    each and in this order, after the provisioning. *)
Theorem answered_request_ran_the_pipeline :
  forall W (rt : runtime W) (event resp : value) (st st' : state W),
    QueryProcessor.handler rt event st = (Ok resp, st') ->
    get resp "statusCode" VNone = Ok (VInt 200) ->
    exists prov q vec parts,
      calls st' = calls st ++ prov
        ++ [embed_call rt q; search_call rt vec 5; generation_call rt q parts]
      /\ forallb is_provisioning_call prov = true.
Proof.
  intros W rt event resp st st' Hrun Hstatus.
  destruct (handler_try_outcomes W rt event st) as (prov & pipe & Hc & Hp & Ho).
  rewrite handler_runs_try in Hrun.
  destruct (QueryProcessor.handler_try rt event st) as [[r|e] st1];
    inversion Hrun; subst; clear Hrun; cbn [fst snd] in *.
  2: { rewrite handler_except_status in Hstatus. discriminate. }
  exists prov.
  destruct Ho as [[_ [Hr|[Hr|[e Hr]]]]
                 |[(q & _ & e & Hr)
                  |[(q & vec & _ & e & Hr)
                   |(q & vec & parts & -> & [[e Hr]|[body Hr]])]]];
    try discriminate; inversion Hr; subst; try discriminate.
  exists q, vec, parts. split; [exact Hc|exact Hp].
Qed.

Lemma answered_request_ran_the_pipeline_witness :
  exists resp st',
    QueryProcessor.handler answering_runtime
      (Stub.post_event s3_question_body) Stub.start = (Ok resp, st')
    /\ get resp "statusCode" VNone = Ok (VInt 200)
    /\ exists prov q vec parts,
         calls st' = calls Stub.start ++ prov
           ++ [embed_call answering_runtime q;
               search_call answering_runtime vec 5;
               generation_call answering_runtime q parts]
         /\ forallb is_provisioning_call prov = true.
Proof.
  eexists. eexists. split; [reflexivity|]. split; [reflexivity|].
  apply (answered_request_ran_the_pipeline unit answering_runtime
           (Stub.post_event s3_question_body) _ Stub.start _
           eq_refl eq_refl).
Defined.

(** X5: Every response the query handler returns has one of the four
    statuses 200, 204, 400 and 500, a text body, and the three CORS
    headers with their configured values. *)
Theorem every_response_has_cors_headers :
  forall W (rt : runtime W) (event resp : value) (st st' : state W),
    QueryProcessor.lambda_handler rt event st = (Ok resp, st') ->
    exists status headers body,
      resp = VDict [(py "statusCode", VInt status);
                    (py "headers", VDict headers);
                    (py "body", VStr body)]
      /\ In status [200; 204; 400; 500]%Z
      /\ forall k v,
           In (k, v) (QueryProcessor.CORS_HEADERS rt) ->
           dict_lookup headers k = Some v.
Proof.
  intros W rt event resp st st' Hrun.
  assert (Hcors : forall k v,
             In (k, v) (QueryProcessor.CORS_HEADERS rt) ->
             dict_lookup (QueryProcessor.CORS_HEADERS rt) k = Some v).
  { intros k v [H|[H|[H|[]]]]; inversion H; reflexivity. }
  assert (Hbase : forall k v,
             In (k, v) (QueryProcessor.CORS_HEADERS rt) ->
             dict_lookup
               (dict_merge [(py "Content-Type", VStr (py "application/json"))]
                  (QueryProcessor.CORS_HEADERS rt)) k = Some v).
  { intros k v [H|[H|[H|[]]]]; inversion H; reflexivity. }
  rewrite lambda_handler_set_up in Hrun.
  destruct (install_logging rt) as [level|e0]; [|discriminate].
  destruct (handler_try_outcomes W rt event st) as (prov & pipe & _ & _ & Ho).
  rewrite handler_runs_try in Hrun.
  destruct (QueryProcessor.handler_try rt event st) as [[r|e] st1];
    cbn [fst snd] in *; inversion Hrun; subst; clear Hrun.
  - assert (Hr : resp = QueryProcessor.preflight_response rt
                 \/ (exists status body,
                       resp = QueryProcessor._response rt status (Some body) None
                       /\ In status [200; 400]%Z)).
    { destruct Ho as [[_ [Hr|[Hr|[e Hr]]]]
                     |[(q & _ & e & Hr)
                      |[(q & vec & _ & e & Hr)
                       |(q & vec & parts & _ & [[e Hr]|[body Hr]])]]];
        try discriminate; inversion Hr; subst.
      - left. reflexivity.
      - right. eexists. eexists. split; [reflexivity|]. simpl. auto.
      - right. eexists. eexists. split; [reflexivity|]. simpl. auto. }
    destruct Hr as [->|(status & body & -> & Hin)].
    + exists 204%Z, (QueryProcessor.CORS_HEADERS rt), [].
      split; [reflexivity|]. split; [simpl; auto|exact Hcors].
    + eexists status, _, _. split; [reflexivity|].
      split; [simpl in *; intuition|exact Hbase].
  - unfold QueryProcessor.handler_except.
    destruct (QueryProcessor.debug_public_errors rt);
      (eexists 500%Z, _, _; split; [reflexivity|];
       split; [simpl; auto|exact Hbase]).
Qed.

Lemma every_response_has_cors_headers_witness :
  exists resp st',
    QueryProcessor.lambda_handler answering_runtime
      (Stub.post_event s3_question_body) Stub.start = (Ok resp, st')
    /\ exists status headers body,
         resp = VDict [(py "statusCode", VInt status);
                       (py "headers", VDict headers);
                       (py "body", VStr body)]
         /\ In status [200; 204; 400; 500]%Z
         /\ forall k v,
              In (k, v) (QueryProcessor.CORS_HEADERS answering_runtime) ->
              dict_lookup headers k = Some v.
Proof.
  eexists. eexists. split; [reflexivity|].
  apply (every_response_has_cors_headers unit answering_runtime
           (Stub.post_event s3_question_body) _ Stub.start _ eq_refl).
Defined.












(** ** The search *)

Lemma rmap_ok_map {A B} (f : A -> result B) (g : A -> B) l :
  (forall x, In x l -> f x = Ok (g x)) -> rmap f l = Ok (map g l).
Proof.
  induction l as [|x l IH]; intros H; [reflexivity|].
  cbn [rmap map]. rewrite (H x (or_introl eq_refl)). cbn [rbind].
  rewrite IH by (intros y Hy; apply H; right; exact Hy). reflexivity.
Qed.

Lemma rmap_ok_all {A B} (f : A -> result B) l :
  (forall x, In x l -> exists y, f x = Ok y) -> exists ys, rmap f l = Ok ys.
Proof.
  induction l as [|x l IH]; intros H; [eexists; reflexivity|].
  destruct (H x (or_introl eq_refl)) as [y Hy].
  destruct IH as [ys Hys]; [intros z Hz; apply H; right; exact Hz|].
  exists (y :: ys). cbn [rmap]. rewrite Hy. cbn [rbind]. rewrite Hys.
  reflexivity.
Qed.

Lemma rmap_raise_after {A B} (f : A -> result B) good bad rest e :
  (forall x, In x good -> exists y, f x = Ok y) ->
  f bad = Raise e ->
  rmap f (good ++ bad :: rest) = Raise e.
Proof.
  induction good as [|x good IH]; intros Hgood Hbad.
  - cbn [app rmap]. rewrite Hbad. reflexivity.
  - destruct (Hgood x (or_introl eq_refl)) as [y Hy].
    cbn [app rmap]. rewrite Hy. cbn [rbind].
    rewrite IH; [reflexivity| |exact Hbad].
    intros z Hz. apply Hgood. right. exact Hz.
Qed.

Lemma logged_source_well_formed h :
  well_formed_hit h = true -> exists v, QueryProcessor.logged_source h = Ok v.
Proof.
  destruct h as [| | | | | |kv]; try discriminate.
  unfold well_formed_hit, QueryProcessor.logged_source. cbn [getitem].
  destruct (dict_lookup kv (py "_source")) as [[| | | | | |src]|];
    try discriminate.
  intros _. cbn [rbind get].
  match goal with
  | |- context [truthy ?a] => destruct (truthy a)
  end; eexists; reflexivity.
Qed.

Lemma context_of_hit_well_formed h :
  well_formed_hit h = true ->
  QueryProcessor.context_of_hit h = Ok (context_of h).
Proof.
  destruct h as [| | | | | |kv]; try discriminate.
  unfold well_formed_hit, QueryProcessor.context_of_hit, context_of, member_or,
    py_or.
  cbn [get rbind].
  destruct (dict_lookup kv (py "_source")) as [[| | | | | |src]|];
    try discriminate.
  intros _. cbn [rbind get].
  match goal with
  | |- context [truthy ?a] => destruct (truthy a)
  end; reflexivity.
Qed.

Lemma search_replies W (rt : runtime W) vec k st n res w' :
  len vec = Ok n ->
  os_search rt (QueryProcessor.INDEX rt) (search_request vec k) (world st)
  = (Ok (VDict res), w') ->
  forall outer hits,
    member_or res "hits" (VDict []) = VDict outer ->
    member_or outer "hits" (VList []) = VList hits ->
    fst (QueryProcessor.search rt vec k st)
    = rbind (rmap QueryProcessor.logged_source hits)
        (fun _ => rmap QueryProcessor.context_of_hit hits).
Proof.
  intros Hlen Hos outer hits Houter Hhits.
  unfold QueryProcessor.search. rewrite bind_lift, Hlen.
  unfold bind, perform. fold (search_request vec k). rewrite Hos.
  unfold lift. cbn [fst get].
  unfold member_or in Houter, Hhits. rewrite Houter. cbn [rbind get].
  rewrite Hhits. cbn [rbind iterate].
  match goal with
  | |- context [is_dict ?t] => destruct t; reflexivity
  end.
Qed.

(** X8: When the index answers with a list of hits that are objects with an
    object [_source], the search returns one context for each hit, in the
    order of the hits: the chunk text (the empty string when the hit has
    none), the [s3_key] of the hit or else its [source], and its score.
    An answer without [hits] counts as an empty list of hits. *)
Theorem search_returns_a_context_per_hit :
  forall W (rt : runtime W) (vec : value) (k : Z) (st : state W) (n : nat)
         (res outer : list (str * value)) (hits : list value) (w' : W),
    len vec = Ok n ->
    os_search rt (QueryProcessor.INDEX rt) (search_request vec k) (world st)
    = (Ok (VDict res), w') ->
    member_or res "hits" (VDict []) = VDict outer ->
    member_or outer "hits" (VList []) = VList hits ->
    forallb well_formed_hit hits = true ->
    fst (QueryProcessor.search rt vec k st) = Ok (map context_of hits).
Proof.
  intros W rt vec k st n res outer hits w' Hlen Hos Houter Hhits Hwf.
  rewrite (search_replies W rt vec k st n res w' Hlen Hos outer hits Houter Hhits).
  rewrite forallb_forall in Hwf.
  destruct (rmap_ok_all QueryProcessor.logged_source hits) as [logged ->].
  { intros h Hh. apply logged_source_well_formed, Hwf, Hh. }
  cbn [rbind]. apply rmap_ok_map.
  intros h Hh. apply context_of_hit_well_formed, Hwf, Hh.
Qed.

Lemma search_returns_a_context_per_hit_witness :
  fst (QueryProcessor.search two_hits_runtime (VList unit_vector) 5 Stub.start)
  = Ok [VDict [(py "text", VStr (py "S3 is object storage."));
               (py "source", VStr (py "guide.txt"));
               (py "score", VFloat (py "0.9"))];
        VDict [(py "text", VStr []);
               (py "source", VStr (py "upload"));
               (py "score", VNone)]].
Proof.
  apply (search_returns_a_context_per_hit unit two_hits_runtime
           (VList unit_vector) 5 Stub.start 2 _ _ _ tt
           eq_refl eq_refl eq_refl eq_refl eq_refl).
Defined.

(** X9: A hit without [_source] makes the search raise [KeyError]: the line
    that collects the sources for the log reads [_source] without a
    default, before the contexts are built with one. *)
Theorem hit_without_source_fails_the_search :
  forall W (rt : runtime W) (vec : value) (k : Z) (st : state W) (n : nat)
         (res outer bare : list (str * value)) (good rest : list value)
         (w' : W),
    len vec = Ok n ->
    os_search rt (QueryProcessor.INDEX rt) (search_request vec k) (world st)
    = (Ok (VDict res), w') ->
    member_or res "hits" (VDict []) = VDict outer ->
    member_or outer "hits" (VList []) = VList (good ++ VDict bare :: rest) ->
    forallb well_formed_hit good = true ->
    dict_lookup bare (py "_source") = None ->
    fst (QueryProcessor.search rt vec k st) = Raise (KeyError (py "'_source'")).
Proof.
  intros W rt vec k st n res outer bare good rest w' Hlen Hos Houter Hhits
    Hwf Hbare.
  rewrite (search_replies W rt vec k st n res w' Hlen Hos outer _ Houter Hhits).
  rewrite forallb_forall in Hwf.
  rewrite (rmap_raise_after QueryProcessor.logged_source good (VDict bare) rest
             (KeyError (py "'_source'"))); [reflexivity| |].
  - intros h Hh. apply logged_source_well_formed, Hwf, Hh.
  - unfold QueryProcessor.logged_source. cbn [getitem]. rewrite Hbare.
    reflexivity.
Qed.

Lemma hit_without_source_fails_the_search_witness :
  fst (QueryProcessor.search bare_hit_runtime (VList unit_vector) 5 Stub.start)
  = Raise (KeyError (py "'_source'")).
Proof.
  apply (hit_without_source_fails_the_search unit bare_hit_runtime
           (VList unit_vector) 5 Stub.start 2 _ _
           [(py "_score", VFloat (py "0.5"))]
           [VDict [(py "_source", VDict [(py "source", VStr (py "s3"))])]]
           [] tt eq_refl eq_refl eq_refl eq_refl eq_refl eq_refl).
Defined.

(** ** The answer *)

(** X10: The answer is the text of the first block of the shape that goes
    with the model: the content list for an Anthropic model, the nested
    output otherwise.  Whatever text is there is returned as it is, the
    empty string too. *)
Theorem answer_is_the_first_block_text :
  forall W (rt : runtime W) (st : state W) (question : str)
         (contexts : list value) (parts : list str) (payload t : value)
         (n : nat) (w' : W),
    QueryProcessor.snippets rt 0 contexts = Ok parts ->
    bedrock_invoke_model rt (QueryProcessor.model_id_to_use rt)
      (dumps (QueryProcessor.request_body rt
                (QueryProcessor.build_prompt question parts))) (world st)
    = (Ok payload, w') ->
    (if QueryProcessor.is_anthropic rt then content_list_text payload
     else nested_output_text payload) = Some t ->
    len t = Ok n ->
    fst (QueryProcessor.answer_with_context rt question contexts st) = Ok t.
Proof.
  intros W rt st question contexts parts payload t n w' Hparts Hreply Ht Hlen.
  unfold QueryProcessor.answer_with_context.
  rewrite bind_lift, Hparts. unfold bind, perform, lift. rewrite Hreply.
  cbn [fst]. unfold QueryProcessor.parse_answer.
  destruct (QueryProcessor.is_anthropic rt).
  - destruct (anthropic_answer_text payload t Ht) as [-> Hn].
    cbn [rbind]. rewrite Hn, Hlen. reflexivity.
  - destruct (nested_answer_text payload t Ht) as [-> Hn].
    cbn [rbind]. rewrite Hn, Hlen. reflexivity.
Qed.

Lemma answer_is_the_first_block_text_witness :
  fst (QueryProcessor.answer_with_context empty_text_runtime (py "what is s3")
         [] Stub.start)
  = Ok (VStr []).
Proof.
  apply (answer_is_the_first_block_text unit empty_text_runtime Stub.start
           (py "what is s3") [] []
           (VDict [(py "content", VList [VDict [(py "text", VStr [])]])])
           (VStr []) 0 tt eq_refl eq_refl eq_refl eq_refl).
Defined.

(** X11: Which shape is read depends on the model identifier alone: when the
    response holds no text in the shape of the model's family, the
    answerer raises, also when the other shape holds one. *)
Theorem answer_shape_follows_the_model :
  forall W (rt : runtime W) (st : state W) (question : str)
         (contexts : list value) (parts : list str) (payload : value) (w' : W),
    QueryProcessor.snippets rt 0 contexts = Ok parts ->
    bedrock_invoke_model rt (QueryProcessor.model_id_to_use rt)
      (dumps (QueryProcessor.request_body rt
                (QueryProcessor.build_prompt question parts))) (world st)
    = (Ok payload, w') ->
    (if QueryProcessor.is_anthropic rt then content_list_text payload
     else nested_output_text payload) = None ->
    exists e,
      fst (QueryProcessor.answer_with_context rt question contexts st)
      = Raise e.
Proof.
  intros W rt st question contexts parts payload w' Hparts Hreply Hnone.
  unfold QueryProcessor.answer_with_context.
  rewrite bind_lift, Hparts. unfold bind, perform, lift. rewrite Hreply.
  cbn [fst]. unfold QueryProcessor.parse_answer.
  destruct (QueryProcessor.is_anthropic rt).
  - destruct (anthropic_answer_no_text payload Hnone) as [[[e ->] _]| ->];
      eexists; reflexivity.
  - destruct (nested_answer_no_text payload Hnone) as [[[e ->] _]| ->];
      eexists; reflexivity.
Qed.

Lemma answer_shape_follows_the_model_witness :
  nested_output_text nested_text_reply = Some (VStr (py "hi"))
  /\ exists e,
       fst (QueryProcessor.answer_with_context nested_text_runtime
              (py "what is s3") [] Stub.start)
       = Raise e.
Proof.
  split; [reflexivity|].
  apply (answer_shape_follows_the_model unit nested_text_runtime Stub.start
           (py "what is s3") [] [] nested_text_reply tt
           eq_refl eq_refl eq_refl).
Defined.

Lemma context_of_hit_shape h c :
  QueryProcessor.context_of_hit h = Ok c -> is_context c.
Proof.
  unfold is_context.
  unfold QueryProcessor.context_of_hit.
  repeat match goal with
         | |- rbind ?r _ = Ok _ -> _ =>
             destruct r; cbn [rbind]; [|discriminate]
         end.
  intros H. inversion H. eauto.
Qed.

Lemma rmap_ok_forall {A B} (f : A -> result B) (P : B -> Prop) l :
  (forall x y, f x = Ok y -> P y) ->
  forall ys, rmap f l = Ok ys -> Forall P ys /\ length ys = length l.
Proof.
  intros HP. induction l as [|x l IH]; intros ys H.
  - inversion H. split; [constructor|reflexivity].
  - cbn [rmap] in H. destruct (f x) as [y|e] eqn:Hy; [|discriminate].
    cbn [rbind] in H. destruct (rmap f l) as [ys'|e]; [|discriminate].
    inversion H; subst. destruct (IH ys' eq_refl) as [Hall Hlen].
    split; [constructor; eauto|simpl; congruence].
Qed.

Lemma snippets_of_contexts W (rt : runtime W) contexts :
  Forall is_context contexts ->
  forall i, exists parts,
    QueryProcessor.snippets rt i contexts = Ok parts
    /\ length parts = length contexts.
Proof.
  induction 1 as [|c cs (text & source & score & ->) _ IH]; intros i.
  - exists []. split; reflexivity.
  - destruct (IH (S i)) as (more & Hmore & Hlen).
    eexists. cbn [QueryProcessor.snippets]. split.
    + change (getitem (VDict [(py "text", text); (py "source", source);
                              (py "score", score)]) "text") with (Ok text).
      cbn [rbind]. rewrite Hmore. reflexivity.
    + simpl. rewrite Hlen. reflexivity.
Qed.

Lemma search_contexts_shape W (rt : runtime W) vec k st st1 contexts :
  QueryProcessor.search rt vec k st = (Ok contexts, st1) ->
  Forall is_context contexts.
Proof.
  intros Hsearch.
  unfold QueryProcessor.search in Hsearch. rewrite bind_lift in Hsearch.
  destruct (len vec); [|discriminate].
  unfold bind, perform, lift in Hsearch.
  match type of Hsearch with
  | context [os_search rt ?i ?b (world st)] =>
      destruct (os_search rt i b (world st)) as [[res|e] w]
  end; [|discriminate].
  inversion Hsearch as [[Hr Hst]]. clear Hsearch Hst.
  repeat match type of Hr with
         | rbind ?r _ = Ok _ =>
             destruct r; cbn [rbind] in Hr; [|discriminate]
         end.
  eapply rmap_ok_forall; [|exact Hr].
  intros h c Hc. apply context_of_hit_shape in Hc. exact Hc.
Qed.

(** X12: What the search returns is always fit for the answerer: it makes
    one snippet for each context, and calls the generation model with the
    prompt built from them. *)
Theorem search_results_reach_the_model :
  forall W (rt : runtime W) (vec : value) (k : Z) (question : str)
         (st st1 : state W) (contexts : list value),
    QueryProcessor.search rt vec k st = (Ok contexts, st1) ->
    exists parts,
      QueryProcessor.snippets rt 0 contexts = Ok parts
      /\ length parts = length contexts
      /\ calls (snd (QueryProcessor.answer_with_context rt question contexts st1))
         = calls st1 ++ [generation_call rt question parts].
Proof.
  intros W rt vec k question st st1 contexts Hsearch.
  pose proof (search_contexts_shape W rt vec k st st1 contexts Hsearch) as Hshape.
  destruct (snippets_of_contexts W rt contexts Hshape 0) as (parts & Hp & Hl).
  exists parts. split; [exact Hp|]. split; [exact Hl|].
  destruct (QueryProcessor.answer_with_context rt question contexts st1)
    as [r st2] eqn:Ha.
  apply answer_calls in Ha as [[_ (e & _ & Ha)]|(parts' & Hp' & Ha)].
  - congruence.
  - cbn [snd]. congruence.
Qed.

Lemma search_results_reach_the_model_witness :
  QueryProcessor.search two_hits_runtime (VList unit_vector) 5 Stub.start
  = (Ok (map context_of two_hits_list),
     snd (QueryProcessor.search two_hits_runtime (VList unit_vector) 5
            Stub.start))
  /\ exists parts,
       QueryProcessor.snippets two_hits_runtime 0
         (map context_of two_hits_list) = Ok parts
       /\ length parts = 2.
Proof.
  split; [reflexivity|].
  destruct (search_results_reach_the_model unit two_hits_runtime
              (VList unit_vector) 5 (py "what is s3") Stub.start
              (snd (QueryProcessor.search two_hits_runtime (VList unit_vector)
                      5 Stub.start))
              (map context_of two_hits_list) eq_refl)
    as (parts & Hp & Hl & _).
  exists parts. split; [exact Hp|exact Hl].
Defined.

(** ** More on the ingestion *)

Lemma ingest_embed_calls W (rt : runtime W) text st r st' :
  DocIngestor.embed rt text None None None st = (r, st') ->
  calls st' = calls st ++ [ingest_embed_call rt text].
Proof.
  unfold DocIngestor.embed, bind, perform, lift, ingest_embed_call.
  change (DocIngestor.model_or_default rt None)
    with (DocIngestor.EMBED_MODEL_ID rt).
  change (DocIngestor.native_request text None None)
    with (VDict [(py "inputText", VStr text)]).
  destruct (bedrock_invoke_model rt (DocIngestor.EMBED_MODEL_ID rt)
              (dumps (VDict [(py "inputText", VStr text)])) (world st))
    as [[payload|e] w]; intros H; inversion H; reflexivity.
Qed.

Lemma index_chunk_calls W (rt : runtime W) doc_id i chunk vec meta st r st' :
  DocIngestor.index_chunk rt doc_id i chunk vec meta st = (r, st') ->
  (calls st' = calls st /\ exists e, r = Raise e)
  \/ calls st' = calls st ++ [write_call rt doc_id i chunk vec meta].
Proof.
  unfold DocIngestor.index_chunk. rewrite bind_lift.
  destruct (len vec) as [n|e].
  - unfold perform, write_call.
    match goal with
    | |- context [os_index rt ?i ?b (world st)] =>
        destruct (os_index rt i b (world st)) as [[u|e] w]
    end; intros H; inversion H; right; reflexivity.
  - intros H. inversion H; subst. left. eauto.
Qed.

Lemma chunk_calls_nil W (rt : runtime W) doc_id meta start chunks :
  chunk_calls rt doc_id meta start chunks [] = [].
Proof. destruct chunks; reflexivity. Qed.

(** The loop over the chunks embeds and writes them in turn, and stops
    at the first failure. *)
Lemma chunk_loop_calls W (rt : runtime W) doc_id meta chunks :
  forall start st,
    exists vectors made,
      calls (snd (for_each
                    (fun i chunk_text_value =>
                       bind (DocIngestor.embed rt chunk_text_value None None None)
                         (fun vec =>
                            DocIngestor.index_chunk rt doc_id i chunk_text_value
                              vec meta))
                    start chunks st))
      = calls st ++ made
      /\ loop_outcome rt doc_id meta start chunks vectors
           (fst (for_each
                   (fun i chunk_text_value =>
                      bind (DocIngestor.embed rt chunk_text_value None None None)
                        (fun vec =>
                           DocIngestor.index_chunk rt doc_id i chunk_text_value
                             vec meta))
                   start chunks st))
           made.
Proof.
  induction chunks as [|c cs IH]; intros start st.
  - exists [], []. cbn [for_each ret fst snd]. rewrite app_nil_r.
    split; [reflexivity|]. left. repeat split.
  - cbn [for_each].
    destruct (DocIngestor.embed rt c None None None st) as [[vec|e] st0] eqn:He.
    2: { rewrite (bind_raise _ _ _ _ _ (bind_raise _ _ _ _ _ He)).
         apply ingest_embed_calls in He.
         exists [], [ingest_embed_call rt c]. cbn [fst snd].
         split; [exact He|]. right. left. exists e, c. repeat split. }
    pose proof (bind_ok _ (fun vec =>
                             DocIngestor.index_chunk rt doc_id start c vec meta)
                  _ _ _ He) as Hstep.
    apply ingest_embed_calls in He.
    destruct (DocIngestor.index_chunk rt doc_id start c vec meta st0)
      as [[u|e] st1] eqn:Hi; apply index_chunk_calls in Hi.
    + destruct u. rewrite (bind_ok _ _ _ _ _ Hstep).
      destruct Hi as [[_ [e Hi]]|Hi]; [discriminate|].
      destruct (IH (S start) st1) as (vectors & made & Hc & Ho).
      exists (vec :: vectors),
        (ingest_embed_call rt c :: write_call rt doc_id start c vec meta :: made).
      split.
      * rewrite Hc, Hi, He, <- !app_assoc. reflexivity.
      * destruct Ho as [(Hr & Hl & ->)
                       |[(e & d & Hr & Hn & ->)|(e & Hr & Hne & Hl & ->)]].
        -- left. split; [exact Hr|]. split; [simpl; congruence|reflexivity].
        -- right. left. exists e, d. split; [exact Hr|].
           split; [exact Hn|reflexivity].
        -- right. right. exists e. split; [exact Hr|].
           split; [discriminate|]. split; [simpl; lia|reflexivity].
    + rewrite (bind_raise _ _ _ _ _ Hstep). cbn [fst snd].
      destruct Hi as [[Hi _]|Hi].
      * exists [], [ingest_embed_call rt c].
        split; [rewrite Hi; exact He|]. right. left. exists e, c.
        repeat split.
      * exists [vec],
          [ingest_embed_call rt c; write_call rt doc_id start c vec meta].
        split; [rewrite Hi, He, <- app_assoc; reflexivity|].
        right. right. exists e. split; [reflexivity|].
        split; [discriminate|]. split; [simpl; lia|].
        cbn [chunk_calls]. rewrite chunk_calls_nil. reflexivity.
Qed.

(** X13: The chunks of a document are embedded and written one after the
    other, each chunk written before the next one is embedded.  When a
    call fails the loop stops there: the chunks written so far stay
    written, and no later chunk is embedded or written. *)
Theorem ingestion_stops_at_the_first_failure :
  forall W (rt : runtime W) (doc_id : str) (meta : list (str * value))
         (chunks : list str) (st : state W),
    exists vectors made,
      calls (snd (DocIngestor.index_chunks rt doc_id meta chunks st))
      = calls st ++ made
      /\ loop_outcome rt doc_id meta 0 chunks vectors
           (fst (DocIngestor.index_chunks rt doc_id meta chunks st)) made.
Proof.
  intros W rt doc_id meta chunks st. unfold DocIngestor.index_chunks.
  apply chunk_loop_calls.
Qed.

Lemma chunk_text_whitespace W (rt : runtime W) text max_len :
  (0 < max_len)%Z ->
  forallb Textwrap.whitespace text = true ->
  DocIngestor.chunk_text rt text max_len = Ok [].
Proof.
  intros Hpos Hws. unfold DocIngestor.chunk_text.
  destruct (WrapFacts.wrap_returns (isalnum rt) (isdecimal rt) text max_len Hpos)
    as (chunks & Hok & Hfuel).
  rewrite Hok. f_equal.
  pose proof (Hfuel _ (le_n _)) as Hloop.
  unfold Textwrap._split_chunks in Hloop.
  assert (Hm : forallb Textwrap.whitespace (Textwrap._munge_whitespace text) = true)
    by (apply WrapFacts.forallb_munge; [reflexivity|exact Hws]).
  rewrite (WrapFacts.split_all_whitespace _ _ _ Hm) in Hloop.
  destruct (Textwrap._munge_whitespace text) as [|c m] eqn:Hmt.
  - destruct (Textwrap.wrap_budget []); simpl in Hloop; congruence.
  - eapply WrapFacts.wrap_loop_blank_chunk; [|exact Hloop].
    unfold blank. apply forallb_forall. intros x Hx.
    rewrite forallb_forall in Hm. apply WrapFacts.whitespace_isspace. auto.
Qed.

(** X14: A document that holds nothing but spaces, tabs and line breaks
    is read and then skipped, when its key can be encoded for the digest:
    it has no chunk, so nothing is embedded and nothing is written, and
    its record counts as processed. *)
Theorem blank_document_is_skipped :
  forall W (rt : runtime W) (record bucket : value) (key text : str)
         (st : state W) (w' : W),
    DocIngestor.record_source record = Ok (bucket, VStr key) ->
    s3_get_object rt bucket (VStr key) (world st) = (Ok text, w') ->
    encode key = Ok tt ->
    forallb Textwrap.whitespace text = true ->
    DocIngestor.process_record rt record st
    = (Ok tt, State w' (calls st ++ [S3GetObject bucket (VStr key)])).
Proof.
  intros W rt record bucket key text st w' Hsrc Hs3 Hkey Hws.
  unfold DocIngestor.process_record.
  rewrite bind_lift, Hsrc. unfold bind at 1, perform. rewrite Hs3.
  rewrite bind_lift, Hkey.
  rewrite bind_lift, (chunk_text_whitespace W rt text 1200 eq_refl Hws).
  reflexivity.
Qed.

Lemma blank_document_is_skipped_witness :
  DocIngestor.process_record blank_document_runtime put_record Stub.start
  = (Ok tt,
     State tt [S3GetObject (VStr (py "docs")) (VStr (py "guide.txt"))]).
Proof.
  apply (blank_document_is_skipped unit blank_document_runtime put_record
           (VStr (py "docs")) (py "guide.txt") blank_document Stub.start tt
           eq_refl eq_refl eq_refl eq_refl).
Defined.

(** A key with a surrogate cannot be encoded: the record fails after its
    object was read. *)
Lemma surrogate_key_fails_after_the_read :
  DocIngestor.process_record blank_document_runtime surrogate_record Stub.start
  = (Raise (UnicodeEncodeError
              (py "'utf-8' codec can't encode character '\ud800' in "
               ++ py "position 1: surrogates not allowed")),
     State tt [S3GetObject (VStr (py "docs"))
                 (VStr [97; 55296; 46; 116; 120; 116]%N)]).
Proof. reflexivity. Qed.



Lemma object_reads_app a b :
  object_reads (a ++ b) = object_reads a ++ object_reads b.
Proof.
  induction a as [|c a IH]; [reflexivity|].
  destruct c; simpl; rewrite IH; reflexivity.
Qed.

Lemma object_reads_chunk_calls W (rt : runtime W) doc_id meta chunks :
  forall start vectors,
    object_reads (chunk_calls rt doc_id meta start chunks vectors) = [].
Proof.
  induction chunks as [|c cs IH]; intros start [|v vs]; try reflexivity.
  cbn [chunk_calls]. unfold ingest_embed_call, write_call.
  cbn [object_reads]. apply IH.
Qed.

Lemma object_reads_provisioning made :
  forallb is_provisioning_call made = true -> object_reads made = [].
Proof.
  induction made as [|c made IH]; [reflexivity|].
  destruct c; simpl; try discriminate; exact IH.
Qed.

Lemma ingestion_loop_reads W (rt : runtime W) doc_id meta chunks st :
  object_reads (calls (snd (DocIngestor.index_chunks rt doc_id meta chunks st)))
  = object_reads (calls st).
Proof.
  unfold DocIngestor.index_chunks.
  destruct (chunk_loop_calls W rt doc_id meta chunks 0 st)
    as (vectors & made & -> & Ho).
  rewrite object_reads_app.
  destruct Ho as [(_ & _ & ->)|[(e & c & _ & _ & ->)|(e & _ & _ & _ & ->)]];
    rewrite ?object_reads_app, object_reads_chunk_calls; simpl;
    apply app_nil_r.
Qed.

Lemma process_record_reads W (rt : runtime W) record st st' :
  DocIngestor.process_record rt record st = (Ok tt, st') ->
  exists source,
    DocIngestor.record_source record = Ok source
    /\ object_reads (calls st') = object_reads (calls st) ++ [source].
Proof.
  unfold DocIngestor.process_record. rewrite bind_lift.
  destruct (DocIngestor.record_source record) as [[bucket key]|e];
    [|discriminate].
  unfold bind at 1, perform.
  destruct (s3_get_object rt bucket key (world st)) as [[text|e] w];
    [|discriminate].
  destruct key as [| | | |key| |]; try discriminate.
  rewrite bind_lift. destruct (encode key); [|discriminate].
  rewrite bind_lift.
  destruct (DocIngestor.chunk_text rt text 1200) as [chunks|e]; [|discriminate].
  intros H. exists (bucket, VStr key). split; [reflexivity|].
  pose proof (ingestion_loop_reads W rt (md5_hexdigest rt key)
                (DocIngestor.document_meta key) chunks
                (State w (calls st ++ [S3GetObject bucket (VStr key)])))
    as Hreads.
  rewrite H in Hreads. cbn [snd calls] in Hreads.
  rewrite Hreads, object_reads_app. reflexivity.
Qed.

Lemma record_loop_reads W (rt : runtime W) items :
  forall start st st',
    for_each (fun _ record => DocIngestor.process_record rt record) start items st
    = (Ok tt, st') ->
    exists sources,
      rmap DocIngestor.record_source items = Ok sources
      /\ object_reads (calls st') = object_reads (calls st) ++ sources.
Proof.
  induction items as [|record items IH]; intros start st st' H.
  - inversion H; subst. exists []. rewrite app_nil_r. split; reflexivity.
  - cbn [for_each] in H.
    destruct (DocIngestor.process_record rt record st) as [[u|e] st1] eqn:Hp;
      [rewrite (bind_ok _ _ _ _ _ Hp) in H
      |rewrite (bind_raise _ _ _ _ _ Hp) in H; discriminate].
    destruct u. apply process_record_reads in Hp as (source & Hs & Hr).
    destruct (IH (S start) st1 st' H) as (sources & Hss & Hrs).
    exists (source :: sources). cbn [rmap]. rewrite Hs. cbn [rbind].
    rewrite Hss. split; [reflexivity|].
    rewrite Hrs, Hr, <- app_assoc. reflexivity.
Qed.

(** X16: When the ingestion handler returns, it returns [{"ok": true}], and
    it has read one object for each record of the event, in the order of
    the records, each from the bucket and under the key its record
    names. *)
Theorem batch_reads_follow_the_records :
  forall W (rt : runtime W) (event returned : value) (st st' : state W),
    DocIngestor.handler rt event st = (Ok returned, st') ->
    returned = VDict [(py "ok", VBool true)]
    /\ exists records items sources,
         get event "Records" (VList []) = Ok records
         /\ iterate records = Ok items
         /\ rmap DocIngestor.record_source items = Ok sources
         /\ object_reads (calls st') = object_reads (calls st) ++ sources.
Proof.
  intros W rt event returned st st' Hrun.
  unfold DocIngestor.handler in Hrun. rewrite bind_lift in Hrun.
  destruct (get event "Records" (VList [])) as [records|e] eqn:Hrec;
    [|discriminate].
  rewrite bind_lift in Hrun. destruct (len records); [|discriminate].
  destruct (ingestor_ensure_returns W rt st) as (st1 & H1 & prov & Hc & Hp).
  rewrite (bind_ok _ _ st tt st1 H1), !bind_lift in Hrun.
  destruct (iterate records) as [items|e] eqn:Hit; [|discriminate].
  match type of Hrun with
  | bind ?m _ _ = _ => destruct (m st1) as [[u|e] st2] eqn:Hloop
  end;
    [rewrite (bind_ok _ _ _ _ _ Hloop) in Hrun
    |rewrite (bind_raise _ _ _ _ _ Hloop) in Hrun; discriminate].
  unfold ret in Hrun. inversion Hrun; subst. split; [reflexivity|].
  destruct u. apply record_loop_reads in Hloop as (sources & Hs & Hr).
  exists records, items, sources.
  split; [reflexivity|]. split; [exact Hit|]. split; [exact Hs|].
  rewrite Hr, Hc, object_reads_app, (object_reads_provisioning prov Hp).
  rewrite app_nil_r. reflexivity.
Qed.

Lemma batch_reads_follow_the_records_witness :
  DocIngestor.handler short_document_runtime two_records Stub.start
  = (Ok (VDict [(py "ok", VBool true)]),
     snd (DocIngestor.handler short_document_runtime two_records Stub.start))
  /\ object_reads
       (calls (snd (DocIngestor.handler short_document_runtime two_records
                      Stub.start)))
     = [(VStr (py "docs"), VStr (py "guide.txt"));
        (VStr (py "docs"), VStr (py "faq.txt"))].
Proof.
  split; [vm_compute; reflexivity|].
  destruct (batch_reads_follow_the_records unit short_document_runtime
              two_records (VDict [(py "ok", VBool true)]) Stub.start
              (snd (DocIngestor.handler short_document_runtime two_records
                      Stub.start)))
    as (_ & records & items & sources & Hrec & Hit & Hs & Hr).
  - vm_compute. reflexivity.
  - rewrite Hr. inversion Hrec; subst records. inversion Hit; subst items.
    inversion Hs. reflexivity.
Defined.

Lemma numbering_of_contexts W (rt : runtime W) contexts :
  Forall is_context contexts ->
  forall i0 parts,
    QueryProcessor.snippets rt i0 contexts = Ok parts ->
    forall j c,
      nth_error contexts j = Some c ->
      exists text source score,
        c = VDict [(py "text", text); (py "source", source);
                   (py "score", score)]
        /\ nth_error (QueryProcessor.numbered_sources i0 contexts) j
           = Some (VDict [(py "snippet_index", VInt (Z.of_nat (i0 + j + 1)));
                          (py "text", text); (py "source", source);
                          (py "score", score)])
        /\ nth_error parts j
           = Some (py "Snippet " ++ decimal (Z.of_nat (i0 + j + 1)) ++ py ":"
                   ++ [10%N] ++ QueryProcessor.formatted rt text).
Proof.
  induction 1 as [|c cs (text & source & score & ->) _ IH];
    intros i0 parts Hparts j d Hj.
  - destruct j; discriminate.
  - cbn [QueryProcessor.snippets] in Hparts.
    change (getitem (VDict [(py "text", text); (py "source", source);
                            (py "score", score)]) "text")
      with (Ok text) in Hparts.
    cbn [rbind] in Hparts.
    destruct (QueryProcessor.snippets rt (S i0) cs) as [more|e] eqn:Hmore;
      [|discriminate].
    inversion Hparts; subst parts. clear Hparts.
    destruct j as [|j].
    + inversion Hj; subst d. exists text, source, score.
      rewrite Nat.add_0_r. repeat split.
    + cbn [nth_error] in Hj.
      destruct (IH (S i0) more Hmore j d Hj)
        as (t & s & sc & -> & Hsrc & Hpart).
      exists t, s, sc. split; [reflexivity|].
      replace (i0 + S j + 1) with (S i0 + j + 1) by lia.
      split; [exact Hsrc|exact Hpart].
Qed.

(** X17: The snippets of the prompt and the sources of the response are
    numbered alike: for the contexts a search returned, the entry of the
    [sources] list at position i has [snippet_index] i+1 followed by the
    text, source and score of the context, and the snippet at position i
    of the prompt is headed [Snippet i+1:] and holds the same text. *)
Theorem snippet_numbers_match_sources :
  forall W (rt : runtime W) (vec : value) (k : Z) (st st1 : state W)
         (contexts : list value),
    QueryProcessor.search rt vec k st = (Ok contexts, st1) ->
    exists parts,
      QueryProcessor.snippets rt 0 contexts = Ok parts
      /\ forall i c,
           nth_error contexts i = Some c ->
           exists text source score,
             c = VDict [(py "text", text); (py "source", source);
                        (py "score", score)]
             /\ nth_error (QueryProcessor.numbered_sources 0 contexts) i
                = Some (VDict [(py "snippet_index", VInt (Z.of_nat (i + 1)));
                               (py "text", text); (py "source", source);
                               (py "score", score)])
             /\ nth_error parts i
                = Some (py "Snippet " ++ decimal (Z.of_nat (i + 1)) ++ py ":"
                        ++ [10%N] ++ QueryProcessor.formatted rt text).
Proof.
  intros W rt vec k st st1 contexts Hsearch.
  pose proof (search_contexts_shape W rt vec k st st1 contexts Hsearch) as Hshape.
  destruct (snippets_of_contexts W rt contexts Hshape 0) as (parts & Hp & _).
  exists parts. split; [exact Hp|].
  intros i c Hi.
  exact (numbering_of_contexts W rt contexts Hshape 0 parts Hp i c Hi).
Qed.

Lemma snippet_numbers_match_sources_witness :
  QueryProcessor.search two_hits_runtime (VList unit_vector) 5 Stub.start
  = (Ok (map context_of two_hits_list),
     snd (QueryProcessor.search two_hits_runtime (VList unit_vector) 5
            Stub.start))
  /\ exists parts,
       QueryProcessor.snippets two_hits_runtime 0
         (map context_of two_hits_list) = Ok parts
       /\ nth_error parts 1 = Some (py "Snippet 2:" ++ [10%N])
       /\ nth_error
            (QueryProcessor.numbered_sources 0 (map context_of two_hits_list)) 1
          = Some (VDict [(py "snippet_index", VInt 2);
                         (py "text", VStr []);
                         (py "source", VStr (py "upload"));
                         (py "score", VNone)]).
Proof.
  split; [reflexivity|].
  destruct (snippet_numbers_match_sources unit two_hits_runtime
              (VList unit_vector) 5 Stub.start
              (snd (QueryProcessor.search two_hits_runtime (VList unit_vector)
                      5 Stub.start))
              (map context_of two_hits_list) eq_refl)
    as (parts & Hp & Hnum).
  exists parts. split; [exact Hp|].
  destruct (Hnum 1 _ eq_refl) as (text & source & score & Hc & Hsrc & Hpart).
  inversion Hc; subst. split; [exact Hpart|exact Hsrc].
Defined.

(** ** The embedders, the index and the log *)

(** X18: An [embedding] member that has no length, such as [null] or a
    number, makes both embedders raise the [TypeError] of [len]: the
    dimension is computed for the log line before the embedding is
    returned.  The ingestion embedder does not go on to the nested
    outputs. *)
Theorem unsized_embedding_is_rejected :
  forall W (rt : runtime W) (text : str) (st : state W)
         (kv : list (str * value)) (v : value) (e : exn) (w' : W),
    bedrock_invoke_model rt (DocIngestor.EMBED_MODEL_ID rt)
      (dumps (VDict [(py "inputText", VStr text)])) (world st)
    = (Ok (VDict kv), w') ->
    dict_lookup kv (py "embedding") = Some v ->
    len v = Raise e ->
    fst (DocIngestor.embed rt text None None None st) = Raise e
    /\ fst (QueryProcessor.embed rt text st) = Raise e.
Proof.
  intros W rt text st kv v e w' Hreply Hv Hlen. split.
  - unfold DocIngestor.embed, bind, perform, lift.
    change (DocIngestor.model_or_default rt None)
      with (DocIngestor.EMBED_MODEL_ID rt).
    change (DocIngestor.native_request text None None)
      with (VDict [(py "inputText", VStr text)]).
    rewrite Hreply. cbn [fst]. unfold DocIngestor.parse_embedding.
    cbn [py_in getitem rbind]. rewrite Hv. cbn [rbind]. rewrite Hlen.
    reflexivity.
  - unfold QueryProcessor.embed, bind, perform, lift.
    change (QueryProcessor.EMBED_MODEL_ID rt)
      with (DocIngestor.EMBED_MODEL_ID rt).
    rewrite Hreply. cbn [fst getitem rbind]. rewrite Hv. cbn [rbind].
    rewrite Hlen. reflexivity.
Qed.

Lemma unsized_embedding_is_rejected_witness :
  fst (DocIngestor.embed null_embedding_runtime (py "what is s3")
         None None None Stub.start)
  = Raise (TypeError (py "object of type 'NoneType' has no len()"))
  /\ fst (QueryProcessor.embed null_embedding_runtime (py "what is s3")
            Stub.start)
     = Raise (TypeError (py "object of type 'NoneType' has no len()")).
Proof.
  apply (unsized_embedding_is_rejected unit null_embedding_runtime
           (py "what is s3") Stub.start null_embedding_reply VNone
           (TypeError (py "object of type 'NoneType' has no len()")) tt
           eq_refl eq_refl eq_refl).
Defined.

Lemma str_eqb_true (a b : str) : str_eqb a b = true -> a = b.
Proof.
  unfold str_eqb. destruct (list_eq_dec N.eq_dec a b); [auto|discriminate].
Qed.

Lemma str_eqb_refl (a : str) : str_eqb a a = true.
Proof.
  unfold str_eqb. destruct (list_eq_dec N.eq_dec a a); [reflexivity|congruence].
Qed.

Lemma str_eqb_sym_false (a b : str) : str_eqb a b = false -> str_eqb b a = false.
Proof.
  unfold str_eqb. destruct (list_eq_dec N.eq_dec a b); [discriminate|].
  intros _. destruct (list_eq_dec N.eq_dec b a); [congruence|reflexivity].
Qed.

Lemma dict_lookup_set kv k v k' :
  dict_lookup (dict_set kv k v) k'
  = if str_eqb k k' then Some v else dict_lookup kv k'.
Proof.
  induction kv as [|[k0 v0] kv IH]; cbn [dict_set dict_lookup].
  - reflexivity.
  - destruct (str_eqb k0 k) eqn:H0; cbn [dict_lookup].
    + apply str_eqb_true in H0. subst k0.
      destruct (str_eqb k k'); reflexivity.
    + rewrite IH. destruct (str_eqb k0 k') eqn:H1; [|reflexivity].
      apply str_eqb_true in H1. subst k0. rewrite str_eqb_sym_false; auto.
Qed.

Lemma dict_lookup_app a b k :
  dict_lookup (a ++ b) k
  = match dict_lookup a k with
    | Some v => Some v
    | None => dict_lookup b k
    end.
Proof.
  induction a as [|[k0 v0] a IH]; [reflexivity|].
  cbn [app dict_lookup]. destruct (str_eqb k0 k); [reflexivity|exact IH].
Qed.

Lemma dict_lookup_merge extra : forall base k,
  dict_lookup (dict_merge base extra) k
  = match dict_lookup (rev extra) k with
    | Some v => Some v
    | None => dict_lookup base k
    end.
Proof.
  unfold dict_merge. induction extra as [|[k0 v0] extra IH]; intros base k.
  - reflexivity.
  - cbn [fold_left rev fst snd]. rewrite IH, dict_lookup_app, dict_lookup_set.
    cbn [dict_lookup].
    destruct (dict_lookup (rev extra) k); [reflexivity|].
    destruct (str_eqb k0 k); reflexivity.
Qed.

(** X19: In the document written for a chunk the metadata comes last: a
    member of the metadata replaces the chunk's own [doc_id], [chunk_id],
    [chunk_text] or [embedding] of the same name, and every other member
    is the chunk's own. *)
Theorem metadata_overrides_chunk_fields :
  forall (doc_id : str) (i : nat) (chunk : str) (vec : value)
         (meta : list (str * value)) (k : str),
    dict_lookup (fields (DocIngestor.chunk_document doc_id i chunk vec meta)) k
    = match dict_lookup (rev meta) k with
      | Some v => Some v
      | None =>
          dict_lookup [(py "doc_id", VStr doc_id);
                       (py "chunk_id", VInt (Z.of_nat i));
                       (py "chunk_text", VStr chunk);
                       (py "embedding", vec)] k
      end.
Proof.
  intros doc_id i chunk vec meta k.
  unfold DocIngestor.chunk_document, fields. apply dict_lookup_merge.
Qed.

(** X20: In both Lambdas the index is created only when the existence check
    answers that it is missing: after a positive answer, and after a
    check that fails, no creation is attempted. *)
Theorem index_is_created_only_when_missing :
  forall W (rt : runtime W) (st : state W),
    calls (snd (DocIngestor.ensure_index_exists rt st))
    = calls st
      ++ IndicesExists (DocIngestor.OPENSEARCH_INDEX rt)
         :: match fst (os_indices_exists rt (DocIngestor.OPENSEARCH_INDEX rt)
                         (world st)) with
            | Ok false =>
                [IndicesCreate (DocIngestor.OPENSEARCH_INDEX rt) index_config]
            | _ => []
            end
    /\ calls (snd (QueryProcessor.ensure_index_exists rt st))
       = calls st
         ++ IndicesExists (QueryProcessor.INDEX rt)
            :: match fst (os_indices_exists rt (QueryProcessor.INDEX rt)
                            (world st)) with
               | Ok false =>
                   [IndicesCreate (QueryProcessor.INDEX rt) index_config]
               | _ => []
               end.
Proof.
  intros W rt st. split.
  - unfold DocIngestor.ensure_index_exists, try_except, bind, perform, ret.
    destruct (os_indices_exists rt (DocIngestor.OPENSEARCH_INDEX rt) (world st))
      as [[[|]|e] w1]; cbn -[index_config]; try reflexivity.
    destruct (os_indices_create rt (DocIngestor.OPENSEARCH_INDEX rt)
                index_config w1) as [[u|e] w2];
      cbn -[index_config]; rewrite <- app_assoc; reflexivity.
  - unfold QueryProcessor.ensure_index_exists, try_except, bind, perform, ret.
    destruct (os_indices_exists rt (QueryProcessor.INDEX rt) (world st))
      as [[[|]|e] w1]; cbn -[index_config]; try reflexivity.
    destruct (os_indices_create rt (QueryProcessor.INDEX rt)
                index_config w1) as [[u|e] w2];
      cbn -[index_config]; rewrite <- app_assoc; reflexivity.
Qed.

Lemma emit_all {R} (format : R -> result str) records : forall buffered,
  fold_left (Buffered.emit format) records buffered
  = buffered ++ Buffered.formatted_lines format records.
Proof.
  induction records as [|r records IH]; intros buffered.
  - cbn. rewrite app_nil_r. reflexivity.
  - cbn [fold_left Buffered.formatted_lines]. rewrite IH.
    unfold Buffered.emit. destruct (format r) as [line|e]; [|reflexivity].
    rewrite <- app_assoc. reflexivity.
Qed.

(** X21: The log buffer of an invocation holds, in the order they were
    logged, the lines of the records that could be formatted, one per
    line; a record whose formatting raises is left out and raises
    nothing. *)
Theorem log_buffer_keeps_formatted_records :
  forall (R : Type) (format : R -> result str) (records : list R),
    Buffered.get_value (fold_left (Buffered.emit format) records [])
    = join [10%N] (Buffered.formatted_lines format records).
Proof.
  intros R format records. unfold Buffered.get_value.
  rewrite emit_all. reflexivity.
Qed.

